(** * wff-tools: the 3TZ archive reader, GLB framing and glTF metadata decoder

    A shallow embedding of the Python sources [archive3tz.py], [index3tz.py],
    [glbjson.py], [subtreejson.py], [imgutils.py] and [gltf.py], followed by
    theorems about them.

    Conventions.
    - A Python [bytes] object is a [list byte]; a Python [str] is the
      [string] of its UTF-8 encoding, so [encode('utf-8')] is
      [list_byte_of_string] and [decode('utf-8')] is a validity check.
    - A Python [int] is a [Z]; a Python [float] is a binary64 [spec_float].
    - A Python exception is a constructor of [exn]; a function that can raise
      returns a [result].  The f-string text of a message is kept up to its
      constant prefix.
    - [struct] and [memoryview] native formats are read on a little-endian
      host with 8-byte [Q], the only hosts the 3TZ format is defined for.
    - [math.floor(low + (high - low) / 2)] and [math.ceil(n / 8)] go through
      Python floats; they are modelled by exact integer arithmetic, which
      agrees with them below 2^53. *)

From Stdlib Require Import ZArith List String Ascii Lia Bool Sorted.
From Stdlib.Strings Require Import Byte.
From Stdlib Require Import SpecFloat.
From coqutil Require Import Word.LittleEndianList.
From coqutil Require Byte.
Import ListNotations.
Local Open Scope Z_scope.
Local Open Scope list_scope.
Set Warnings "-register-all".

(* ===================================================================== *)
(** * Python values, exceptions and the built-ins the sources use        *)
(* ===================================================================== *)

Module Py.

Definition bytes := list byte.

(** The exceptions the modelled code can raise. *)
Inductive exn : Type :=
| IndexError
| KeyError (key : string)
| StructError
| TypeError
| ValueError (msg : string)
| OSError
| OverflowError
| UnicodeDecodeError
| AssertionError (msg : string)
| NotImplementedError (msg : string)
| Exception (msg : string)
| BackendError
| UnboundLocalError
| ZeroDivisionError
(** Not a Python exception: a loop of the model used up its bound.  The
    theorems below show that this never happens. *)
| OutOfFuel.

Inductive result (A : Type) : Type :=
| Ok (a : A)
| Raise (e : exn).
Arguments Ok {A} a.
Arguments Raise {A} e.

Definition bind {A B} (r : result A) (k : A -> result B) : result B :=
  match r with
  | Ok a => k a
  | Raise e => Raise e
  end.

(** A [for] loop that builds a list, stopping at the first exception. *)
Fixpoint mapM {A B} (f : A -> result B) (l : list A) : result (list B) :=
  match l with
  | [] => Ok []
  | a :: r =>
      match f a with
      | Raise e => Raise e
      | Ok b => match mapM f r with
                | Raise e => Raise e
                | Ok bs => Ok (b :: bs)
                end
      end
  end.

(** [range(0, n)] *)
Definition range (n : Z) : list Z := map Z.of_nat (seq 0 (Z.to_nat n)).

(** [d[key]] on a JSON object whose key may be absent. *)
Definition getitem {A} (key : string) (o : option A) : result A :=
  match o with
  | Some a => Ok a
  | None => Raise (KeyError key)
  end.

(** [l[i]] on a list or tuple, negative indices counting from the end. *)
Definition index {A} (l : list A) (i : Z) : result A :=
  let n := Z.of_nat (List.length l) in
  let j := if i <? 0 then i + n else i in
  if (0 <=? j) && (j <? n)
  then match nth_error l (Z.to_nat j) with
       | Some a => Ok a
       | None => Raise IndexError
       end
  else Raise IndexError.

(** Slice bounds as Python normalises them. *)
Definition clamp (n i : Z) : Z :=
  if i <? 0 then Z.max (i + n) 0 else Z.min i n.

(** [l[a:b]] *)
Definition slice {A} (l : list A) (a b : Z) : list A :=
  let n := Z.of_nat (List.length l) in
  let a' := clamp n a in
  let b' := clamp n b in
  firstn (Z.to_nat (b' - a')) (skipn (Z.to_nat a') l).

(** [l[a:]] *)
Definition slice_from {A} (l : list A) (a : Z) : list A :=
  skipn (Z.to_nat (clamp (Z.of_nat (List.length l)) a)) l.

Definition len {A} (l : list A) : Z := Z.of_nat (List.length l).

(** [int.from_bytes(b, byteorder='little')] *)
Definition int_from_bytes (b : bytes) : Z := le_combine b.

(** [v.to_bytes(n, byteorder='little')] for a constant in range. *)
Definition to_bytes (n : nat) (v : Z) : bytes := le_split n v.

(** Two's complement reading of an unsigned [size]-byte value. *)
Definition to_signed (size : nat) (u : Z) : Z :=
  if u <? 2 ^ (8 * Z.of_nat size - 1) then u else u - 2 ^ (8 * Z.of_nat size).

Fixpoint chunks (size n : nat) (data : bytes) : list bytes :=
  match n with
  | O => []
  | S k => firstn size data :: chunks size k (skipn size data)
  end.

(** [struct.unpack('<' + str(count) + c, data)] for an integer code [c] of
    [size] bytes: the buffer must hold exactly [count * size] bytes; a
    negative count is a bad format. *)
Definition unpack_ints (signed : bool) (size : nat) (count : Z) (data : bytes)
  : result (list Z) :=
  if (0 <=? count) && (len data =? count * Z.of_nat size)
  then Ok (map (fun c => if signed then to_signed size (le_combine c)
                         else le_combine c)
               (chunks size (Z.to_nat count) data))
  else Raise StructError.

(** [struct.pack('<Q', v)] *)
Definition pack_Q (v : Z) : result bytes :=
  if (0 <=? v) && (v <? 2 ^ 64) then Ok (le_split 8 v) else Raise StructError.

(** [needle] occurs in [hay] at the head. *)
Fixpoint starts_with (needle hay : bytes) : bool :=
  match needle, hay with
  | [], _ => true
  | _ :: _, [] => false
  | a :: n', b :: h' => Byte.eqb a b && starts_with n' h'
  end.

(** [hay.rfind(needle)], scanning the suffixes of [hay] from position
    [pos]: the highest index of an occurrence, or -1. *)
Fixpoint rfind_from (pos : Z) (hay needle : bytes) : Z :=
  match hay with
  | [] => if starts_with needle [] then pos else -1
  | _ :: t =>
      let r := rfind_from (pos + 1) t needle in
      if 0 <=? r then r
      else if starts_with needle hay then pos else -1
  end.

Definition rfind (hay needle : bytes) : Z := rfind_from 0 hay needle.

(** ** UTF-8 *)

Definition is_cont (b : byte) : bool :=
  let v := Byte.byte.unsigned b in (128 <=? v) && (v <=? 191).

Definition in_range (lo hi : Z) (b : byte) : bool :=
  let v := Byte.byte.unsigned b in (lo <=? v) && (v <=? hi).

(** Well-formed UTF-8 as the strict codec accepts it: no overlong forms,
    no surrogates, nothing above U+10FFFF. *)
Fixpoint utf8_valid (b : bytes) {struct b} : bool :=
  match b with
  | [] => true
  | b0 :: r =>
      let v := Byte.byte.unsigned b0 in
      if v <=? 127 then utf8_valid r
      else if (194 <=? v) && (v <=? 223) then
        match r with
        | b1 :: r' => is_cont b1 && utf8_valid r'
        | _ => false
        end
      else if (224 <=? v) && (v <=? 239) then
        match r with
        | b1 :: b2 :: r' =>
            (if v =? 224 then in_range 160 191 b1
             else if v =? 237 then in_range 128 159 b1
             else is_cont b1)
            && is_cont b2 && utf8_valid r'
        | _ => false
        end
      else if (240 <=? v) && (v <=? 244) then
        match r with
        | b1 :: b2 :: b3 :: r' =>
            (if v =? 240 then in_range 144 191 b1
             else if v =? 244 then in_range 128 143 b1
             else is_cont b1)
            && is_cont b2 && is_cont b3 && utf8_valid r'
        | _ => false
        end
      else false
  end.

(** [b.decode('utf-8')] *)
Definition decode_utf8 (b : bytes) : result string :=
  if utf8_valid b then Ok (string_of_list_byte b) else Raise UnicodeDecodeError.

(** [s.encode('utf-8')] *)
Definition encode_utf8 (s : string) : bytes := list_byte_of_string s.

End Py.

Import Py.

Notation "x <- c ;; k" := (Py.bind c (fun x => k))
  (at level 61, c at next level, right associativity).

(* ===================================================================== *)
(** * hashlib.md5 (RFC 1321)                                              *)
(* ===================================================================== *)

(** [hashlib.md5] is a library function; it is modelled by the algorithm of
    RFC 1321 and checked against the RFC's test suite below. *)
Module MD5.

Definition mask32 : Z := 4294967295.
Definition add32 (a b : Z) : Z := Z.land (a + b) mask32.
Definition rotl32 (x : Z) (c : Z) : Z :=
  Z.land (Z.lor (Z.shiftl x c) (Z.shiftr x (32 - c))) mask32.
Definition not32 (x : Z) : Z := Z.lxor x mask32.

Definition K : list Z :=
  [ 0xd76aa478; 0xe8c7b756; 0x242070db; 0xc1bdceee;
    0xf57c0faf; 0x4787c62a; 0xa8304613; 0xfd469501;
    0x698098d8; 0x8b44f7af; 0xffff5bb1; 0x895cd7be;
    0x6b901122; 0xfd987193; 0xa679438e; 0x49b40821;
    0xf61e2562; 0xc040b340; 0x265e5a51; 0xe9b6c7aa;
    0xd62f105d; 0x02441453; 0xd8a1e681; 0xe7d3fbc8;
    0x21e1cde6; 0xc33707d6; 0xf4d50d87; 0x455a14ed;
    0xa9e3e905; 0xfcefa3f8; 0x676f02d9; 0x8d2a4c8a;
    0xfffa3942; 0x8771f681; 0x6d9d6122; 0xfde5380c;
    0xa4beea44; 0x4bdecfa9; 0xf6bb4b60; 0xbebfbc70;
    0x289b7ec6; 0xeaa127fa; 0xd4ef3085; 0x04881d05;
    0xd9d4d039; 0xe6db99e5; 0x1fa27cf8; 0xc4ac5665;
    0xf4292244; 0x432aff97; 0xab9423a7; 0xfc93a039;
    0x655b59c3; 0x8f0ccc92; 0xffeff47d; 0x85845dd1;
    0x6fa87e4f; 0xfe2ce6e0; 0xa3014314; 0x4e0811a1;
    0xf7537e82; 0xbd3af235; 0x2ad7d2bb; 0xeb86d391 ].

Definition S : list Z :=
  [ 7; 12; 17; 22; 7; 12; 17; 22; 7; 12; 17; 22; 7; 12; 17; 22;
    5; 9; 14; 20; 5; 9; 14; 20; 5; 9; 14; 20; 5; 9; 14; 20;
    4; 11; 16; 23; 4; 11; 16; 23; 4; 11; 16; 23; 4; 11; 16; 23;
    6; 10; 15; 21; 6; 10; 15; 21; 6; 10; 15; 21; 6; 10; 15; 21 ].

Record state := mk { sa : Z; sb : Z; sc : Z; sd : Z }.

Definition init : state :=
  mk 0x67452301 0xefcdab89 0x98badcfe 0x10325476.

(** One of the 64 operations of a block, on message words [M]. *)
Definition step (M : list Z) (st : state) (i : nat) : state :=
  let '(mk a b c d) := st in
  let iz := Z.of_nat i in
  let '(f, g) :=
    if iz <? 16 then (Z.lor (Z.land b c) (Z.land (not32 b) d), iz)
    else if iz <? 32 then
      (Z.lor (Z.land d b) (Z.land (not32 d) c), (5 * iz + 1) mod 16)
    else if iz <? 48 then (Z.lxor b (Z.lxor c d), (3 * iz + 5) mod 16)
    else (Z.lxor c (Z.lor b (not32 d)), (7 * iz) mod 16) in
  let f' := add32 (add32 (add32 f a) (nth i K 0)) (nth (Z.to_nat g) M 0) in
  mk d (add32 b (rotl32 f' (nth i S 0))) b c.

Definition block (st : state) (blk : bytes) : state :=
  let M := map le_combine (chunks 4 16 blk) in
  let st' := fold_left (step M) (seq 0 64) st in
  mk (add32 (sa st) (sa st')) (add32 (sb st) (sb st'))
     (add32 (sc st) (sc st')) (add32 (sd st) (sd st')).

(** The message followed by 0x80, zeros up to 56 mod 64, and the bit
    length on 8 bytes. *)
Definition pad (msg : bytes) : bytes :=
  let n := Py.len msg in
  let zeros := Z.to_nat ((55 - n) mod 64) in
  msg ++ [x80] ++ repeat x00 zeros ++ le_split 8 (8 * n).

Definition digest (msg : bytes) : bytes :=
  let p := pad msg in
  let st := fold_left block (chunks 64 (List.length p / 64) p) init in
  le_split 4 (sa st) ++ le_split 4 (sb st)
    ++ le_split 4 (sc st) ++ le_split 4 (sd st).

(** [struct.unpack("QQ", hashlib.md5(s.encode('utf-8')).digest())] *)
Definition halves (s : string) : Z * Z :=
  let d := digest (Py.encode_utf8 s) in
  (le_combine (firstn 8 d), le_combine (skipn 8 d)).

End MD5.

(* ===================================================================== *)
(** * archive3tz.py                                                       *)
(* ===================================================================== *)

Module archive3tz.

Definition ENDOFCENTRALDIRECTORY : bytes := Py.to_bytes 4 0x06054b50.
Definition STARTOFCENTRALDIRECTORY : bytes := Py.to_bytes 4 0x02014b50.
Definition LOCALFILEHEADERSIGNATURE : bytes := Py.to_bytes 4 0x04034b50.
Definition LOCALFILEHEADERSIZE : Z := 30.
Definition ZIP64_EXTENDED_INFORMATION_EXTRA_SIGNATURE : Z := 0x0001.
Definition ZIP_COMPRESSION_METHOD_DEFLATE : bytes := Py.to_bytes 2 0x08.
Definition ZIP_COMPRESSION_METHOD_STORE : bytes := Py.to_bytes 2 0x00.
Definition ZIP_COMPRESSION_METHOD_ZSTD : bytes := Py.to_bytes 2 0x5d.
Definition ZIP_COMPRESSION_METHOD_ZSTD_OLD : bytes := Py.to_bytes 2 0x17.

Definition bytes_eqb (a b : bytes) : bool :=
  if list_eq_dec Byte.byte_eq_dec a b then true else false.

(** ** An open binary file: its contents and the read position *)

Record file := mkfile { contents : bytes; position : Z }.

(** [file.seek(p)] on a file opened with [open(path, 'rb')]: a negative
    position is EINVAL, one beyond a signed 64-bit offset does not convert.
    (A position past the largest offset of the file system is EINVAL too;
    the theorems that need a seek to succeed keep the position within the
    file.) *)
Definition seek (f : file) (p : Z) : result file :=
  if p <? 0 then Raise OSError
  else if 2 ^ 63 <=? p
  then Raise (ValueError "cannot fit 'int' into an offset-sized integer")
  else Ok (mkfile (contents f) p).

(** [file.read(n)] for [n >= 0] *)
Definition read (f : file) (n : Z) : bytes * file :=
  let data := Py.slice (contents f) (position f) (position f + n) in
  (data, mkfile (contents f) (position f + Py.len data)).

(** [file.read()] *)
Definition read_all (f : file) : bytes * file :=
  let data := Py.slice_from (contents f) (position f) in
  (data, mkfile (contents f) (position f + Py.len data)).

(** ** Central directory entries and local file headers *)

Record CDE := mkCDE {
  cde_signature : bytes;
  cde_version : bytes;
  cde_versionNeeded : bytes;
  cde_generalBits : bytes;
  cde_compressionMethod : bytes;
  cde_lastModTime : bytes;
  cde_lastModDate : bytes;
  cde_crc32 : bytes;
  cde_compressedSize : Z;
  cde_uncompressedSize : Z;
  cde_filenameLength : Z;
  cde_extraFieldLength : Z;
  cde_fileCommentLength : Z;
  cde_distNumber : Z;
  cde_internalFileAttributes : bytes;
  cde_externalFileAttributes : bytes;
  cde_relativeOffsetOfLocalHeader : Z;
  cde_filename : string;
  cde_extraField : bytes;
  cde_fileComment : bytes
}.

Definition parseCentralDirectoryEntry (b : bytes) : result CDE :=
  let filenameLength := Py.int_from_bytes (Py.slice b 28 30) in
  let extraFieldLength := Py.int_from_bytes (Py.slice b 30 32) in
  let fileCommentLength := Py.int_from_bytes (Py.slice b 32 34) in
  filename <- Py.decode_utf8 (Py.slice b 46 (46 + filenameLength)) ;;
  Ok {| cde_signature := Py.slice b 0 4;
        cde_version := Py.slice b 4 6;
        cde_versionNeeded := Py.slice b 6 8;
        cde_generalBits := Py.slice b 8 10;
        cde_compressionMethod := Py.slice b 10 12;
        cde_lastModTime := Py.slice b 12 14;
        cde_lastModDate := Py.slice b 14 16;
        cde_crc32 := Py.slice b 16 20;
        cde_compressedSize := Py.int_from_bytes (Py.slice b 20 24);
        cde_uncompressedSize := Py.int_from_bytes (Py.slice b 24 28);
        cde_filenameLength := filenameLength;
        cde_extraFieldLength := extraFieldLength;
        cde_fileCommentLength := fileCommentLength;
        cde_distNumber := Py.int_from_bytes (Py.slice b 34 36);
        cde_internalFileAttributes := Py.slice b 36 38;
        cde_externalFileAttributes := Py.slice b 38 42;
        cde_relativeOffsetOfLocalHeader := Py.int_from_bytes (Py.slice b 42 46);
        cde_filename := filename;
        cde_extraField :=
          Py.slice b (46 + filenameLength) (46 + filenameLength + extraFieldLength);
        cde_fileComment :=
          Py.slice b (46 + filenameLength + extraFieldLength)
            (46 + filenameLength + extraFieldLength + fileCommentLength) |}.

Record LFH := mkLFH {
  lfh_signature : bytes;
  lfh_versionNeeded : bytes;
  lfh_generalBits : bytes;
  lfh_compressionMethod : bytes;
  lfh_lastModTime : bytes;
  lfh_lastModDate : bytes;
  lfh_crc32 : bytes;
  lfh_compressedSize : Z;
  lfh_uncompressedSize : Z;
  lfh_filenameLength : Z;
  lfh_extraFieldLength : Z;
  lfh_filename : string;
  lfh_extraField : bytes
}.

Definition getLocalFileHeaderAtOffset (f : file) (offset : Z)
  : result (LFH * file) :=
  f1 <- seek f offset ;;
  let '(b, f2) := read f1 (LOCALFILEHEADERSIZE + 100) in
  let filenameLength := Py.int_from_bytes (Py.slice b 26 28) in
  let extraFieldLength := Py.int_from_bytes (Py.slice b 28 30) in
  filename <- Py.decode_utf8
    (Py.slice b LOCALFILEHEADERSIZE (LOCALFILEHEADERSIZE + filenameLength)) ;;
  Ok ({| lfh_signature := Py.slice b 0 4;
         lfh_versionNeeded := Py.slice b 4 6;
         lfh_generalBits := Py.slice b 6 8;
         lfh_compressionMethod := Py.slice b 8 10;
         lfh_lastModTime := Py.slice b 10 12;
         lfh_lastModDate := Py.slice b 12 14;
         lfh_crc32 := Py.slice b 14 18;
         lfh_compressedSize := Py.int_from_bytes (Py.slice b 18 22);
         lfh_uncompressedSize := Py.int_from_bytes (Py.slice b 22 26);
         lfh_filenameLength := filenameLength;
         lfh_extraFieldLength := extraFieldLength;
         lfh_filename := filename;
         lfh_extraField :=
           Py.slice b (LOCALFILEHEADERSIZE + filenameLength)
             (LOCALFILEHEADERSIZE + filenameLength + extraFieldLength) |},
      f2).

(** The [while currentPos < cde.get('extraFieldLength')] loop.  Every
    round advances [currentPos] by at least 4. *)
Fixpoint zip64_scan (fuel : nat) (f : file) (cde : CDE) (currentPos : Z)
  : result (option LFH * file) :=
  if currentPos <? cde_extraFieldLength cde then
    match fuel with
    | O => Raise OutOfFuel
    | S k =>
        let b := cde_extraField cde in
        hh <- Py.unpack_ints false 2 2 (Py.slice b currentPos (currentPos + 4)) ;;
        extra_tag <- Py.index hh 0 ;;
        extra_size <- Py.index hh 1 ;;
        if (extra_tag =? ZIP64_EXTENDED_INFORMATION_EXTRA_SIGNATURE)
           && (extra_size =? 8)
        then
          q <- Py.unpack_ints false 8 1
                 (Py.slice b (currentPos + 4) (currentPos + 12)) ;;
          offset <- Py.index q 0 ;;
          r <- getLocalFileHeaderAtOffset f offset ;;
          Ok (Some (fst r), snd r)
        else zip64_scan k f cde (currentPos + 4 + extra_size)
    end
  else Ok (None, f).

Definition getLocalFileHeaderFromCentralDirectoryEntry (f : file) (cde : CDE)
  : result (option LFH * file) :=
  if cde_relativeOffsetOfLocalHeader cde =? 0xFFFFFFFF then
    zip64_scan (Z.to_nat (cde_extraFieldLength cde)) f cde 0
  else
    r <- getLocalFileHeaderAtOffset f (cde_relativeOffsetOfLocalHeader cde) ;;
    Ok (Some (fst r), snd r).

(** [containerpath] names the open file, so [os.path.getsize] is the length
    of its contents and the [FileNotFoundError] handler is never entered;
    any other exception leaves the function. *)
Definition getLastEntryInCentralDirectory (f : file)
  : result (option CDE * file) :=
  let filesize := Py.len (contents f) in
  f1 <- seek f (filesize - 320) ;;
  let '(buffer, f2) := read_all f1 in
  let start := Py.rfind buffer STARTOFCENTRALDIRECTORY in
  let end_ := Py.rfind buffer ENDOFCENTRALDIRECTORY in
  if (start <? end_) && negb (start =? end_) then
    cde <- parseCentralDirectoryEntry (Py.slice buffer start end_) ;;
    Ok (Some cde, f2)
  else Ok (None, f2).

(** ** Decompression *)

(** The two decompression libraries, specified only by their interface:
    [zlib.decompress(data, -zlib.MAX_WBITS)], and
    [zstandard.ZstdDecompressor().decompress(data, max_output_size=n)],
    which is [None] when the module is not installed. *)
Class Codecs := {
  zlib_decompress : bytes -> result bytes;
  zstd : option (bytes -> Z -> result bytes)
}.

Section Decompress.
Context {codecs : Codecs}.

Definition decompressFileContents
  (compMethod : bytes) (uncompressedFilesize : Z) (data : bytes)
  : result bytes :=
  if bytes_eqb compMethod ZIP_COMPRESSION_METHOD_DEFLATE then
    uncompressedBytes <- zlib_decompress data ;;
    if negb (Py.len uncompressedBytes =? uncompressedFilesize)
    then Raise (Exception "Decompression failed")
    else Ok uncompressedBytes
  else if bytes_eqb compMethod ZIP_COMPRESSION_METHOD_ZSTD
          || bytes_eqb compMethod ZIP_COMPRESSION_METHOD_ZSTD_OLD then
    match zstd with
    | None => Raise (NotImplementedError "Unsupported compression method")
    | Some decompress =>
        uncompressedBytes <- decompress data uncompressedFilesize ;;
        if negb (Py.len uncompressedBytes =? uncompressedFilesize)
        then Raise (Exception "Decompression failed")
        else Ok uncompressedBytes
    end
  else if negb (bytes_eqb compMethod ZIP_COMPRESSION_METHOD_STORE) then
    Raise (Exception "Unsupported compression method")
  else Ok data.
End Decompress.

(** ** The 3tz index *)

(** [Index.__init__]: [memoryview(indexBytes).cast("Q")] refuses a length
    that is not a multiple of 8. *)
Record Index := mkIndex { view : bytes }.

Definition Index_init (indexBytes : bytes) : result Index :=
  if Py.len indexBytes mod 8 =? 0 then Ok (mkIndex indexBytes)
  else Raise TypeError.

(** [self.index[k]], an item of the cast view. *)
Definition Index_item (idx : Index) (k : Z) : result Z :=
  let n := Py.len (view idx) / 8 in
  let j := if k <? 0 then k + n else k in
  if (0 <=? j) && (j <? n)
  then Ok (le_combine (Py.slice (view idx) (8 * j) (8 * j + 8)))
  else Raise IndexError.

Definition Index_getitem (idx : Index) (i : Z) : result (Z * Z * Z) :=
  x <- Index_item idx (3 * i) ;;
  y <- Index_item idx (3 * i + 1) ;;
  z <- Index_item idx (3 * i + 2) ;;
  Ok (x, y, z).

(** [int(len(self.index)/3)] *)
Definition Index_len (idx : Index) : Z := (Py.len (view idx) / 8) / 3.

Definition readIndex (indexBytes : bytes) : result Index :=
  Index_init indexBytes.

Definition md5LessThan (aLo aHi bLo bHi : Z) : bool :=
  if aLo =? bLo then aHi <? bHi else aLo <? bLo.

(** The [while low <= high] loop of the binary search. *)
Fixpoint search (fuel : nat) (index : Index) (a b low high : Z)
  : result (option Z) :=
  if low <=? high then
    match fuel with
    | O => Raise OutOfFuel
    | S k =>
        let mid := low + (high - low) / 2 in
        entry <- Index_getitem index mid ;;
        let '(e0, e1, e2) := entry in
        if (e0 =? a) && (e1 =? b) then Ok (Some e2)
        else if md5LessThan e0 e1 a b then search k index a b (mid + 1) high
        else search k index a b low (mid - 1)
    end
  else Ok None.

Definition findLocalFileHeaderOffsetInIndex (index : Index) (filepath : string)
  : result (option Z) :=
  let '(a, b) := MD5.halves filepath in
  let low := 0 in
  let high := Index_len index in
  search (Z.to_nat (high + 2)) index a b low high.

(** [for entry in index] (the listing loop of [3gm.py]): [Index] defines
    no [__iter__], so the sequence protocol asks for [index[0]],
    [index[1]], ... until [IndexError]. *)
Fixpoint Index_iter (fuel : nat) (idx : Index) (i : Z) : result (list (Z * Z * Z)) :=
  match fuel with
  | O => Raise OutOfFuel
  | S k =>
      match Index_getitem idx i with
      | Ok entry => rest <- Index_iter k idx (i + 1) ;; Ok (entry :: rest)
      | Raise IndexError => Ok []
      | Raise e => Raise e
      end
  end.

Definition Index_entries (idx : Index) : result (list (Z * Z * Z)) :=
  Index_iter (S (Z.to_nat (Index_len idx))) idx 0.

(** ** File contents *)

(** [file.tell()] is the read position. *)
Definition seekToFileContentsStartFromLocalFileHeader (f : file) (lfh : LFH)
  : result file :=
  let current := position f in
  seek f (current + lfh_filenameLength lfh + lfh_extraFieldLength lfh - 100).

Definition getRawFileContentsFromLocalFileHeader (f : file) (lfh : LFH)
  : result (bytes * Z * bytes * file) :=
  f1 <- seekToFileContentsStartFromLocalFileHeader f lfh ;;
  let filesize := lfh_compressedSize lfh in
  let '(rawContents, f2) := read f1 filesize in
  if negb (Py.len rawContents =? filesize) then Raise (Exception "Read ") else
  let compmethod := lfh_compressionMethod lfh in
  let uncompressedFilesize := lfh_uncompressedSize lfh in
  Ok (compmethod, uncompressedFilesize, rawContents, f2).

(** What a call can end in when it may also dereference [None]:
    [lfh.get(...)] on [None] raises [AttributeError]. *)
Inductive outcome (A : Type) : Type :=
| Returns (a : A)
| Raises (e : exn)
| RaisesAttributeError.
Arguments Returns {A} a.
Arguments Raises {A} e.
Arguments RaisesAttributeError {A}.

Section Contents.
Context {codecs : Codecs}.

Definition getFileContentsFromLocalFileHeader (f : file) (lfh : LFH)
  : result (bytes * file) :=
  f1 <- seekToFileContentsStartFromLocalFileHeader f lfh ;;
  let filesize := lfh_compressedSize lfh in
  let '(data, f2) := read f1 filesize in
  if negb (Py.len data =? filesize) then Raise (Exception "Read ") else
  let compmethod := lfh_compressionMethod lfh in
  if bytes_eqb compmethod ZIP_COMPRESSION_METHOD_STORE then Ok (data, f2) else
  let uncompressedFilesize := lfh_uncompressedSize lfh in
  match decompressFileContents compmethod uncompressedFilesize data with
  | Ok b => Ok (b, f2)
  | Raise (NotImplementedError _) => Raise (NotImplementedError "Failed to decompress '")
  | Raise _ => Raise (Exception "Failed to decompress '")
  end.

(** [getSingleFile], on the contents of the container that
    [open(containerpath, mode='rb')] gives access to. *)
Definition getSingleFile (container : bytes) (filepath : string)
  : outcome (option bytes) :=
  let file := mkfile container 0 in
  match getLastEntryInCentralDirectory file with
  | Raise e => Raises e
  | Ok (None, _) => RaisesAttributeError
  | Ok (Some cde, file) =>
  match getLocalFileHeaderFromCentralDirectoryEntry file cde with
  | Raise e => Raises e
  | Ok (None, _) => RaisesAttributeError
  | Ok (Some lfh, file) =>
  if String.eqb (lfh_filename lfh) "@3dtilesIndex1@" then
    match getFileContentsFromLocalFileHeader file lfh with
    | Raise e => Raises e
    | Ok (indexContent, file) =>
    match readIndex indexContent with
    | Raise e => Raises e
    | Ok index =>
    match findLocalFileHeaderOffsetInIndex index filepath with
    | Raise e => Raises e
    | Ok None => Returns None
    | Ok (Some offset) =>
    match getLocalFileHeaderAtOffset file offset with
    | Raise e => Raises e
    | Ok (lfh2, file) =>
    if negb (String.eqb (lfh_filename lfh2) filepath) then Returns None else
    match getFileContentsFromLocalFileHeader file lfh2 with
    | Raise e => Raises e
    | Ok (b, _) => Returns (Some b)
    end end end end end
  else Returns None
  end end.
End Contents.

End archive3tz.

(* ===================================================================== *)
(** * index3tz.py                                                         *)
(* ===================================================================== *)

Module index3tz.

(** The fields of [zipfile.ZipInfo] that the code reads; [infolist()]
    lists the entries of the central directory in order. *)
Record ZipInfo := mkZipInfo {
  filename : string;
  flag_bits : Z;
  compress_type : Z;
  compress_size : Z;
  file_size : Z;
  header_offset : Z
}.

Fixpoint last_char (s : string) : option ascii :=
  match s with
  | EmptyString => None
  | String c EmptyString => Some c
  | String _ r => last_char r
  end.

(** [ZipInfo.is_dir()]: the name ends with a slash.  This is the method of
    a name that is not empty; on an empty name Python 3.12 and later
    return [False] as well, earlier versions raise [IndexError]. *)
Definition is_dir (item : ZipInfo) : bool :=
  match last_char (filename item) with
  | Some c => Ascii.eqb c "/"%char
  | None => false
  end.

Definition disallowedFlagBits : Z :=
  Z.lor (Z.lor (Z.lor (Z.shiftl 1 0) (Z.shiftl 1 3)) (Z.shiftl 1 5)) (Z.shiftl 1 13).

Definition checkIfSupportedZipItem (item : ZipInfo) : result unit :=
  if negb (compress_type item =? 8) && negb (compress_type item =? 93)
     && negb (compress_type item =? 0)
  then Raise (AssertionError "Bad compression type")
  else if negb (Z.land (flag_bits item) disallowedFlagBits =? 0) then
    if Z.land (flag_bits item) disallowedFlagBits =? Z.shiftl 1 0
    then Raise (AssertionError "File is encrypted")
    else if Z.land (flag_bits item) disallowedFlagBits =? Z.shiftl 1 3
    then Raise (AssertionError "Local File Headers don't have file size set")
    else if Z.land (flag_bits item) disallowedFlagBits =? Z.shiftl 1 5
    then Raise (AssertionError "File has compressed patched data")
    else if Z.land (flag_bits item) disallowedFlagBits =? Z.shiftl 1 13
    then Raise (AssertionError "File has encrypted central file directory")
    else Raise (AssertionError "Disallowed flag bits")
  else if (compress_size item =? 0) && negb (file_size item =? 0)
  then Raise (AssertionError "Local file headers must have compressed sizes set.")
  else Ok tt.

Definition entry : Type := Z * Z * Z.

(** The [for item in infolist] loop, appending to [unsortedIndex]. *)
Fixpoint collect (infolist : list ZipInfo) (unsortedIndex : list entry)
  : result (list entry) :=
  match infolist with
  | [] => Ok unsortedIndex
  | item :: rest =>
      _ <- checkIfSupportedZipItem item ;;
      if negb (is_dir item) && negb (String.eqb (filename item) "@3dtilesIndex1@")
      then
        let '(lo, hi) := MD5.halves (filename item) in
        let offset := header_offset item in
        collect rest (unsortedIndex ++ [(lo, hi, offset)])
      else collect rest unsortedIndex
  end.

(** [operator.itemgetter(0, 1)] keys compared as tuples. *)
Definition key_le (x y : entry) : bool :=
  let '(xlo, xhi, _) := x in
  let '(ylo, yhi, _) := y in
  (xlo <? ylo) || ((xlo =? ylo) && (xhi <=? yhi)).

Fixpoint insert (x : entry) (l : list entry) : list entry :=
  match l with
  | [] => [x]
  | y :: r => if key_le x y then x :: l else y :: insert x r
  end.

(** [sorted(l, key=...)] is stable; so is insertion from the right, and
    the stable sorted arrangement of a list is unique. *)
Definition sorted (l : list entry) : list entry := fold_right insert [] l.

(** The [for item in sortedIndex] loop with [struct.pack('<QQQ', ...)]. *)
Fixpoint pack (sortedIndex : list entry) (indexBytes : bytes) : result bytes :=
  match sortedIndex with
  | [] => Ok indexBytes
  | (lo, hi, off) :: rest =>
      b0 <- Py.pack_Q lo ;;
      b1 <- Py.pack_Q hi ;;
      b2 <- Py.pack_Q off ;;
      pack rest (indexBytes ++ b0 ++ b1 ++ b2)
  end.

(** [buildIndex], on the central directory that [zipfile] parsed. *)
Definition buildIndex (infolist : list ZipInfo) : result bytes :=
  unsortedIndex <- collect infolist [] ;;
  let sortedIndex := sorted unsortedIndex in
  pack sortedIndex [].

(** ** [ZipStatistics] *)

Record ZipStatistics := mkZipStatistics {
  maxFileSize : Z;
  maxCompFileSize : Z;
  maxHeaderOffset : Z;
  numFiles : Z;
  fileSize : Z
}.

(** The body of the [for item in infolist] loop of [gather]. *)
Definition gather_item (self : ZipStatistics) (item : ZipInfo) : ZipStatistics :=
  if negb (is_dir item) && negb (String.eqb (filename item) "@3dtilesIndex1@") then
    {| maxFileSize :=
         if file_size item >? maxFileSize self then file_size item
         else maxFileSize self;
       maxCompFileSize :=
         if compress_size item >? maxCompFileSize self then compress_size item
         else maxCompFileSize self;
       maxHeaderOffset :=
         if header_offset item >? maxHeaderOffset self then header_offset item
         else maxHeaderOffset self;
       numFiles := numFiles self + 1;
       fileSize := fileSize self |}
  else self.

(** [ZipStatistics(zipfilepath)]: [__init__] followed by [gather], on the
    size of the file and the central directory that [zipfile] parsed. *)
Definition gather (size : Z) (infolist : list ZipInfo) : ZipStatistics :=
  fold_left gather_item infolist (mkZipStatistics 0 0 0 0 size).

End index3tz.

(* ===================================================================== *)
(** * glbjson.py                                                          *)
(* ===================================================================== *)

Module glbjson.

Definition getChunksFromBuffer (buffer : bytes)
  : result (string * option bytes) :=
  header <- Py.unpack_ints true 4 5 (Py.slice buffer 0 20) ;;
  h0 <- Py.index header 0 ;;
  if negb (h0 =? 0x46546C67) then Raise (Exception "Not a glb file") else
  h1 <- Py.index header 1 ;;
  if negb (h1 =? 2) then Raise (Exception "Unknown glb container version") else
  h4 <- Py.index header 4 ;;
  if negb (h4 =? 0x4E4F534A)
  then Raise (Exception "First glb chunk not json, glb is invalid") else
  h3 <- Py.index header 3 ;;
  if h3 =? 0 then Raise (Exception "Empty json chunk") else
  jsondata <- Py.decode_utf8 (Py.slice buffer 20 (20 + h3)) ;;
  let data := Py.slice_from buffer (20 + h3) in
  if Py.len data >? 8 then
    chunkheader <- Py.unpack_ints true 4 2 (Py.slice data 0 8) ;;
    c1 <- Py.index chunkheader 1 ;;
    if negb (c1 =? 0x004E4942)
    then Raise (Exception "Glb binary chunk header error") else
    c0 <- Py.index chunkheader 0 ;;
    Ok (jsondata, Some (Py.slice data 8 (8 + c0)))
  else Ok (jsondata, None).

Definition getJsonFromBuffer (buffer : bytes) : result string :=
  header <- Py.unpack_ints true 4 5 (Py.slice buffer 0 20) ;;
  h0 <- Py.index header 0 ;;
  if negb (h0 =? 0x46546C67) then Raise (Exception "Not a glb file") else
  h1 <- Py.index header 1 ;;
  if negb (h1 =? 2) then Raise (Exception "Unknown glb container version") else
  h4 <- Py.index header 4 ;;
  if negb (h4 =? 0x4E4F534A)
  then Raise (Exception "First glb chunk not json, glb is invalid") else
  h3 <- Py.index header 3 ;;
  if h3 =? 0 then Raise (Exception "Empty json chunk") else
  Py.decode_utf8 (Py.slice buffer 20 (20 + h3)).

(** [getJsonFromFile]: a first read of 65535 bytes, and a second one when
    the JSON chunk does not end inside them. *)
Definition getJsonFromFile (file : archive3tz.file)
  : result (string * archive3tz.file) :=
  let readbytes := 65535 in
  let '(buffer, file) := archive3tz.read file readbytes in
  header <- Py.unpack_ints true 4 5 (Py.slice buffer 0 20) ;;
  h0 <- Py.index header 0 ;;
  if negb (h0 =? 0x46546C67) then Raise (Exception "Not a glb file") else
  h1 <- Py.index header 1 ;;
  if negb (h1 =? 2) then Raise (Exception "Unknown glb container version") else
  h4 <- Py.index header 4 ;;
  if negb (h4 =? 0x4E4F534A)
  then Raise (Exception "First glb chunk not json, glb is invalid") else
  h3 <- Py.index header 3 ;;
  if h3 =? 0 then Raise (Exception "Empty json chunk") else
  let '(buffer, file) :=
    if h3 >=? readbytes - 20 then
      let '(more, file) := archive3tz.read file (h3 + 20 - readbytes) in
      (buffer ++ more, file)
    else (buffer, file) in
  jsondata <- Py.decode_utf8 (Py.slice buffer 20 (20 + h3)) ;;
  Ok (jsondata, file).

End glbjson.

(* ===================================================================== *)
(** * subtreejson.py                                                      *)
(* ===================================================================== *)

Module subtreejson.

(** [struct.unpack('<iiQQ', data)]: two signed 32-bit and two unsigned
    64-bit integers, unaligned, from exactly 24 bytes. *)
Definition unpack_iiQQ (data : bytes) : result (Z * Z * Z * Z) :=
  if Py.len data =? 24 then
    Ok (Py.to_signed 4 (le_combine (Py.slice data 0 4)),
        Py.to_signed 4 (le_combine (Py.slice data 4 8)),
        le_combine (Py.slice data 8 16),
        le_combine (Py.slice data 16 24))
  else Raise StructError.

Definition getJsonFromBuffer (buffer : bytes) : result (option string) :=
  header <- unpack_iiQQ (Py.slice buffer 0 24) ;;
  let '(h0, h1, h2, h3) := header in
  if negb (h0 =? 0x74627573)
  then Raise (ValueError "Not a subtree file, has bad header signature: ") else
  if negb (h1 =? 1) then Raise (ValueError "Unknown subtree version: ") else
  if h2 =? 0 then Ok None else
  jsondata <- Py.decode_utf8 (Py.slice buffer 24 (24 + h2)) ;;
  Ok (Some jsondata).

Definition getChunksFromBuffer (buffer : bytes)
  : result (option string * option bytes) :=
  header <- unpack_iiQQ (Py.slice buffer 0 24) ;;
  let '(h0, h1, h2, h3) := header in
  if negb (h0 =? 0x74627573)
  then Raise (ValueError "Not a subtree file, has bad header signature: ") else
  if negb (h1 =? 1) then Raise (ValueError "Unknown subtree version: ") else
  if h2 =? 0 then Ok (None, None) else
  jsondata <- Py.decode_utf8 (Py.slice buffer 24 (24 + h2)) ;;
  if h3 >? 0 then
    if negb (h3 =? Py.len buffer - 24 - h2)
    then Raise (ValueError "Invalid binary length in subtree header, expected ")
    else Ok (Some jsondata, Some (Py.slice_from buffer (24 + h2)))
  else Ok (Some jsondata, None).

End subtreejson.

(* ===================================================================== *)
(** * imgutils.py                                                         *)
(* ===================================================================== *)

Module imgutils.

(** [struct.unpack('>' + str(count) + c, data)] for an unsigned integer
    code [c] of [size] bytes, big-endian. *)
Definition unpack_be (size : nat) (count : Z) (data : bytes) : result (list Z) :=
  if (0 <=? count) && (Py.len data =? count * Z.of_nat size)
  then Ok (map (fun c => le_combine (rev c)) (Py.chunks size (Z.to_nat count) data))
  else Raise StructError.

(** [buffer[i]], an integer *)
Definition byte_at (buffer : bytes) (i : Z) : result Z :=
  b <- Py.index buffer i ;; Ok (Byte.byte.unsigned b).

Definition contentTypeFromFileExtension (fileExtension : string) : option string :=
  if String.eqb fileExtension ".png" then Some "image/png"%string
  else if String.eqb fileExtension ".jpg" then Some "image/jpeg"%string
  else if String.eqb fileExtension ".ktx2" then Some "image/ktx2"%string
  else None.

Definition sniffImageMimeType (buffer : bytes) : result (option string) :=
  if Py.len buffer <? 8 then Ok None else
  magic <- Py.unpack_ints false 4 2 (Py.slice buffer 0 8) ;;
  magic0 <- Py.index magic 0 ;;
  magic1 <- Py.index magic 1 ;;
  if (magic0 =? 0x474e5089) && (magic1 =? 0xa1a0a0d) then Ok (Some "image/png"%string)
  else if magic0 =? 0xe0ffd8ff then Ok (Some "image/jpeg"%string)
  else Ok None.

(** [while buffer[i] == 0xff: i += 1], on the bytes from [i] on. *)
Fixpoint skip_ff (rest : bytes) (i : Z) : result Z :=
  match rest with
  | [] => Raise IndexError
  | b :: r => if Byte.byte.unsigned b =? 0xff then skip_ff r (i + 1) else Ok i
  end.

Record ImageStats := mkImageStats {
  width : Z;
  height : Z;
  bpc : Z;
  channels : Z;
  bpp : Z
}.

(** The [while i < len(buffer)] loop of [getImageStats]; [None] when the
    loop ends without a frame header, which leaves [bpp] unassigned. *)
Fixpoint stats_jpeg (fuel : nat) (buffer : bytes) (i : Z)
  : result (option ImageStats) :=
  if i <? Py.len buffer then
    match fuel with
    | O => Raise OutOfFuel
    | S k =>
        i <- skip_ff (Py.slice_from buffer i) i ;;
        curByte <- byte_at buffer i ;;
        let i := i + 1 in
        if curByte =? 0xd8 then stats_jpeg k buffer i
        else if curByte =? 0xd9 then Ok None
        else if (curByte >? 0xd0) && (curByte <=? 0xd7) then stats_jpeg k buffer i
        else if curByte =? 0x01 then stats_jpeg k buffer i
        else if i + 2 <? Py.len buffer then
          l <- unpack_be 2 1 (Py.slice buffer i (i + 2)) ;;
          length <- Py.index l 0 ;;
          let i := i + 2 in
          if curByte =? 0xc0 then
            if i + 6 <? Py.len buffer then
              bpc <- byte_at buffer i ;;
              let i := i + 1 in
              wh <- unpack_be 2 2 (Py.slice buffer i (i + 4)) ;;
              w <- Py.index wh 0 ;;
              h <- Py.index wh 1 ;;
              let i := i + 4 in
              channels <- byte_at buffer i ;;
              let bpp := channels * bpc in
              Ok (Some (mkImageStats w h bpc channels bpp))
            else Raise (ValueError "Buffer too short to determine JPEG size")
          else stats_jpeg k buffer (i + (length - 2))
        else Raise (ValueError "Buffer too short to determine JPEG size")
    end
  else Ok None.

Definition getImageStats (buffer : bytes) (mimetype : option string)
  : result ImageStats :=
  match mimetype with
  | Some m =>
      if String.eqb m "image/png" then
        if Py.len buffer <? 33
        then Raise (ValueError "Image buffer too short to be valid PNG") else
        ihdr <- unpack_be 4 2 (Py.slice buffer 8 16) ;;
        ihdr0 <- Py.index ihdr 0 ;;
        if negb (ihdr0 =? 13) then Raise (Exception "Bad IHDR chunk length: ") else
        ihdr1 <- Py.index ihdr 1 ;;
        if negb (ihdr1 =? 0x49484452) then Raise (Exception "Invalid IHDR chunk: ") else
        wh <- unpack_be 4 2 (Py.slice buffer 16 24) ;;
        w <- Py.index wh 0 ;;
        h <- Py.index wh 1 ;;
        bpc <- byte_at buffer 24 ;;
        colortype <- byte_at buffer 25 ;;
        if colortype =? 0 then Ok (mkImageStats w h bpc 1 bpc)
        else if colortype =? 2 then Ok (mkImageStats w h bpc 3 (3 * bpc))
        else if colortype =? 3 then Ok (mkImageStats w h bpc 3 (3 * 8))
        else if colortype =? 4 then Ok (mkImageStats w h bpc 2 (2 * bpc))
        else if colortype =? 6 then Ok (mkImageStats w h bpc 4 (4 * bpc))
        else Raise UnboundLocalError
      else if String.eqb m "image/jpeg" then
        r <- stats_jpeg (S (Z.to_nat (Py.len buffer))) buffer 0 ;;
        match r with
        | Some s => Ok s
        | None => Raise UnboundLocalError
        end
      else Raise UnboundLocalError
  | None => Raise UnboundLocalError
  end.

(** The [while i < len(buffer)] loop of [getImageDims]; [w] and [h] are 0
    until a frame header sets them. *)
Fixpoint dims_jpeg (fuel : nat) (buffer : bytes) (i : Z) : result (Z * Z) :=
  if i <? Py.len buffer then
    match fuel with
    | O => Raise OutOfFuel
    | S k =>
        i <- skip_ff (Py.slice_from buffer i) i ;;
        curByte <- byte_at buffer i ;;
        let i := i + 1 in
        if curByte =? 0xd8 then dims_jpeg k buffer i
        else if curByte =? 0xd9 then Ok (0, 0)
        else if (curByte >? 0xd0) && (curByte <=? 0xd7) then dims_jpeg k buffer i
        else if curByte =? 0x01 then dims_jpeg k buffer i
        else if i + 2 <? Py.len buffer then
          l <- unpack_be 2 1 (Py.slice buffer i (i + 2)) ;;
          length <- Py.index l 0 ;;
          let i := i + 2 in
          if curByte =? 0xc0 then
            let i := i + 1 in
            if i + 4 <? Py.len buffer then
              wh <- unpack_be 2 2 (Py.slice buffer i (i + 4)) ;;
              w <- Py.index wh 0 ;;
              h <- Py.index wh 1 ;;
              Ok (w, h)
            else Raise (ValueError "Buffer too short to determine JPEG size")
          else dims_jpeg k buffer (i + (length - 2))
        else Raise (ValueError "Buffer too short to determine JPEG size")
    end
  else Ok (0, 0).

Definition getImageDims (buffer : bytes) (mimetype : option string)
  : result (Z * Z) :=
  match mimetype with
  | Some m =>
      if String.eqb m "image/png" then
        if Py.len buffer <? 33
        then Raise (ValueError "Image buffer too short to be valid PNG") else
        ihdr <- unpack_be 4 2 (Py.slice buffer 8 16) ;;
        ihdr0 <- Py.index ihdr 0 ;;
        if negb (ihdr0 =? 13) then Raise (Exception "Bad IHDR chunk length: ") else
        ihdr1 <- Py.index ihdr 1 ;;
        if negb (ihdr1 =? 0x49484452) then Raise (Exception "Invalid IHDR chunk: ") else
        wh <- unpack_be 4 2 (Py.slice buffer 16 24) ;;
        w <- Py.index wh 0 ;;
        h <- Py.index wh 1 ;;
        Ok (w, h)
      else if String.eqb m "image/jpeg" then
        dims_jpeg (S (Z.to_nat (Py.len buffer))) buffer 0
      else Ok (0, 0)
  | None => Ok (0, 0)
  end.

End imgutils.

(* ===================================================================== *)
(** * gltf.py                                                             *)
(* ===================================================================== *)

Module gltf.

(** ** Numbers and decoded values *)

(** Python floats are binary64. *)
Definition fadd := SFadd 53 1024.
Definition fmul := SFmul 53 1024.
Definition fdiv := SFdiv 53 1024.

(** The float nearest to an integer, as a float literal or [float(z)]. *)
Definition float_of_Z (z : Z) : spec_float := binary_normalize 53 1024 z 0 false.

(** A JSON number, and a value unpacked by [struct]. *)
Inductive number : Type :=
| NInt (z : Z)
| NFloat (f : spec_float).

(** What the decoder returns as elements; tuples and lists are both [VSeq]. *)
Inductive value : Type :=
| VInt (z : Z)
| VFloat (f : spec_float)
| VBool (b : bool)
| VStr (s : string)
| VSeq (l : list value).

Definition value_of_number (n : number) : value :=
  match n with NInt z => VInt z | NFloat f => VFloat f end.

(** The operand of an arithmetic operator whose other side is a number.
    A string or a sequence ends in [TypeError]: [scale * value] is a
    [TypeError] for a float [scale] and a repetition for an integer one,
    which [offset + ...] then rejects.  (A repetition too long to build
    raises [OverflowError] or [MemoryError] before that.) *)
Definition as_number (v : value) : result number :=
  match v with
  | VInt z => Ok (NInt z)
  | VFloat f => Ok (NFloat f)
  | VBool b => Ok (NInt (if b then 1 else 0))
  | VStr _ | VSeq _ => Raise TypeError
  end.

(** An index or slice bound must be an integer. *)
Definition as_int (v : value) : result Z :=
  match v with
  | VInt z => Ok z
  | VBool b => Ok (if b then 1 else 0)
  | _ => Raise TypeError
  end.

(** The implicit conversion of an [int] operand of a float operation. *)
Definition to_float (n : number) : result spec_float :=
  match n with
  | NFloat f => Ok f
  | NInt z =>
      match float_of_Z z with
      | S754_infinity _ => Raise OverflowError
      | f => Ok f
      end
  end.

Definition py_mul (a b : number) : result number :=
  match a, b with
  | NInt x, NInt y => Ok (NInt (x * y))
  | _, _ => fa <- to_float a ;; fb <- to_float b ;; Ok (NFloat (fmul fa fb))
  end.

Definition py_add (a b : number) : result number :=
  match a, b with
  | NInt x, NInt y => Ok (NInt (x + y))
  | _, _ => fa <- to_float a ;; fb <- to_float b ;; Ok (NFloat (fadd fa fb))
  end.

(** [a / d] for a non-zero float [d] *)
Definition py_truediv (a : number) (d : spec_float) : result spec_float :=
  fa <- to_float a ;; Ok (fdiv fa d).

(** [max(x, y)]: [y] when [y > x], else [x] *)
Definition py_max (x y : spec_float) : spec_float :=
  if SFltb x y then y else x.

(** [n != c] for an integer constant [c] *)
Definition num_neq (n : number) (c : Z) : bool :=
  match n with
  | NInt z => negb (z =? c)
  | NFloat f => negb (SFeqb f (float_of_Z c))
  end.

(** [struct] codes [f] and [d]: the IEEE 754 value of a bit pattern with
    [mw] mantissa bits and [ew] exponent bits, as a binary64. *)
Definition float_of_bits (mw ew : Z) (bits : Z) : spec_float :=
  let m := bits mod 2 ^ mw in
  let e := (bits / 2 ^ mw) mod 2 ^ ew in
  let s := Z.testbit bits (mw + ew) in
  let bias := 2 ^ (ew - 1) - 1 in
  if e =? 2 ^ ew - 1 then
    if m =? 0 then S754_infinity s else S754_nan
  else if e =? 0 then
    binary_normalize 53 1024 (cond_Zopp s m) (1 - bias - mw) s
  else
    binary_normalize 53 1024 (cond_Zopp s (m + 2 ^ mw)) (e - bias - mw) s.

Definition unpack_floats (mw ew : Z) (size : nat) (count : Z) (data : bytes)
  : result (list spec_float) :=
  if (0 <=? count) && (Py.len data =? count * Z.of_nat size)
  then Ok (map (fun c => float_of_bits mw ew (le_combine c))
               (Py.chunks size (Z.to_nat count) data))
  else Raise StructError.

(** ** Module-level functions *)

(** A type name that may be [None]. *)
Definition type_is (t : option string) (name : string) : bool :=
  match t with
  | Some s => String.eqb s name
  | None => false
  end.

Definition componentTypeSizeInBytes (propType : option string) : Z :=
  if type_is propType "UINT8" || type_is propType "INT8" then 1
  else if type_is propType "UINT16" || type_is propType "INT16" then 2
  else if type_is propType "INT32" || type_is propType "UINT32" || type_is propType "FLOAT32" then 4
  else if type_is propType "FLOAT64" || type_is propType "INT64" || type_is propType "UINT64" then 8
  else 1.

Definition denormalize (propType : option string) (v : value) : result spec_float :=
  let signed (d : Z) :=
    n <- as_number v ;; q <- py_truediv n (float_of_Z d) ;;
    Ok (py_max q (SFopp (float_of_Z 1))) in
  let unsigned (d : Z) := n <- as_number v ;; py_truediv n (float_of_Z d) in
  if type_is propType "UINT8" then unsigned 255
  else if type_is propType "INT8" then signed 127
  else if type_is propType "UINT16" then unsigned 65535
  else if type_is propType "INT16" then signed 32767
  else if type_is propType "UINT32" then unsigned 4294967295
  else if type_is propType "INT32" then signed 2147483647
  else if type_is propType "UINT64" then unsigned 18446744073709551615
  else if type_is propType "INT64" then signed 9223372036854775807
  else Raise (ValueError "Unhandled type").

Definition applyOffsetScale (propType : option string) (v : value)
  (offset scale : number) (denormalizeValue : bool) : result value :=
  if denormalizeValue then
    x <- denormalize propType v ;;
    p <- py_mul scale (NFloat x) ;;
    r <- py_add offset p ;;
    Ok (value_of_number r)
  else
    x <- as_number v ;;
    p <- py_mul scale x ;;
    r <- py_add offset p ;;
    Ok (value_of_number r).

Definition getComponentCount (propType : string) : Z :=
  if String.eqb propType "SCALAR" then 1
  else if String.eqb propType "VEC2" then 2
  else if String.eqb propType "VEC3" then 3
  else if String.eqb propType "VEC4" then 4
  else if String.eqb propType "MAT2" then 4
  else if String.eqb propType "MAT3" then 9
  else if String.eqb propType "MAT4" then 16
  else 1.

Inductive Mode : Type :=
| UNKNOWN
| EXT_FEATURE_METADATA
| EXT_STRUCTURAL_METADATA.

(** ** The parsed document

    JSON objects are records whose optional keys are [option] fields; the
    keys the glTF schema requires ([buffer], [byteLength], [class],
    [count], an enum's [values]) are plain fields.  [offset] and [scale]
    are JSON numbers. *)

Record BufferView := mkBufferView {
  bv_buffer : Z;
  bv_byteOffset : option Z;
  bv_byteLength : Z
}.

Record ClassProperty := mkClassProperty {
  cp_type : option string;
  cp_componentType : option string;
  cp_array : option bool;
  cp_count : option Z;
  cp_componentCount : option Z;
  cp_enumType : option string;
  cp_offset : option number;
  cp_scale : option number;
  cp_normalized : option bool
}.

Record EnumSchema := mkEnumSchema {
  es_valueType : option string;
  es_values : list (Z * string)
}.

Record Schema := mkSchema {
  sch_classes : option (list (string * list (string * ClassProperty)));
  sch_enums : option (list (string * EnumSchema))
}.

Record TableProperty := mkTableProperty {
  tp_bufferView : option Z;
  tp_values : option Z;
  tp_stringOffsetBufferView : option Z;
  tp_stringOffsets : option Z;
  tp_arrayOffsets : option Z;
  tp_arrayOffsetType : option string;
  tp_stringOffsetType : option string;
  tp_offsetType : option string
}.

Record FeatureTable := mkFeatureTable {
  ft_name : string;
  ft_class : string;
  ft_count : Z;
  ft_properties : list (string * TableProperty)
}.

(** [self.buffers] holds [None] for a GLB without a BIN chunk. *)
Record GltfDocument := mkGltfDocument {
  mode : Mode;
  schema : option Schema;
  propertyTables : list FeatureTable;
  bufferViews : list BufferView;
  buffers : list (option bytes)
}.

(** [d[key]] on a JSON object given as its list of members. *)
Definition assoc {A} (key : string) (o : list (string * A)) : option A :=
  match find (fun p => String.eqb (fst p) key) o with
  | Some p => Some (snd p)
  | None => None
  end.

(** The integer-valued keys of a table property, by name. *)
Definition tp_key (tp : TableProperty) (key : string) : option Z :=
  if String.eqb key "bufferView" then tp_bufferView tp
  else if String.eqb key "values" then tp_values tp
  else if String.eqb key "stringOffsetBufferView" then tp_stringOffsetBufferView tp
  else if String.eqb key "stringOffsets" then tp_stringOffsets tp
  else if String.eqb key "arrayOffsets" then tp_arrayOffsets tp
  else None.

Definition cp_key (cp : ClassProperty) (key : string) : option Z :=
  if String.eqb key "componentCount" then cp_componentCount cp
  else if String.eqb key "count" then cp_count cp
  else None.

Record CompatMap := mkCompatMap {
  k_bufferView : string;
  k_stringOffsetBufferView : string;
  k_arrayOffsetBufferView : string;
  k_componentCount : string
}.

(** [PropertyTables.getNamedTable]: [nameToTableIndex] keeps the last table
    of a name. *)
Definition getNamedTable (d : GltfDocument) (name : string) : result FeatureTable :=
  Py.getitem name
    (find (fun t => String.eqb (ft_name t) name) (rev (propertyTables d))).

Definition getSchema (d : GltfDocument) : result (option Schema) :=
  match mode d with
  | UNKNOWN => Ok None
  | _ => s <- Py.getitem "schema" (schema d) ;; Ok (Some s)
  end.

Definition getClasses (d : GltfDocument)
  : result (list (string * list (string * ClassProperty))) :=
  s <- getSchema d ;;
  match s with
  | Some sc => match sch_classes sc with Some c => Ok c | None => Ok [] end
  | None => Ok []
  end.

Definition getEnums (d : GltfDocument) : result (list (string * EnumSchema)) :=
  s <- getSchema d ;;
  match s with
  | Some sc => match sch_enums sc with Some e => Ok e | None => Ok [] end
  | None => Ok []
  end.

(** [buffer[a:b]] where [buffer] may be [None] *)
Definition buffer_slice (buffer : option bytes) (a b : Z) : result bytes :=
  match buffer with
  | Some x => Ok (Py.slice x a b)
  | None => Raise TypeError
  end.

Definition readScalarValues (propType : option string) (count : Z) (data : bytes)
  : result (list value) :=
  let ints signed size :=
    vs <- Py.unpack_ints signed size count data ;; Ok (map VInt vs) in
  let floats mw ew size :=
    vs <- unpack_floats mw ew size count data ;; Ok (map VFloat vs) in
  if type_is propType "UINT8" then ints false 1%nat
  else if type_is propType "INT8" then ints true 1%nat
  else if type_is propType "UINT16" then ints false 2%nat
  else if type_is propType "INT16" then ints true 2%nat
  else if type_is propType "UINT32" then ints false 4%nat
  else if type_is propType "INT32" then ints true 4%nat
  else if type_is propType "UINT64" then ints false 8%nat
  else if type_is propType "INT64" then ints true 8%nat
  else if type_is propType "FLOAT32" then floats 23 8 4%nat
  else if type_is propType "FLOAT64" then floats 52 11 8%nat
  else Raise (ValueError "Unhandled scalar type").

(** The known component types of [readFixedSizeArrayValues]. *)
Definition is_component_type (t : string) : bool :=
  existsb (String.eqb t)
    ["INT8"; "UINT8"; "INT16"; "UINT16"; "INT32"; "UINT32"; "INT64"; "UINT64";
     "FLOAT32"; "FLOAT64"]%string.

Definition readFixedSizeArrayValues
  (componentType : string) (arrayCount componentCount : Z) (data : bytes)
  : result (list value) :=
  let componentByteSize := componentTypeSizeInBytes (Some componentType) in
  let elementSize := componentByteSize * componentCount in
  if elementSize =? 0 then Raise ZeroDivisionError else
  (* len(data) / elementSize < arrayCount *)
  if (if 0 <? elementSize then Py.len data <? arrayCount * elementSize
      else arrayCount * elementSize <? Py.len data)
  then Raise (Exception "Array buffer too short") else
  rows <- Py.mapM (fun i =>
            let rawbytes := Py.slice data (i * elementSize) ((i + 1) * elementSize) in
            if is_component_type componentType then
              vs <- readScalarValues (Some componentType) componentCount rawbytes ;;
              Ok [VSeq vs]
            else Ok [])
          (Py.range arrayCount) ;;
  Ok (List.concat rows).

(** The inner loop of the STRING case of [readDynamicSizeArrayValues]. *)
Definition readStrings (stringOffsets : list value) (first numStrings : Z)
  (data : bytes) : result (list value) :=
  Py.mapM (fun j =>
    so0 <- Py.index stringOffsets (first + j) ;;
    so1 <- Py.index stringOffsets (first + j + 1) ;;
    a <- as_int so0 ;;
    b <- as_int so1 ;;
    s <- Py.decode_utf8 (Py.slice data a b) ;;
    Ok (VStr s))
    (Py.range numStrings).

Definition readDynamicSizeArrayValues
  (propType : string) (componentType : option string)
  (arrayOffsets : list value) (stringOffsets : option (list value)) (data : bytes)
  : result (list value) :=
  Py.mapM (fun i =>
    if String.eqb propType "STRING" then
      match stringOffsets with
      | None => Raise (ValueError "stringOffsets missing, got None")
      | Some so =>
          ao1 <- Py.index arrayOffsets (i + 1) ;;
          ao0 <- Py.index arrayOffsets i ;;
          hi <- as_int ao1 ;;
          lo <- as_int ao0 ;;
          items <- readStrings so lo (hi - lo) data ;;
          Ok (VSeq items)
      end
    else
      ao0 <- Py.index arrayOffsets i ;;
      ao1 <- Py.index arrayOffsets (i + 1) ;;
      lo <- as_int ao0 ;;
      hi <- as_int ao1 ;;
      let rawbytes := Py.slice data lo hi in
      let typeByteSize := componentTypeSizeInBytes componentType in
      let componentCount := Py.len rawbytes / typeByteSize in
      vs <- readScalarValues componentType componentCount rawbytes ;;
      Ok (VSeq vs))
    (Py.range (Py.len arrayOffsets - 1)).

(** [valueToEnumMap[itemValue]]: later schema items replace earlier ones
    of the same value; a float key finds the integer it equals. *)
Definition enum_name (es : EnumSchema) (v : value) : result value :=
  match find (fun p => match v with
                       | VInt z => fst p =? z
                       | VFloat f => SFeqb f (float_of_Z (fst p))
                       | _ => false
                       end)
             (rev (es_values es)) with
  | Some p => Ok (VStr (snd p))
  | None => Raise (KeyError "valueToEnumMap")
  end.

Definition enum_names (es : EnumSchema) (v : value) : result value :=
  match v with
  | VSeq items => names <- Py.mapM (enum_name es) items ;; Ok (VSeq names)
  | _ => Raise TypeError
  end.

(** The shared tail of the two array branches: read [offset], [scale] and
    [normalized] from the class property and transform every component. *)
Definition transformArrays (cp : ClassProperty) (componentType : option string)
  (values : list value) : result (list value) :=
  if negb (type_is componentType "STRING") && negb (type_is componentType "BOOLEAN") then
    let offset := match cp_offset cp with Some o => o | None => NInt 0 end in
    let scale := match cp_scale cp with Some s => s | None => NInt 1 end in
    let denorm := match cp_normalized cp with Some b => b | None => false end in
    if num_neq offset 0 || num_neq scale 1 || denorm then
      Py.mapM (fun arrayVal =>
        match arrayVal with
        | VSeq comps =>
            cs <- Py.mapM (fun v => applyOffsetScale componentType v offset scale denorm)
                    comps ;;
            Ok (VSeq cs)
        | _ => Raise TypeError
        end) values
    else Ok values
  else Ok values.

(** [math.ceil(n / 8)] *)
Definition ceil_div8 (n : Z) : Z := - ((- n) / 8).

Definition unpackBits (byteValues : list Z) (i : Z) : result value :=
  let byteIndex := i / 8 in
  let bitIndex := i mod 8 in
  b <- Py.index byteValues byteIndex ;;
  Ok (VBool (Z.land (Z.shiftr b bitIndex) 1 =? 1)).

Definition enumSchemaOf (cp : ClassProperty) (enums : list (string * EnumSchema))
  : result EnumSchema :=
  enumType <- Py.getitem "enumType" (cp_enumType cp) ;;
  match assoc enumType enums with
  | None => Raise (Exception "enumType not found in schema")
  | Some es => Ok es
  end.

Definition enumValueTypeOf (es : EnumSchema) : string :=
  match es_valueType es with Some t => t | None => "UINT16"%string end.

Section Decoder.
Variable d : GltfDocument.
Variable featureTable : FeatureTable.
Variable tp : TableProperty.
Variable cp : ClassProperty.
Variable enums : list (string * EnumSchema).
Variable compatMap : CompatMap.
Variable propType : string.
Variable bufferView : Z.
Variable bv : BufferView.
Variable buffer : option bytes.
Variable bufferByteOffset bufferByteLength : Z.

(** [if isFixedSizeArray:] *)
Definition decodeFixedSizeArray (componentCount : Z)
  : result (option (list value)) :=
  let count := ft_count featureTable in
  let numeric (componentType : option string) :=
    let componentCount :=
      match mode d with
      | EXT_STRUCTURAL_METADATA => componentCount * getComponentCount propType
      | _ => componentCount
      end in
    ct <- match componentType with
          | Some c => Ok c
          | None => Raise UnboundLocalError
          end ;;
    data <- buffer_slice buffer bufferByteOffset (bufferByteOffset + bufferByteLength) ;;
    values <- readFixedSizeArrayValues ct count componentCount data ;;
    r <- transformArrays cp (Some ct) values ;;
    Ok (Some r) in
  match cp_componentType cp with
  | Some ct => numeric (Some ct)
  | None =>
      if String.eqb propType "BOOLEAN" then
        let byteCount := ceil_div8 (count * componentCount) in
        data <- buffer_slice buffer bufferByteOffset
                  (bufferByteOffset + Z.min byteCount bufferByteLength) ;;
        byteValues <- Py.unpack_ints false 1 byteCount data ;;
        values <- Py.mapM (fun i =>
                    cs <- Py.mapM (fun j => unpackBits byteValues (i * componentCount + j))
                            (Py.range componentCount) ;;
                    Ok (VSeq cs))
                  (Py.range count) ;;
        Ok (Some values)
      else if String.eqb propType "ENUM" then
        es <- enumSchemaOf cp enums ;;
        data <- buffer_slice buffer bufferByteOffset (bufferByteOffset + bufferByteLength) ;;
        enumValues <- readFixedSizeArrayValues (enumValueTypeOf es) count componentCount data ;;
        values <- Py.mapM (enum_names es) enumValues ;;
        Ok (Some values)
      else numeric None
  end.

(** The [else] branch: arrays whose length varies by row. *)
Definition decodeDynamicArray : result (option (list value)) :=
  let count := ft_count featureTable in
  let arrayOffsetType :=
    match tp_arrayOffsetType tp with Some t => t | None => "UINT32"%string end in
  arrayOffsetBufferView <-
    Py.getitem (k_arrayOffsetBufferView compatMap)
      (tp_key tp (k_arrayOffsetBufferView compatMap)) ;;
  aobv <- Py.index (bufferViews d) arrayOffsetBufferView ;;
  arrayOffsetBuffer <- Py.index (buffers d) (bv_buffer aobv) ;;
  let arrayOffsetStart := match bv_byteOffset aobv with Some o => o | None => 0 end in
  let arrayOffsetLen := bv_byteLength aobv in
  aodata <- buffer_slice arrayOffsetBuffer arrayOffsetStart
              (arrayOffsetStart + arrayOffsetLen) ;;
  arrayOffsets <- readScalarValues (Some arrayOffsetType) (count + 1) aodata ;;
  bufferByteOffset' <- Py.getitem "byteOffset" (bv_byteOffset bv) ;;
  let bufferByteLength' := bv_byteLength bv in
  stringOffsets <-
    (if String.eqb propType "STRING" then
       let stringOffsetType :=
         match tp_stringOffsetType tp with Some t => t | None => "UINT32"%string end in
       stringOffsetBufferView <-
         Py.getitem (k_stringOffsetBufferView compatMap)
           (tp_key tp (k_stringOffsetBufferView compatMap)) ;;
       sobv <- Py.index (bufferViews d) stringOffsetBufferView ;;
       stringOffsetBuffer <- Py.index (buffers d) (bv_buffer sobv) ;;
       let stringOffsetStart := match bv_byteOffset sobv with Some o => o | None => 0 end in
       let stringOffsetLen := bv_byteLength sobv in
       let stringOffsetCount :=
         stringOffsetLen / componentTypeSizeInBytes (Some stringOffsetType) in
       sodata <- buffer_slice stringOffsetBuffer stringOffsetStart
                   (stringOffsetStart + stringOffsetLen) ;;
       so <- readScalarValues (Some stringOffsetType) stringOffsetCount sodata ;;
       Ok (Some so)
     else Ok None) ;;
  let componentType := cp_componentType cp in
  if type_is componentType "ENUM" then
    es <- enumSchemaOf cp enums ;;
    data <- buffer_slice buffer bufferByteOffset' (bufferByteOffset' + bufferByteLength') ;;
    enumValues <- readDynamicSizeArrayValues propType (Some (enumValueTypeOf es))
                    arrayOffsets stringOffsets data ;;
    values <- Py.mapM (enum_names es) enumValues ;;
    Ok (Some values)
  else
    data <- buffer_slice buffer bufferByteOffset' (bufferByteOffset' + bufferByteLength') ;;
    values <- readDynamicSizeArrayValues propType componentType
                arrayOffsets stringOffsets data ;;
    r <- transformArrays cp componentType values ;;
    Ok (Some r).

(** [elif propType == 'BOOLEAN':] *)
Definition decodeBoolean : result (option (list value)) :=
  let count := ft_count featureTable in
  let byteCount := ceil_div8 count in
  start <- Py.getitem "byteOffset" (bv_byteOffset bv) ;;
  data <- buffer_slice buffer start (start + Z.min byteCount (bv_byteLength bv)) ;;
  byteValues <- Py.unpack_ints false 1 byteCount data ;;
  values <- Py.mapM (unpackBits byteValues) (Py.range count) ;;
  Ok (Some values).

(** [elif propType == 'ENUM':] *)
Definition decodeEnum : result (option (list value)) :=
  es <- enumSchemaOf cp enums ;;
  data <- buffer_slice buffer bufferByteOffset (bufferByteOffset + bufferByteLength) ;;
  enumValues <- readScalarValues (Some (enumValueTypeOf es)) (ft_count featureTable) data ;;
  values <- Py.mapM (enum_name es) enumValues ;;
  Ok (Some values).

(** [elif propType == 'INT32':] and its three siblings: the type name of
    the old extension read straight off the buffer view. *)
Definition decodeLegacyScalar : result (option (list value)) :=
  start <- Py.getitem "byteOffset" (bv_byteOffset bv) ;;
  data <- buffer_slice buffer start (start + bv_byteLength bv) ;;
  values <- readScalarValues (Some propType) (ft_count featureTable) data ;;
  Ok (Some values).

(** [elif propType == 'STRING':] with its [try] block; the handler's
    message reads the string offset buffer view again. *)
Definition decodeString : result (option (list value)) :=
  _ <- match tp_offsetType tp with
  | Some t => if negb (String.eqb t "UINT32")
              then Raise (Exception "Unhandled offsetType") else Ok tt
  | None => Ok tt
  end ;;
  match tp_key tp (k_stringOffsetBufferView compatMap) with
  | None => Raise UnboundLocalError
  | Some stringOffsetBufferView =>
      match Py.index (bufferViews d) stringOffsetBufferView with
      | Raise e => Raise e
      | Ok sobv =>
          let body :=
            stringOffsetBuffer <- Py.index (buffers d) (bv_buffer sobv) ;;
            bv' <- Py.index (bufferViews d) bufferView ;;
            buffer' <- Py.index (buffers d) (bv_buffer bv') ;;
            start <- Py.getitem "byteOffset" (bv_byteOffset sobv) ;;
            let length := bv_byteLength sobv in
            let typeBytesize := 4 in
            let numOffsets := ft_count featureTable + 1 in
            let length :=
              if length >? numOffsets * typeBytesize
              then (ft_count featureTable + 1) * typeBytesize else length in
            sodata <- buffer_slice stringOffsetBuffer start (start + length) ;;
            stringOffsets <- Py.unpack_ints false 4 numOffsets sodata ;;
            bufferByteOffset' <- Py.getitem "byteOffset" (bv_byteOffset bv') ;;
            values <- Py.mapM (fun i =>
                        so0 <- Py.index stringOffsets i ;;
                        so1 <- Py.index stringOffsets (i + 1) ;;
                        rawbytes <- buffer_slice buffer' (bufferByteOffset' + so0)
                                      (bufferByteOffset' + so1) ;;
                        s <- Py.decode_utf8 rawbytes ;;
                        Ok (VStr s))
                      (Py.range (Py.len stringOffsets - 1)) ;;
            Ok (Some values) in
          match body with
          | Ok r => Ok r
          | Raise _ => Raise (Exception "prop: stringOffsetBufferView error")
          end
      end
  end.

(** [elif self.mode is Mode.EXT_STRUCTURAL_METADATA:] *)
Definition decodeStructural : result (option (list value)) :=
  componentType <- Py.getitem "componentType" (cp_componentType cp) ;;
  if String.eqb propType "SCALAR" then
    data <- buffer_slice buffer bufferByteOffset (bufferByteOffset + bufferByteLength) ;;
    values <- readScalarValues (Some componentType) (ft_count featureTable) data ;;
    Ok (Some values)
  else
    componentCount <-
      (if String.eqb propType "VEC2" then Ok 2
       else if String.eqb propType "VEC3" then Ok 3
       else if String.eqb propType "VEC4" then Ok 4
       else if String.eqb propType "MAT2" then Ok 4
       else if String.eqb propType "MAT3" then Ok 9
       else if String.eqb propType "MAT4" then Ok 16
       else Raise (Exception "Unhandled property type")) ;;
    data <- buffer_slice buffer bufferByteOffset (bufferByteOffset + bufferByteLength) ;;
    values <- readFixedSizeArrayValues componentType (ft_count featureTable)
                componentCount data ;;
    Ok (Some values).

(** The branches of [getFeatureTablePropertyValues] after its prologue. *)
Definition decodeProperty : result (option (list value)) :=
  let isArrayProp :=
    match mode d with
    | EXT_STRUCTURAL_METADATA =>
        match cp_array cp with Some b => b | None => false end
    | EXT_FEATURE_METADATA => String.eqb propType "ARRAY"
    | UNKNOWN => false
    end in
  if isArrayProp then
    match cp_key cp (k_componentCount compatMap) with
    | Some componentCount => decodeFixedSizeArray componentCount
    | None => decodeDynamicArray
    end
  else if String.eqb propType "BOOLEAN" then decodeBoolean
  else if String.eqb propType "ENUM" then decodeEnum
  else if String.eqb propType "INT32" || String.eqb propType "UINT32"
          || String.eqb propType "UINT8" || String.eqb propType "FLOAT32"
  then decodeLegacyScalar
  else if String.eqb propType "STRING" then decodeString
  else match mode d with
       | EXT_STRUCTURAL_METADATA => decodeStructural
       | _ => Ok None
       end.
End Decoder.

Definition compatMapOf (m : Mode) : result CompatMap :=
  match m with
  | EXT_FEATURE_METADATA =>
      Ok (mkCompatMap "bufferView" "stringOffsetBufferView"
                      "stringOffsetBufferView" "componentCount")
  | EXT_STRUCTURAL_METADATA =>
      Ok (mkCompatMap "values" "stringOffsets" "arrayOffsets" "count")
  | UNKNOWN => Raise (Exception "Unhandled metadata mode")
  end.

(** [GltfDocument.getFeatureTablePropertyValues(ftName, propName)] for a
    given table name; [None] is the result of the unhandled-type branch. *)
Definition getFeatureTablePropertyValues (d : GltfDocument) (ftName propName : string)
  : result (option (list value)) :=
  props <- getNamedTable d ftName ;;
  if negb (existsb (String.eqb propName) (map fst (ft_properties props)))
  then Raise (Exception "Property not found in FeatureTable") else
  featureTable <- getNamedTable d ftName ;;
  classes <- getClasses d ;;
  enums <- getEnums d ;;
  let className := ft_class featureTable in
  compatMap <- compatMapOf (mode d) ;;
  tp <- Py.getitem propName (assoc propName (ft_properties featureTable)) ;;
  bufferView <- Py.getitem (k_bufferView compatMap) (tp_key tp (k_bufferView compatMap)) ;;
  match (cls <- Py.getitem className (assoc className classes) ;;
         cp <- Py.getitem propName (assoc propName cls) ;;
         t <- Py.getitem "type" (cp_type cp) ;;
         Ok (cp, t)) with
  | Raise _ => Raise (Exception "prop: className: classes:")
  | Ok (cp, propType) =>
      bv <- Py.index (bufferViews d) bufferView ;;
      buffer <- Py.index (buffers d) (bv_buffer bv) ;;
      let bufferByteOffset := match bv_byteOffset bv with Some o => o | None => 0 end in
      let bufferByteLength := bv_byteLength bv in
      decodeProperty d featureTable tp cp enums compatMap propType bufferView bv buffer
        bufferByteOffset bufferByteLength
  end.

(** ** All properties of a table *)

(** [o[key] = v] on a dict given as the list of its items, in insertion
    order: an existing key keeps its place. *)
Fixpoint dict_set {A} (key : string) (v : A) (o : list (string * A))
  : list (string * A) :=
  match o with
  | [] => [(key, v)]
  | (k, x) :: r =>
      if String.eqb k key then (k, v) :: r else (k, x) :: dict_set key v r
  end.

(** The [for propName in table["properties"]] loop of
    [getAllFeatureTablePropertyValues]. *)
Fixpoint collectProperties (d : GltfDocument) (ftName : string)
  (filterPropName : option string) (propNames : list string)
  (res : list (string * option (list value)))
  : result (list (string * option (list value))) :=
  match propNames with
  | [] => Ok res
  | propName :: rest =>
      if match filterPropName with
         | Some f => negb (String.eqb propName f)
         | None => false
         end
      then collectProperties d ftName filterPropName rest res
      else
        v <- getFeatureTablePropertyValues d ftName propName ;;
        collectProperties d ftName filterPropName rest (dict_set propName v res)
  end.

(** The [for num, table in enumerate(self.propertyTables)] loop. *)
Fixpoint collectTables (d : GltfDocument) (ftName : string)
  (filterPropName : option string) (tables : list FeatureTable)
  (res : list (string * option (list value))) (foundTable : bool)
  : result (list (string * option (list value)) * bool) :=
  match tables with
  | [] => Ok (res, foundTable)
  | table :: rest =>
      if String.eqb (ft_name table) ftName then
        res' <- collectProperties d ftName filterPropName
                  (map fst (ft_properties table)) res ;;
        collectTables d ftName filterPropName rest res' true
      else collectTables d ftName filterPropName rest res foundTable
  end.

Definition getAllFeatureTablePropertyValues (d : GltfDocument) (ftName : string)
  (filterPropName : option string)
  : result (list (string * option (list value))) :=
  r <- collectTables d ftName filterPropName (propertyTables d) [] false ;;
  let '(res, foundTable) := r in
  if negb foundTable then Raise (Exception "There is no table with name '")
  else Ok res.

End gltf.


(* ===================================================================== *)
(** * Vocabulary of the statements                                       *)
(* ===================================================================== *)

(** A decompression back end to run examples on: raw deflate streams made of
    stored blocks only (what [zlib] writes at level 0), and no [zstandard]
    module.  The theorems hold for every [Codecs]. *)
Module StoredCodecs.

Fixpoint inflate_stored (fuel : nat) (data : bytes) : result bytes :=
  match fuel with
  | O => Raise BackendError
  | S k =>
      match data with
      | hdr :: l0 :: l1 :: n0 :: n1 :: rest =>
          let h := Byte.byte.unsigned hdr in
          let len := le_combine [l0; l1] in
          let nlen := le_combine [n0; n1] in
          if negb (Z.land (Z.shiftr h 1) 3 =? 0) then Raise BackendError
          else if negb (len + nlen =? 65535) then Raise BackendError
          else if Py.len rest <? len then Raise BackendError
          else
            let body := firstn (Z.to_nat len) rest in
            if Z.testbit h 0 then Ok body
            else more <- inflate_stored k (skipn (Z.to_nat len) rest) ;;
                 Ok (body ++ more)
      | _ => Raise BackendError
      end
  end.

Definition codecs : archive3tz.Codecs :=
  {| archive3tz.zlib_decompress := fun data => inflate_stored (List.length data) data;
     archive3tz.zstd := None |}.

End StoredCodecs.

Module Spec.

(** ** ZIP entries *)

(** One of the general-purpose flag bits 0, 3, 5, 13 is set. *)
Definition forbidden_flag (item : index3tz.ZipInfo) : Prop :=
  Z.testbit (index3tz.flag_bits item) 0 = true
  \/ Z.testbit (index3tz.flag_bits item) 3 = true
  \/ Z.testbit (index3tz.flag_bits item) 5 = true
  \/ Z.testbit (index3tz.flag_bits item) 13 = true.

Definition bad_method (item : index3tz.ZipInfo) : Prop :=
  index3tz.compress_type item <> 0
  /\ index3tz.compress_type item <> 8
  /\ index3tz.compress_type item <> 93.

Definition missing_size (item : index3tz.ZipInfo) : Prop :=
  index3tz.compress_size item = 0 /\ index3tz.file_size item <> 0.

(** The entry validation as the specification words it. *)
Definition fails_validation (item : index3tz.ZipInfo) : Prop :=
  forbidden_flag item \/ bad_method item \/ missing_size item.

(** An entry that [buildIndex] puts into the index. *)
Definition indexed (item : index3tz.ZipInfo) : Prop :=
  index3tz.is_dir item = false
  /\ index3tz.filename item <> "@3dtilesIndex1@"%string.

(** ** The index blob *)

Definition u64 (z : Z) : Prop := 0 <= z < 2 ^ 64.

Definition entry_ok (e : index3tz.entry) : Prop :=
  u64 (fst (fst e)) /\ u64 (snd (fst e)) /\ u64 (snd e).

(** The 24 bytes of an index entry, [(md5_lo, md5_hi, offset)] as
    little-endian 64-bit integers. *)
Definition encode_entry (e : index3tz.entry) : bytes :=
  le_split 8 (fst (fst e)) ++ le_split 8 (snd (fst e)) ++ le_split 8 (snd e).

Definition encode_index (es : list index3tz.entry) : bytes :=
  flat_map encode_entry es.

(** The sort key of an entry. *)
Definition key (e : index3tz.entry) : Z * Z := fst e.

(** The key order of [md5LessThan], [lo] first. *)
Definition key_lt (x y : Z * Z) : Prop :=
  fst x < fst y \/ (fst x = fst y /\ snd x < snd y).

(** The index entry of a ZIP entry. *)
Definition entry_of (item : index3tz.ZipInfo) : index3tz.entry :=
  (MD5.halves (index3tz.filename item), index3tz.header_offset item).

Definition indexed_b (item : index3tz.ZipInfo) : bool :=
  negb (index3tz.is_dir item)
  && negb (String.eqb (index3tz.filename item) "@3dtilesIndex1@").

(** A well-formed sorted index: the entries fit 64 bits and their keys
    ascend. *)
Definition sorted_index (es : list index3tz.entry) : Prop :=
  Forall entry_ok es
  /\ StronglySorted (fun x y => index3tz.key_le x y = true) es.

(** ** Extra fields *)

(** A tuple [(tag:u16, size:u16, payload)] of an extra field, given by its
    tag and payload. *)
Definition extra_tuple : Type := Z * bytes.

Definition encode_tuple (t : extra_tuple) : bytes :=
  le_split 2 (fst t) ++ le_split 2 (Py.len (snd t)) ++ snd t.

Definition encode_extra (ts : list extra_tuple) : bytes :=
  flat_map encode_tuple ts.

Definition tuple_ok (t : extra_tuple) : Prop :=
  0 <= fst t < 2 ^ 16 /\ Py.len (snd t) < 2 ^ 16.

(** The ZIP64 record that carries the 8-byte local header offset. *)
Definition zip64_offset_tuple (t : extra_tuple) : Prop :=
  fst t = 0x0001 /\ Py.len (snd t) = 8.

(** ** Signatures in a buffer *)

(** [needle] stands in [hay] at index [i]. *)
Definition occurs_at (hay needle : bytes) (i : Z) : Prop :=
  0 <= i /\ i + Py.len needle <= Py.len hay
  /\ Py.slice hay i (i + Py.len needle) = needle.

Definition last_occurrence (hay needle : bytes) (i : Z) : Prop :=
  occurs_at hay needle i /\ forall j, i < j -> ~ occurs_at hay needle j.

(** The last [n] bytes of a buffer that has at least [n]. *)
Definition tail (n : Z) (b : bytes) : bytes := skipn (Z.to_nat (Py.len b - n)) b.

(** The file after it was read to its end. *)
Definition at_end (f : archive3tz.file) : archive3tz.file :=
  archive3tz.mkfile (archive3tz.contents f) (Py.len (archive3tz.contents f)).

(** ** Property tables *)

(** Byte [k] of a buffer as an integer. *)
Definition byte_at (bs : bytes) (k : Z) : Z :=
  Byte.byte.unsigned (nth (Z.to_nat k) bs x00).

(** The prologue of [getFeatureTablePropertyValues] finds the table
    [ftName], its property [propName], the class property with its [type],
    and the values buffer view with its buffer. *)
Definition resolved (d : gltf.GltfDocument) (ftName propName : string)
  (T : gltf.FeatureTable) (tp : gltf.TableProperty) (cp : gltf.ClassProperty)
  (enums : list (string * gltf.EnumSchema)) (compatMap : gltf.CompatMap)
  (propType : string) (bufferView : Z) (bv : gltf.BufferView)
  (buffer : option bytes) : Prop :=
  gltf.getNamedTable d ftName = Ok T
  /\ gltf.assoc propName (gltf.ft_properties T) = Some tp
  /\ gltf.compatMapOf (gltf.mode d) = Ok compatMap
  /\ (exists classes cls,
        gltf.getClasses d = Ok classes
        /\ gltf.assoc (gltf.ft_class T) classes = Some cls
        /\ gltf.assoc propName cls = Some cp)
  /\ gltf.getEnums d = Ok enums
  /\ gltf.cp_type cp = Some propType
  /\ gltf.tp_key tp (gltf.k_bufferView compatMap) = Some bufferView
  /\ Py.index (gltf.bufferViews d) bufferView = Ok bv
  /\ Py.index (gltf.buffers d) (gltf.bv_buffer bv) = Ok buffer.

(** The property is decoded by one of the array branches. *)
Definition is_array_prop (m : gltf.Mode) (cp : gltf.ClassProperty) (propType : string)
  : bool :=
  match m with
  | gltf.EXT_STRUCTURAL_METADATA =>
      match gltf.cp_array cp with Some b => b | None => false end
  | gltf.EXT_FEATURE_METADATA => String.eqb propType "ARRAY"
  | gltf.UNKNOWN => false
  end.

(** A class property with other [offset], [scale] and [normalized]. *)
Definition with_transform (cp : gltf.ClassProperty)
  (offset scale : option gltf.number) (normalized : option bool) : gltf.ClassProperty :=
  {| gltf.cp_type := gltf.cp_type cp;
     gltf.cp_componentType := gltf.cp_componentType cp;
     gltf.cp_array := gltf.cp_array cp;
     gltf.cp_count := gltf.cp_count cp;
     gltf.cp_componentCount := gltf.cp_componentCount cp;
     gltf.cp_enumType := gltf.cp_enumType cp;
     gltf.cp_offset := offset;
     gltf.cp_scale := scale;
     gltf.cp_normalized := normalized |}.




(** *** Properties of a table without rows *)







(** [readIndex] followed by [findLocalFileHeaderOffsetInIndex]. *)
Definition lookup (blob : bytes) (filepath : string) : result (option Z) :=
  index <- archive3tz.readIndex blob ;;
  archive3tz.findLocalFileHeaderOffsetInIndex index filepath.

(** ** Local entries of an archive *)

(** The archive [c] holds at [off] a local file header for [name], a name
    of at most 100 bytes, with compression method [method], uncompressed
    size [usize] and compressed size [len raw], followed by the name, an
    extra field and the data [raw], all inside the archive; at least 130
    bytes follow [off].  Signature, version, flags, time, date and CRC of
    the header are left open. *)
Definition entry_at (c : bytes) (off : Z) (name : string) (method : bytes)
  (usize : Z) (raw : bytes) : Prop :=
  let fn := Py.len (Py.encode_utf8 name) in
  let ef := le_combine (Py.slice c (off + 28) (off + 30)) in
  0 <= off /\ off + 130 <= Py.len c
  /\ Py.slice c (off + 8) (off + 10) = method
  /\ le_combine (Py.slice c (off + 18) (off + 22)) = Py.len raw
  /\ le_combine (Py.slice c (off + 22) (off + 26)) = usize
  /\ le_combine (Py.slice c (off + 26) (off + 28)) = fn
  /\ fn <= 100
  /\ Py.utf8_valid (Py.encode_utf8 name) = true
  /\ Py.slice c (off + 30) (off + 30 + fn) = Py.encode_utf8 name
  /\ off + 30 + fn + ef + Py.len raw <= Py.len c
  /\ Py.slice c (off + 30 + fn + ef) (off + 30 + fn + ef + Py.len raw) = raw.

(** What [parseCentralDirectoryEntry] makes of no bytes at all. *)
Definition empty_cde : archive3tz.CDE :=
  {| archive3tz.cde_signature := [];
     archive3tz.cde_version := [];
     archive3tz.cde_versionNeeded := [];
     archive3tz.cde_generalBits := [];
     archive3tz.cde_compressionMethod := [];
     archive3tz.cde_lastModTime := [];
     archive3tz.cde_lastModDate := [];
     archive3tz.cde_crc32 := [];
     archive3tz.cde_compressedSize := 0;
     archive3tz.cde_uncompressedSize := 0;
     archive3tz.cde_filenameLength := 0;
     archive3tz.cde_extraFieldLength := 0;
     archive3tz.cde_fileCommentLength := 0;
     archive3tz.cde_distNumber := 0;
     archive3tz.cde_internalFileAttributes := [];
     archive3tz.cde_externalFileAttributes := [];
     archive3tz.cde_relativeOffsetOfLocalHeader := 0;
     archive3tz.cde_filename := "";
     archive3tz.cde_extraField := [];
     archive3tz.cde_fileComment := [] |}.

(** The first component of a result. *)
Definition returned {A B} (r : result (A * B)) : result A :=
  p <- r ;; Ok (fst p).

(** ** Subtree files *)

(** A subtree file: the magic [subt], version 1, the byte lengths of the
    JSON and of the binary part, then the two parts. *)
Definition subtree_file (json : string) (bin : bytes) : bytes :=
  le_split 4 0x74627573 ++ le_split 4 1
    ++ le_split 8 (Py.len (Py.encode_utf8 json)) ++ le_split 8 (Py.len bin)
    ++ Py.encode_utf8 json ++ bin.

(** ** Images *)

Definition PNG_SIGNATURE : bytes := [x89; x50; x4e; x47; x0d; x0a; x1a; x0a].

(** Start of image followed by a JFIF application segment marker. *)
Definition JFIF_START : bytes := [xff; xd8; xff; xe0].

(** The length 13 and the type [IHDR] of a PNG's first chunk. *)
Definition IHDR_HEAD : bytes := [x00; x00; x00; x0d; x49; x48; x44; x52].

(** The big-endian value of a byte string. *)
Definition be (b : bytes) : Z := le_combine (rev b).

(** A JPEG segment with a length field: its marker code and its payload. *)
Definition segment : Type := Z * bytes.

(** Marker codes that [getImageDims] skips by the segment's length field:
    not a fill byte, not one of the markers it takes to stand alone, and
    not the baseline frame header. *)
Definition skipped_marker (m : Z) : Prop :=
  0 <= m < 255 /\ m <> 0xd8 /\ m <> 0xd9 /\ ~ (0xd0 < m <= 0xd7)
  /\ m <> 0x01 /\ m <> 0xc0.

Definition segment_ok (s : segment) : Prop :=
  skipped_marker (fst s) /\ Py.len (snd s) + 2 < 2 ^ 16.

Definition encode_segment (s : segment) : bytes :=
  [xff] ++ le_split 1 (fst s) ++ rev (le_split 2 (Py.len (snd s) + 2)) ++ snd s.

(** A baseline frame header: precision, two 16-bit fields [y] and [x],
    and what follows them. *)
Definition frame_header (length precision y x : Z) (rest : bytes) : bytes :=
  [xff; xc0] ++ rev (le_split 2 length) ++ le_split 1 precision
    ++ rev (le_split 2 y) ++ rev (le_split 2 x) ++ rest.

(** ** Component types *)

(** The integer component types with their signedness and byte size. *)
Definition int_type (componentType : string) (signed : bool) (size : nat) : Prop :=
  In (componentType, signed, size)
    [ ("UINT8", false, 1); ("INT8", true, 1); ("UINT16", false, 2);
      ("INT16", true, 2); ("UINT32", false, 4); ("INT32", true, 4);
      ("UINT64", false, 8); ("INT64", true, 8) ]%string%nat.

(** The integer that [size] bytes at index [i] of a packed array encode. *)
Definition int_at (signed : bool) (size : nat) (data : bytes) (i : Z) : Z :=
  let u := le_combine (Py.slice data (i * Z.of_nat size) ((i + 1) * Z.of_nat size)) in
  if signed then Py.to_signed size u else u.

(** The 8-bit component types with the range of their values. *)
Definition normalized_range (componentType : string) (lo hi : Z) : Prop :=
  In (componentType, lo, hi) [ ("UINT8", 0, 255); ("INT8", -128, 127) ]%string.

(** ** All properties of a table *)

(** A property name that the filter of [getAllFeatureTablePropertyValues]
    lets through. *)
Definition passes (filterPropName : option string) (p : string) : Prop :=
  match filterPropName with Some f => p = f | None => True end.

(** What holds of the result dict throughout the two loops: its entries
    are results of the decoder, under names that pass the filter. *)
Definition decoded (d : gltf.GltfDocument) (ftName : string)
  (filterPropName : option string)
  (res : list (string * option (list gltf.value))) : Prop :=
  forall p v, In (p, v) res ->
    gltf.getFeatureTablePropertyValues d ftName p = Ok v /\ passes filterPropName p.

End Spec.

(** Concrete inputs of the examples below. *)
Module Examples.

(** A ZIP whose central directory lists the name [a.txt] twice, as
    [zipfile] writes it after two [write] calls with the same name. *)
Definition dup_first : index3tz.ZipInfo := index3tz.mkZipInfo "a.txt" 0 0 5 5 0.
Definition dup_second : index3tz.ZipInfo := index3tz.mkZipInfo "a.txt" 0 0 7 7 100.
Definition dup_zip : list index3tz.ZipInfo := [dup_first; dup_second].

(** A ZIP with two files and a directory. *)
Definition small_zip : list index3tz.ZipInfo :=
  [ index3tz.mkZipInfo "a.txt" 0 0 5 5 0;
    index3tz.mkZipInfo "dir/" 0 0 0 0 40;
    index3tz.mkZipInfo "b.txt" 0 8 9 30 74 ].

(** The index of an archive that holds the single file [a.txt]. *)
Definition one_entry_zip : list index3tz.ZipInfo :=
  [ index3tz.mkZipInfo "a.txt" 0 0 5 5 0 ].
Definition one_entry_index : bytes :=
  Spec.encode_index [(11703091639316506021, 9094510531650121512, 0)].

(** A GLB whose JSON chunk [{}] is followed by a 9-byte chunk of type 0. *)
Definition glb_header12 (total : Z) : bytes :=
  Py.to_bytes 4 0x46546C67 ++ Py.to_bytes 4 2 ++ Py.to_bytes 4 total.
Definition glb_json_chunk : bytes :=
  Py.to_bytes 4 2 ++ Py.to_bytes 4 0x4E4F534A ++ Py.encode_utf8 "{}".
Definition glb_other_chunk : bytes :=
  glb_header12 31 ++ glb_json_chunk ++ Py.to_bytes 4 1 ++ Py.to_bytes 4 0 ++ [x2a].

(** The same container with a BIN chunk of three bytes, and with nothing
    after the JSON chunk. *)
Definition glb_bin_chunk : bytes :=
  glb_header12 33 ++ glb_json_chunk
    ++ Py.to_bytes 4 3 ++ Py.to_bytes 4 0x004E4942 ++ [x01; x02; x03].
Definition glb_json_only : bytes := glb_header12 22 ++ glb_json_chunk.

(** A central directory entry for the file [a] that announces a ZIP64
    offset, with an extra field that holds only an extended-timestamp
    tuple (tag 0x5455, 5 bytes). *)
Definition cde_without_zip64 : bytes :=
  archive3tz.STARTOFCENTRALDIRECTORY
    ++ Py.to_bytes 2 45 ++ Py.to_bytes 2 45 ++ Py.to_bytes 2 0 ++ Py.to_bytes 2 0
    ++ Py.to_bytes 2 0 ++ Py.to_bytes 2 0 ++ Py.to_bytes 4 0
    ++ Py.to_bytes 4 0xFFFFFFFF ++ Py.to_bytes 4 0xFFFFFFFF
    ++ Py.to_bytes 2 1 ++ Py.to_bytes 2 9 ++ Py.to_bytes 2 0
    ++ Py.to_bytes 2 0 ++ Py.to_bytes 2 0 ++ Py.to_bytes 4 0
    ++ Py.to_bytes 4 0xFFFFFFFF
    ++ Py.encode_utf8 "a"
    ++ Spec.encode_extra [(0x5455, [x01; x00; x00; x00; x00])].

Definition cde_record_without_zip64 : archive3tz.CDE :=
  {| archive3tz.cde_signature := archive3tz.STARTOFCENTRALDIRECTORY;
     archive3tz.cde_version := Py.to_bytes 2 45;
     archive3tz.cde_versionNeeded := Py.to_bytes 2 45;
     archive3tz.cde_generalBits := Py.to_bytes 2 0;
     archive3tz.cde_compressionMethod := Py.to_bytes 2 0;
     archive3tz.cde_lastModTime := Py.to_bytes 2 0;
     archive3tz.cde_lastModDate := Py.to_bytes 2 0;
     archive3tz.cde_crc32 := Py.to_bytes 4 0;
     archive3tz.cde_compressedSize := 0xFFFFFFFF;
     archive3tz.cde_uncompressedSize := 0xFFFFFFFF;
     archive3tz.cde_filenameLength := 1;
     archive3tz.cde_extraFieldLength := 9;
     archive3tz.cde_fileCommentLength := 0;
     archive3tz.cde_distNumber := 0;
     archive3tz.cde_internalFileAttributes := Py.to_bytes 2 0;
     archive3tz.cde_externalFileAttributes := Py.to_bytes 4 0;
     archive3tz.cde_relativeOffsetOfLocalHeader := 0xFFFFFFFF;
     archive3tz.cde_filename := "a";
     archive3tz.cde_extraField := Spec.encode_extra [(0x5455, [x01; x00; x00; x00; x00])];
     archive3tz.cde_fileComment := [] |}.

Definition empty_file : archive3tz.file := archive3tz.mkfile [] 0.

(** An archive of 387 bytes: 300 bytes of entries, the central directory
    entry of [@3dtilesIndex1@], and an end-of-central-directory record
    whose 4-byte archive comment is [PK\x01\x02]. *)
Definition cde_of_index : bytes :=
  archive3tz.STARTOFCENTRALDIRECTORY
    ++ Py.to_bytes 2 20 ++ Py.to_bytes 2 20 ++ Py.to_bytes 2 0 ++ Py.to_bytes 2 0
    ++ Py.to_bytes 2 0 ++ Py.to_bytes 2 0 ++ Py.to_bytes 4 0
    ++ Py.to_bytes 4 24 ++ Py.to_bytes 4 24
    ++ Py.to_bytes 2 15 ++ Py.to_bytes 2 0 ++ Py.to_bytes 2 0
    ++ Py.to_bytes 2 0 ++ Py.to_bytes 2 0 ++ Py.to_bytes 4 0
    ++ Py.to_bytes 4 231
    ++ Py.encode_utf8 "@3dtilesIndex1@".

Definition eocd_with_comment (comment : bytes) : bytes :=
  archive3tz.ENDOFCENTRALDIRECTORY
    ++ Py.to_bytes 2 0 ++ Py.to_bytes 2 0 ++ Py.to_bytes 2 1 ++ Py.to_bytes 2 1
    ++ Py.to_bytes 4 61 ++ Py.to_bytes 4 300
    ++ Py.to_bytes 2 (Py.len comment) ++ comment.

Definition archive_with_comment : archive3tz.file :=
  archive3tz.mkfile
    (repeat x00 300 ++ cde_of_index
       ++ eocd_with_comment archive3tz.STARTOFCENTRALDIRECTORY) 0.

Definition archive_without_comment : archive3tz.file :=
  archive3tz.mkfile (repeat x00 300 ++ cde_of_index ++ eocd_with_comment []) 0.

(** The same archive with 200 bytes of entries: 283 bytes in all. *)
Definition short_archive : archive3tz.file :=
  archive3tz.mkfile (repeat x00 200 ++ cde_of_index ++ eocd_with_comment []) 0.

(** Documents of the new extension with one class [c], one property [p],
    one table [t] over buffer view 0 of buffer 0. *)
Definition values_at (i : Z) : gltf.TableProperty :=
  gltf.mkTableProperty None (Some i) None None None None None None.

Definition class_property (type : string) (componentType : option string)
  (offset scale : option gltf.number) : gltf.ClassProperty :=
  gltf.mkClassProperty (Some type) componentType None None None None offset scale None.

Definition array_property (type : string) (componentType : option string) (count : Z)
  (offset scale : option gltf.number) : gltf.ClassProperty :=
  gltf.mkClassProperty (Some type) componentType (Some true) (Some count) None None
    offset scale None.

Definition structural_doc (count : Z) (cp : gltf.ClassProperty)
  (bv : gltf.BufferView) (buffer : bytes) : gltf.GltfDocument :=
  {| gltf.mode := gltf.EXT_STRUCTURAL_METADATA;
     gltf.schema := Some (gltf.mkSchema (Some [("c", [("p", cp)])]) None)%string;
     gltf.propertyTables := [gltf.mkFeatureTable "t" "c" count [("p", values_at 0)]]%string;
     gltf.bufferViews := [bv];
     gltf.buffers := [Some buffer] |}.

(** Ten packed booleans in the bytes 0xA5, 0x02. *)
Definition bool_view : gltf.BufferView := gltf.mkBufferView 0 (Some 0) 2.
Definition bool_doc : gltf.GltfDocument :=
  structural_doc 10 (class_property "BOOLEAN" None None None) bool_view [xa5; x02].

(** The FLOAT32 values 1.0, 2.0, 3.0, 4.0 with [offset = 10], [scale = 2]:
    as a SCALAR property, and as a fixed-size array of one component. *)
Definition height_bytes : bytes :=
  [x00; x00; x80; x3f; x00; x00; x00; x40; x00; x00; x40; x40; x00; x00; x80; x40].
Definition height_view : gltf.BufferView := gltf.mkBufferView 0 (Some 0) 16.
Definition height_doc : gltf.GltfDocument :=
  structural_doc 4
    (class_property "SCALAR" (Some "FLOAT32"%string)
       (Some (gltf.NInt 10)) (Some (gltf.NInt 2)))
    height_view height_bytes.
Definition height_array_doc : gltf.GltfDocument :=
  structural_doc 4
    (array_property "SCALAR" (Some "FLOAT32"%string) 1
       (Some (gltf.NInt 10)) (Some (gltf.NInt 2)))
    height_view height_bytes.

(** The same two bytes behind a buffer view without [byteOffset]: as ten
    booleans, as ten arrays of one boolean, and as two UINT8 values. *)
Definition view_without_offset : gltf.BufferView := gltf.mkBufferView 0 None 2.
Definition bool_no_offset_doc : gltf.GltfDocument :=
  structural_doc 10 (class_property "BOOLEAN" None None None)
    view_without_offset [xa5; x02].
Definition bool_array_no_offset_doc : gltf.GltfDocument :=
  structural_doc 10 (array_property "BOOLEAN" None 1 None None)
    view_without_offset [xa5; x02].
Definition bytes_no_offset_doc : gltf.GltfDocument :=
  structural_doc 2 (class_property "SCALAR" (Some "UINT8"%string) None None)
    view_without_offset [xa5; x02].





(** ** A complete 3tz archive *)

Definition local_entry (name : string) (method usize : Z) (raw : bytes) : bytes :=
  archive3tz.LOCALFILEHEADERSIGNATURE
    ++ Py.to_bytes 2 20 ++ Py.to_bytes 2 0 ++ Py.to_bytes 2 method
    ++ Py.to_bytes 2 0 ++ Py.to_bytes 2 0 ++ Py.to_bytes 4 0
    ++ Py.to_bytes 4 (Py.len raw) ++ Py.to_bytes 4 usize
    ++ Py.to_bytes 2 (Py.len (Py.encode_utf8 name)) ++ Py.to_bytes 2 0
    ++ Py.encode_utf8 name ++ raw.

Definition central_entry (name : string) (method csize usize offset : Z) : bytes :=
  archive3tz.STARTOFCENTRALDIRECTORY
    ++ Py.to_bytes 2 20 ++ Py.to_bytes 2 20 ++ Py.to_bytes 2 0 ++ Py.to_bytes 2 method
    ++ Py.to_bytes 2 0 ++ Py.to_bytes 2 0 ++ Py.to_bytes 4 0
    ++ Py.to_bytes 4 csize ++ Py.to_bytes 4 usize
    ++ Py.to_bytes 2 (Py.len (Py.encode_utf8 name)) ++ Py.to_bytes 2 0 ++ Py.to_bytes 2 0
    ++ Py.to_bytes 2 0 ++ Py.to_bytes 2 0 ++ Py.to_bytes 4 0
    ++ Py.to_bytes 4 offset
    ++ Py.encode_utf8 name.

Definition end_record (entries cdsize cdoffset : Z) : bytes :=
  archive3tz.ENDOFCENTRALDIRECTORY
    ++ Py.to_bytes 2 0 ++ Py.to_bytes 2 0 ++ Py.to_bytes 2 entries ++ Py.to_bytes 2 entries
    ++ Py.to_bytes 4 cdsize ++ Py.to_bytes 4 cdoffset ++ Py.to_bytes 2 0.

(** The stored file [a.txt] of 100 bytes at offset 0, the deflated file
    [b.txt] ([abc] in one stored block) at 135, the index at 178, the
    central directory at 271 and its end record at 434: 456 bytes. *)
Definition a_data : bytes := repeat x61 100.
Definition b_raw : bytes := [x01; x03; x00; xfc; xff; x61; x62; x63].
Definition tiny_entries : list index3tz.entry :=
  [ (11703091639316506021, 9094510531650121512, 0);
    (14018283021449973966, 18269407469251022780, 135) ].
Definition tiny_3tz : bytes :=
  local_entry "a.txt" 0 100 a_data
    ++ local_entry "b.txt" 8 3 b_raw
    ++ local_entry "@3dtilesIndex1@" 0 48 (Spec.encode_index tiny_entries)
    ++ central_entry "a.txt" 0 100 100 0
    ++ central_entry "b.txt" 8 8 3 135
    ++ central_entry "@3dtilesIndex1@" 0 48 48 178
    ++ end_record 3 163 271.

(** The local file headers of [a.txt] and [b.txt] in this archive. *)
Definition a_header : archive3tz.LFH :=
  archive3tz.mkLFH archive3tz.LOCALFILEHEADERSIGNATURE
    (Py.to_bytes 2 20) (Py.to_bytes 2 0) (Py.to_bytes 2 0)
    (Py.to_bytes 2 0) (Py.to_bytes 2 0) (Py.to_bytes 4 0)
    100 100 5 0 "a.txt" [].
Definition b_header : archive3tz.LFH :=
  archive3tz.mkLFH archive3tz.LOCALFILEHEADERSIGNATURE
    (Py.to_bytes 2 20) (Py.to_bytes 2 0) (Py.to_bytes 2 8)
    (Py.to_bytes 2 0) (Py.to_bytes 2 0) (Py.to_bytes 4 0)
    8 3 5 0 "b.txt" [].

(** A path of 101 bytes. *)
Definition long_path : string :=
  String.concat "" (repeat "0123456789"%string 10) ++ "x".

(** 320 bytes in which no signature occurs, and 298 such bytes before an
    end record. *)
Definition no_signature : bytes := repeat x00 320.
Definition only_end_record : bytes := repeat x00 298 ++ end_record 0 0 0.

(** The same archive cut after the local entry of [b.txt], whose header
    then stands 43 bytes before the end of the file. *)
Definition cut_after_b : archive3tz.file :=
  archive3tz.mkfile (local_entry "a.txt" 0 100 a_data ++ local_entry "b.txt" 8 3 b_raw) 0.

(** ** A GLB file, a subtree file and two images *)

(** The first 33 bytes of a PNG of 640 by 480 pixels, 8 bits, RGBA. *)
Definition png_640x480 : bytes :=
  Spec.PNG_SIGNATURE ++ Spec.IHDR_HEAD
    ++ [x00; x00; x02; x80] ++ [x00; x00; x01; xe0]
    ++ [x08; x06; x00; x00; x00] ++ [x00; x00; x00; x00].

(** A JPEG: start of image, a JFIF segment of 14 payload bytes, and a
    baseline frame header with the fields 480 and 640. *)
Definition jfif_segment : Spec.segment := (0xe0, repeat x00 14).
Definition jpeg_480_640 : bytes :=
  [xff; xd8] ++ Spec.encode_segment jfif_segment
    ++ Spec.frame_header 17 8 480 640 [x03; x01; x22; x00].

End Examples.

(* ===================================================================== *)
(** * Theorems                                                            *)
(* ===================================================================== *)

(** ** Sanity checks of the library models *)

(** The RFC 1321 test suite and digests computed by [hashlib]. *)
Example md5_rfc1321 :
  map Byte.byte.unsigned (MD5.digest (Py.encode_utf8 ""))
    = [0xd4; 0x1d; 0x8c; 0xd9; 0x8f; 0x00; 0xb2; 0x04;
       0xe9; 0x80; 0x09; 0x98; 0xec; 0xf8; 0x42; 0x7e]
  /\ map Byte.byte.unsigned (MD5.digest (Py.encode_utf8 "abc"))
    = [0x90; 0x01; 0x50; 0x98; 0x3c; 0xd2; 0x4f; 0xb0;
       0xd6; 0x96; 0x3f; 0x7d; 0x28; 0xe1; 0x7f; 0x72]
  /\ map Byte.byte.unsigned
       (MD5.digest (Py.encode_utf8
          "12345678901234567890123456789012345678901234567890123456789012345678901234567890"))
    = [0x57; 0xed; 0xf4; 0xa2; 0x2b; 0xe3; 0xc9; 0x55;
       0xac; 0x49; 0xda; 0x2e; 0x21; 0x07; 0xb6; 0x7a].
Proof. repeat split; vm_compute; reflexivity. Qed.

Example md5_halves_examples :
  MD5.halves "a.txt" = (11703091639316506021, 9094510531650121512)
  /\ MD5.halves "b.txt" = (14018283021449973966, 18269407469251022780)
  /\ MD5.halves "0/0/0/0.glb" = (14813912979313617937, 9129404393768540568).
Proof. repeat split; vm_compute; reflexivity. Qed.

Example slice_examples :
  Py.slice [1; 2; 3; 4; 5] 1 3 = [2; 3]
  /\ Py.slice [1; 2; 3; 4; 5] (-1) 3 = []
  /\ Py.slice [1; 2; 3; 4; 5] (-3) 10 = [3; 4; 5]
  /\ Py.slice_from [1; 2; 3; 4; 5] 7 = [].
Proof. repeat split; reflexivity. Qed.

Example utf8_examples :
  Py.utf8_valid [xc3; xa9] = true
  /\ Py.utf8_valid [xe2; x82; xac] = true
  /\ Py.utf8_valid [xc3] = false
  /\ Py.utf8_valid [xc0; x80] = false
  /\ Py.utf8_valid [xed; xa0; x80] = false
  /\ Py.utf8_valid [xff] = false.
Proof. repeat split; reflexivity. Qed.

Example rfind_examples :
  Py.rfind [x01; x02; x03; x01; x02] [x01; x02] = 3
  /\ Py.rfind [x01; x02; x03; x01; x02] [x05] = -1.
Proof. split; reflexivity. Qed.

Example inflate_stored_example :
  StoredCodecs.inflate_stored 8 [x01; x03; x00; xfc; xff; x61; x62; x63]
  = Ok [x61; x62; x63].
Proof. reflexivity. Qed.

(** ** Entry validation in [buildIndex] *)

Lemma disallowedFlagBits_value : index3tz.disallowedFlagBits = 8233.
Proof. reflexivity. Qed.

Lemma forbidden_flag_land (item : index3tz.ZipInfo) :
  Spec.forbidden_flag item ->
  Z.land (index3tz.flag_bits item) index3tz.disallowedFlagBits <> 0.
Proof.
  intros H E. rewrite disallowedFlagBits_value in E.
  assert (B : forall i, 0 <= i ->
            Z.testbit (index3tz.flag_bits item) i && Z.testbit 8233 i = false).
  { intros i Hi. rewrite <- Z.land_spec, E. apply Z.bits_0. }
  destruct H as [H | [H | [H | H]]];
    [ specialize (B 0) | specialize (B 3) | specialize (B 5) | specialize (B 13) ];
    rewrite H in B; cbn in B; specialize (B ltac:(lia)); discriminate.
Qed.

Lemma check_only_asserts (item : index3tz.ZipInfo) (e : exn) :
  index3tz.checkIfSupportedZipItem item = Raise e -> exists msg, e = AssertionError msg.
Proof.
  unfold index3tz.checkIfSupportedZipItem.
  repeat match goal with
         | |- context [if ?c then _ else _] => destruct c
         end; intros H; inversion H; eauto.
Qed.

Lemma check_rejects (item : index3tz.ZipInfo) :
  Spec.fails_validation item ->
  exists msg, index3tz.checkIfSupportedZipItem item = Raise (AssertionError msg).
Proof.
  intros [H | [[H0 [H8 H93]] | [Hc Hf]]]; unfold index3tz.checkIfSupportedZipItem.
  - apply forbidden_flag_land in H. apply Z.eqb_neq in H. rewrite H. cbn [negb].
    repeat match goal with
           | |- context [if ?c then _ else _] => destruct c
           end; eauto.
  - apply Z.eqb_neq in H0, H8, H93. rewrite H0, H8, H93. cbn. eauto.
  - apply Z.eqb_neq in Hf. rewrite Hf. apply Z.eqb_eq in Hc. rewrite Hc. cbn.
    repeat match goal with
           | |- context [if ?c then _ else _] => destruct c
           end; eauto.
Qed.

Lemma collect_rejects (infolist : list index3tz.ZipInfo) :
  forall item acc,
    In item infolist -> Spec.fails_validation item ->
    exists msg, index3tz.collect infolist acc = Raise (AssertionError msg).
Proof.
  induction infolist as [| x rest IH]; intros item acc Hin Hbad; [ destruct Hin |].
  cbn [index3tz.collect].
  destruct (index3tz.checkIfSupportedZipItem x) as [[] | e] eqn:Hx; cbn [Py.bind].
  - destruct Hin as [-> | Hin].
    + destruct (check_rejects _ Hbad) as [msg Hmsg]. congruence.
    + destruct (negb (index3tz.is_dir x) && _); [ destruct (MD5.halves _) |];
        eapply IH; eauto.
  - destruct (check_only_asserts _ _ Hx) as [msg ->]. eauto.
Qed.

(** C10.  [buildIndex] validates every entry of the central directory
    before it filters directories and an existing index entry out: a ZIP
    with any entry whose flag bits 0, 3, 5 or 13 are set, whose compression
    method is not 0, 8 or 93, or whose compressed size is 0 for a non-empty
    file, makes [buildIndex] raise an [AssertionError] instead of returning
    an index blob, whether or not the entry would have been indexed. *)
Theorem buildIndex_validates_every_entry :
  forall (infolist : list index3tz.ZipInfo) (item : index3tz.ZipInfo),
    In item infolist ->
    Spec.fails_validation item ->
    exists msg, index3tz.buildIndex infolist = Raise (AssertionError msg).
Proof.
  intros infolist item Hin Hbad. unfold index3tz.buildIndex.
  destruct (collect_rejects infolist item [] Hin Hbad) as [msg ->].
  exists msg. reflexivity.
Qed.

(** An encrypted directory entry and a deflated index entry without sizes,
    next to a valid file. *)
Lemma buildIndex_validates_every_entry_witness :
  exists msg,
    index3tz.buildIndex
      [ index3tz.mkZipInfo "a.txt" 0 8 10 20 0;
        index3tz.mkZipInfo "dir/" 1 0 0 0 40 ]
    = Raise (AssertionError msg).
Proof.
  apply (buildIndex_validates_every_entry _ (index3tz.mkZipInfo "dir/" 1 0 0 0 40)).
  - right. left. reflexivity.
  - left. left. reflexivity.
Defined.

(** ** Slices and little-endian words *)

Lemma len_app {A} (a b : list A) : Py.len (a ++ b) = Py.len a + Py.len b.
Proof. unfold Py.len. rewrite length_app. lia. Qed.

Lemma len_nonneg {A} (a : list A) : 0 <= Py.len a.
Proof. unfold Py.len. lia. Qed.

Lemma skipn_exact {A} (pre rest : list A) :
  skipn (List.length pre) (pre ++ rest) = rest.
Proof. induction pre; cbn; auto. Qed.

Lemma firstn_exact {A} (mid rest : list A) :
  firstn (List.length mid) (mid ++ rest) = mid.
Proof. induction mid; cbn; f_equal; auto. Qed.

(** The slice that starts where a prefix ends and is as long as the next
    segment is that segment. *)
Lemma slice_mid {A} (pre mid post : list A) (a b : Z) :
  a = Py.len pre -> b = a + Py.len mid ->
  Py.slice (pre ++ mid ++ post) a b = mid.
Proof.
  intros -> ->. unfold Py.slice, Py.clamp, Py.len.
  rewrite !length_app.
  destruct (Z.ltb_spec (Z.of_nat (List.length pre)) 0); [ lia |].
  destruct (Z.ltb_spec (Z.of_nat (List.length pre) + Z.of_nat (List.length mid)) 0); [ lia |].
  rewrite !Z.min_l by lia.
  rewrite Nat2Z.id.
  replace (Z.to_nat _) with (List.length mid) by lia.
  rewrite skipn_exact. apply firstn_exact.
Qed.

Lemma le_combine_split_small (n : nat) (z : Z) :
  0 <= z < 2 ^ (Z.of_nat n * 8) -> le_combine (le_split n z) = z.
Proof. intros H. rewrite le_combine_split. apply Z.mod_small. exact H. Qed.

Lemma len_le_split (n : nat) (z : Z) : Py.len (le_split n z) = Z.of_nat n.
Proof. unfold Py.len. rewrite length_le_split. reflexivity. Qed.

(** ** Packing and reading the index *)

Lemma pack_Q_inv (v : Z) (b : bytes) :
  Py.pack_Q v = Ok b -> Spec.u64 v /\ b = le_split 8 v.
Proof.
  unfold Py.pack_Q, Spec.u64.
  destruct (Z.leb_spec 0 v), (Z.ltb_spec v (2 ^ 64)); cbn; intros E; inversion E; auto.
Qed.

Lemma pack_inv (es : list index3tz.entry) :
  forall acc blob,
    index3tz.pack es acc = Ok blob ->
    Forall Spec.entry_ok es /\ blob = acc ++ Spec.encode_index es.
Proof.
  induction es as [| [[lo hi] off] rest IH]; intros acc blob H; cbn in H.
  - inversion H. cbn. rewrite app_nil_r. auto.
  - destruct (Py.pack_Q lo) as [b0 |] eqn:E0; [| discriminate].
    destruct (Py.pack_Q hi) as [b1 |] eqn:E1; [| discriminate].
    destruct (Py.pack_Q off) as [b2 |] eqn:E2; [| discriminate].
    cbn in H. apply IH in H. destruct H as [Hok ->].
    apply pack_Q_inv in E0, E1, E2.
    destruct E0 as [H0 ->], E1 as [H1 ->], E2 as [H2 ->].
    split.
    + constructor; [ split; [| split]; assumption | assumption ].
    + cbn. unfold Spec.encode_entry. cbn. rewrite <- !app_assoc. reflexivity.
Qed.

Lemma encode_entry_len (e : index3tz.entry) : Py.len (Spec.encode_entry e) = 24.
Proof. unfold Spec.encode_entry. rewrite !len_app, !len_le_split. reflexivity. Qed.

Lemma encode_index_len (es : list index3tz.entry) :
  Py.len (Spec.encode_index es) = 24 * Py.len es.
Proof.
  induction es as [| e rest IH]; [ reflexivity |].
  unfold Spec.encode_index in *. cbn [flat_map]. rewrite len_app, IH, encode_entry_len.
  unfold Py.len. cbn [List.length]. lia.
Qed.

Lemma Index_len_encode (es : list index3tz.entry) :
  archive3tz.Index_len (archive3tz.mkIndex (Spec.encode_index es)) = Py.len es.
Proof.
  unfold archive3tz.Index_len. cbn [archive3tz.view]. rewrite encode_index_len.
  replace (24 * Py.len es) with (Py.len es * 3 * 8) by lia.
  rewrite Z.div_mul by lia. apply Z.div_mul. lia.
Qed.

Lemma readIndex_encode (es : list index3tz.entry) :
  archive3tz.readIndex (Spec.encode_index es)
  = Ok (archive3tz.mkIndex (Spec.encode_index es)).
Proof.
  unfold archive3tz.readIndex, archive3tz.Index_init. rewrite encode_index_len.
  replace (24 * Py.len es) with (3 * Py.len es * 8) by lia.
  rewrite Z.mod_mul by lia. reflexivity.
Qed.

Lemma split_at_nth {A} (l : list A) (i : nat) (d : A) :
  (i < List.length l)%nat ->
  l = firstn i l ++ nth i l d :: skipn (S i) l.
Proof.
  revert i. induction l as [| x r IH]; intros [| i] H; cbn in *; try lia; auto.
  f_equal. apply IH. lia.
Qed.

(** Entry [i] of the index read back from the blob of [es]. *)
Lemma Index_getitem_encode (es : list index3tz.entry) (i : Z) (d : index3tz.entry) :
  Forall Spec.entry_ok es ->
  0 <= i < Py.len es ->
  archive3tz.Index_getitem (archive3tz.mkIndex (Spec.encode_index es)) i
  = Ok (nth (Z.to_nat i) es d).
Proof.
  intros Hok Hi.
  assert (Hlt : (Z.to_nat i < List.length es)%nat) by (unfold Py.len in Hi; lia).
  pose proof (split_at_nth es (Z.to_nat i) d Hlt) as Hsplit.
  assert (Hent : Spec.entry_ok (nth (Z.to_nat i) es d)).
  { rewrite Forall_forall in Hok. apply Hok. apply nth_In. exact Hlt. }
  destruct (nth (Z.to_nat i) es d) as [[lo hi] off] eqn:Hnth.
  destruct Hent as [Hlo [Hhi Hoff]]. cbn in Hlo, Hhi, Hoff.
  set (pre := Spec.encode_index (firstn (Z.to_nat i) es)).
  set (post := Spec.encode_index (skipn (S (Z.to_nat i)) es)).
  assert (Hblob : Spec.encode_index es
                  = pre ++ le_split 8 lo ++ le_split 8 hi ++ le_split 8 off ++ post).
  { rewrite Hsplit at 1. unfold Spec.encode_index. rewrite flat_map_app. cbn [flat_map].
    unfold Spec.encode_entry. cbn [fst snd]. rewrite <- !app_assoc. reflexivity. }
  assert (Hpre : Py.len pre = 24 * i).
  { unfold pre. rewrite encode_index_len. unfold Py.len. rewrite length_firstn.
    rewrite Nat.min_l by lia. lia. }
  assert (Hn : Py.len (Spec.encode_index es) / 8 = 3 * Py.len es).
  { rewrite encode_index_len. replace (24 * Py.len es) with (3 * Py.len es * 8) by lia.
    apply Z.div_mul. lia. }
  unfold archive3tz.Index_getitem, archive3tz.Index_item. cbn [archive3tz.view].
  rewrite Hn.
  repeat match goal with
         | |- context [?a <? 0] => destruct (Z.ltb_spec a 0); [ lia |]
         end.
  repeat match goal with
         | |- context [(0 <=? ?a) && (?a <? ?b)] =>
             replace ((0 <=? a) && (a <? b)) with true
               by (symmetry; apply andb_true_iff; split;
                   [ apply Z.leb_le | apply Z.ltb_lt ]; lia)
         end.
  cbn [Py.bind].
  rewrite Hblob.
  rewrite (slice_mid pre (le_split 8 lo)) by (rewrite ?len_le_split; lia).
  rewrite (app_assoc pre (le_split 8 lo)).
  rewrite (slice_mid (pre ++ le_split 8 lo) (le_split 8 hi))
    by (rewrite ?len_app, ?len_le_split; lia).
  rewrite (app_assoc (pre ++ le_split 8 lo) (le_split 8 hi)).
  rewrite (slice_mid ((pre ++ le_split 8 lo) ++ le_split 8 hi) (le_split 8 off))
    by (rewrite ?len_app, ?len_le_split; lia).
  rewrite !le_combine_split_small by assumption.
  reflexivity.
Qed.

(** Past the last entry the view has no item to give. *)
Lemma Index_getitem_past_end (es : list index3tz.entry) (i : Z) :
  Py.len es <= i ->
  archive3tz.Index_getitem (archive3tz.mkIndex (Spec.encode_index es)) i
  = Raise IndexError.
Proof.
  intros Hi. pose proof (len_nonneg es).
  unfold archive3tz.Index_getitem, archive3tz.Index_item. cbn [archive3tz.view].
  rewrite encode_index_len. replace (24 * Py.len es) with (3 * Py.len es * 8) by lia.
  rewrite Z.div_mul by lia.
  destruct (Z.ltb_spec (3 * i) 0); [ lia |].
  destruct (Z.ltb_spec (3 * i) (3 * Py.len es)); [ lia |].
  rewrite andb_false_r. reflexivity.
Qed.

(** ** [sorted]: a sorted arrangement of the same entries *)

Lemma key_le_total (x y : index3tz.entry) :
  index3tz.key_le x y = false -> index3tz.key_le y x = true.
Proof.
  destruct x as [[xl xh] xo], y as [[yl yh] yo]. unfold index3tz.key_le.
  destruct (Z.ltb_spec xl yl), (Z.eqb_spec xl yl), (Z.leb_spec xh yh),
    (Z.ltb_spec yl xl), (Z.eqb_spec yl xl), (Z.leb_spec yh xh); cbn; intros; lia || auto.
Qed.

Lemma key_le_trans (x y z : index3tz.entry) :
  index3tz.key_le x y = true -> index3tz.key_le y z = true ->
  index3tz.key_le x z = true.
Proof.
  destruct x as [[xl xh] xo], y as [[yl yh] yo], z as [[zl zh] zo].
  unfold index3tz.key_le.
  destruct (Z.ltb_spec xl yl), (Z.eqb_spec xl yl), (Z.leb_spec xh yh),
    (Z.ltb_spec yl zl), (Z.eqb_spec yl zl), (Z.leb_spec yh zh),
    (Z.ltb_spec xl zl), (Z.eqb_spec xl zl), (Z.leb_spec xh zh);
    cbn; intros; lia || auto.
Qed.

Lemma insert_In (x y : index3tz.entry) (l : list index3tz.entry) :
  In y (index3tz.insert x l) <-> y = x \/ In y l.
Proof.
  induction l as [| z r IH]; cbn.
  - intuition.
  - destruct (index3tz.key_le x z); cbn; rewrite ?IH; intuition.
Qed.

Lemma sorted_In (y : index3tz.entry) (l : list index3tz.entry) :
  In y (index3tz.sorted l) <-> In y l.
Proof.
  induction l as [| x r IH]; cbn; [ tauto |].
  rewrite insert_In, IH. intuition.
Qed.

Lemma insert_sorted (x : index3tz.entry) (l : list index3tz.entry) :
  StronglySorted (fun a b => index3tz.key_le a b = true) l ->
  StronglySorted (fun a b => index3tz.key_le a b = true) (index3tz.insert x l).
Proof.
  induction 1 as [| z r Hr IH Hz]; cbn.
  - constructor; constructor.
  - destruct (index3tz.key_le x z) eqn:E.
    + constructor; [ constructor; assumption |].
      constructor; [ exact E |].
      rewrite Forall_forall in *. intros w Hw. eapply key_le_trans; eauto.
    + constructor; [ exact IH |].
      rewrite Forall_forall in *. intros w Hw. apply insert_In in Hw.
      destruct Hw as [-> | Hw]; [ apply key_le_total; exact E | auto ].
Qed.

Lemma sorted_sorted (l : list index3tz.entry) :
  StronglySorted (fun a b => index3tz.key_le a b = true) (index3tz.sorted l).
Proof.
  induction l as [| x r IH]; cbn; [ constructor | apply insert_sorted; exact IH ].
Qed.

Lemma StronglySorted_nth {A} (R : A -> A -> Prop) (l : list A) (d : A) :
  StronglySorted R l ->
  forall i j, (i < j)%nat -> (j < List.length l)%nat -> R (nth i l d) (nth j l d).
Proof.
  induction 1 as [| x r Hr IH Hx]; intros i j Hij Hj; cbn in Hj; [ lia |].
  destruct j as [| j]; [ lia |]. destruct i as [| i]; cbn.
  - rewrite Forall_forall in Hx. apply Hx. apply nth_In. lia.
  - apply IH; lia.
Qed.

(** ** [collect]: the entries of the files that are indexed, in order *)

Lemma collect_inv (infolist : list index3tz.ZipInfo) :
  forall acc r,
    index3tz.collect infolist acc = Ok r ->
    r = acc ++ map Spec.entry_of (filter Spec.indexed_b infolist).
Proof.
  induction infolist as [| x rest IH]; intros acc r H; cbn [index3tz.collect] in H.
  - inversion H. cbn. rewrite app_nil_r. reflexivity.
  - destruct (index3tz.checkIfSupportedZipItem x) as [[] |]; [| discriminate].
    cbn [Py.bind] in H. cbn [filter]. unfold Spec.indexed_b at 1.
    destruct (negb (index3tz.is_dir x) && _).
    + destruct (MD5.halves (index3tz.filename x)) as [lo hi] eqn:E.
      apply IH in H. rewrite H. cbn [map]. unfold Spec.entry_of at 2. rewrite E.
      rewrite <- app_assoc. reflexivity.
    + apply IH in H. exact H.
Qed.

Lemma indexed_b_true (item : index3tz.ZipInfo) :
  Spec.indexed item <-> Spec.indexed_b item = true.
Proof.
  unfold Spec.indexed, Spec.indexed_b. rewrite andb_true_iff, !negb_true_iff.
  rewrite <- String.eqb_neq. tauto.
Qed.

(** What a successful [buildIndex] returns. *)
Lemma buildIndex_inv (infolist : list index3tz.ZipInfo) (blob : bytes) :
  index3tz.buildIndex infolist = Ok blob ->
  let es := index3tz.sorted (map Spec.entry_of (filter Spec.indexed_b infolist)) in
  blob = Spec.encode_index es /\ Spec.sorted_index es.
Proof.
  unfold index3tz.buildIndex. intros H.
  destruct (index3tz.collect infolist []) as [u |] eqn:Hc; [| discriminate].
  cbn [Py.bind] in H. apply collect_inv in Hc. cbn [app] in Hc. subst u.
  apply pack_inv in H. destruct H as [Hok ->]. cbn [app].
  split; [ reflexivity |]. split; [ exact Hok | apply sorted_sorted ].
Qed.

(** ** The binary search *)

Lemma md5LessThan_spec (e0 e1 a b : Z) :
  archive3tz.md5LessThan e0 e1 a b = true <-> Spec.key_lt (e0, e1) (a, b).
Proof.
  unfold archive3tz.md5LessThan, Spec.key_lt. cbn [fst snd].
  destruct (Z.eqb_spec e0 a); rewrite Z.ltb_lt; lia.
Qed.

Lemma key_le_spec (x y : index3tz.entry) :
  index3tz.key_le x y = true <-> ~ Spec.key_lt (Spec.key y) (Spec.key x).
Proof.
  destruct x as [[xl xh] xo], y as [[yl yh] yo].
  unfold index3tz.key_le, Spec.key_lt, Spec.key. cbn [fst snd].
  rewrite orb_true_iff, andb_true_iff, Z.ltb_lt, Z.eqb_eq, Z.leb_le. lia.
Qed.

Section Search.
Variable es : list index3tz.entry.
Variable a b : Z.
Hypothesis Hes : Spec.sorted_index es.

Let index := archive3tz.mkIndex (Spec.encode_index es).
Let d : index3tz.entry := (0, 0, 0).
Let at_ (i : Z) : index3tz.entry := nth (Z.to_nat i) es d.

Lemma sorted_index_nth (i j : Z) :
  0 <= i -> i < j -> j < Py.len es ->
  ~ Spec.key_lt (Spec.key (at_ j)) (Spec.key (at_ i)).
Proof.
  intros H0 Hij Hj. apply key_le_spec. destruct Hes as [_ Hs].
  apply (StronglySorted_nth _ es d Hs); unfold Py.len in Hj; lia.
Qed.

(** The search finds a key that is present between [low] and [high]. *)
Lemma search_finds (fuel : nat) :
  forall low high,
    0 <= low -> high <= Py.len es ->
    high - low + 1 <= Z.of_nat fuel ->
    (exists p, low <= p <= high /\ p < Py.len es /\ Spec.key (at_ p) = (a, b)) ->
    exists off,
      archive3tz.search fuel index a b low high = Ok (Some off)
      /\ In (a, b, off) es.
Proof.
  induction fuel as [| k IH]; intros low high Hlow Hhigh Hfuel [p [Hp [Hpn Hkey]]].
  - lia.
  - cbn [archive3tz.search].
    destruct (Z.leb_spec low high); [| lia].
    set (mid := low + (high - low) / 2).
    assert (Hmid : low <= mid <= high /\ mid < Py.len es).
    { unfold mid. pose proof (Z.div_pos (high - low) 2 ltac:(lia) ltac:(lia)).
      assert ((high - low) / 2 <= high - low) by (apply Z.div_le_upper_bound; lia).
      assert (high - low <= 0 \/ (high - low) / 2 < high - low)
        by (destruct (Z.eq_dec high low); [ left; lia |
            right; apply Z.div_lt_upper_bound; lia ]).
      lia. }
    unfold index. rewrite (Index_getitem_encode es mid d) by (destruct Hes; auto; lia).
    fold index. cbn [Py.bind]. fold (at_ mid).
    destruct (at_ mid) as [[e0 e1] e2] eqn:Hm.
    destruct ((e0 =? a) && (e1 =? b)) eqn:Heq.
    + apply andb_true_iff in Heq. destruct Heq as [E0 E1].
      apply Z.eqb_eq in E0, E1. subst e0 e1.
      exists e2. split; [ reflexivity |].
      rewrite <- Hm. unfold at_. apply nth_In. unfold Py.len in Hmid. lia.
    + assert (Hne : Spec.key (at_ mid) <> (a, b)).
      { rewrite Hm. unfold Spec.key. cbn [fst]. intros E. inversion E. subst.
        rewrite !Z.eqb_refl in Heq. discriminate. }
      assert (Hpm : p <> mid) by (intros ->; contradiction).
      destruct (archive3tz.md5LessThan e0 e1 a b) eqn:Hlt.
      * apply md5LessThan_spec in Hlt.
        assert (mid < p).
        { destruct (Z.lt_ge_cases mid p); [ assumption |].
          exfalso. apply (sorted_index_nth p mid); try lia.
          rewrite Hkey, Hm. exact Hlt. }
        apply IH; try lia. exists p. repeat split; try lia. exact Hkey.
      * assert (p < mid).
        { destruct (Z.lt_ge_cases p mid); [ assumption |].
          exfalso. assert (Hgt : mid < p) by lia.
          pose proof (sorted_index_nth mid p ltac:(lia) Hgt Hpn) as Hs.
          rewrite Hkey, Hm in Hs. unfold Spec.key in Hs. cbn [fst] in Hs.
          assert (Hnl : ~ Spec.key_lt (e0, e1) (a, b)).
          { rewrite <- md5LessThan_spec. rewrite Hlt. discriminate. }
          unfold Spec.key_lt in Hs, Hnl. cbn [fst snd] in Hs, Hnl.
          apply Hne. rewrite Hm. unfold Spec.key. cbn [fst]. f_equal; lia. }
        apply IH; try lia. exists p. repeat split; try lia. exact Hkey.
Qed.

(** With every remaining entry below the key, the search walks up to
    [len(index)] and reads the entry after the last one. *)
Lemma search_past_end (fuel : nat) :
  forall low,
    0 <= low <= Py.len es ->
    Py.len es - low + 1 <= Z.of_nat fuel ->
    (forall i, low <= i < Py.len es -> Spec.key_lt (Spec.key (at_ i)) (a, b)) ->
    archive3tz.search fuel index a b low (Py.len es) = Raise IndexError.
Proof.
  induction fuel as [| k IH]; intros low Hlow Hfuel Hbelow.
  - lia.
  - cbn [archive3tz.search].
    destruct (Z.leb_spec low (Py.len es)); [| lia].
    set (mid := low + (Py.len es - low) / 2).
    assert (Hmid : low <= mid <= Py.len es).
    { unfold mid. pose proof (Z.div_pos (Py.len es - low) 2 ltac:(lia) ltac:(lia)).
      assert ((Py.len es - low) / 2 <= Py.len es - low)
        by (apply Z.div_le_upper_bound; lia).
      lia. }
    destruct (Z.eq_dec mid (Py.len es)) as [E | E].
    + unfold index. rewrite Index_getitem_past_end by lia. reflexivity.
    + unfold index.
      rewrite (Index_getitem_encode es mid d) by (destruct Hes; auto; lia).
      fold index. cbn [Py.bind]. fold (at_ mid).
      pose proof (Hbelow mid ltac:(lia)) as Hlt.
      destruct (at_ mid) as [[e0 e1] e2] eqn:Hm.
      unfold Spec.key in Hlt. cbn [fst] in Hlt.
      assert (Heq : (e0 =? a) && (e1 =? b) = false).
      { apply andb_false_iff. unfold Spec.key_lt in Hlt. cbn [fst snd] in Hlt.
        destruct (Z.eqb_spec e0 a); [ right; apply Z.eqb_neq; lia | left; reflexivity ]. }
      rewrite Heq. apply md5LessThan_spec in Hlt. rewrite Hlt.
      apply IH; try lia. intros i Hi. apply Hbelow. lia.
Qed.

(** The search for a key that is absent, but below some key of the index,
    ends with [None]. *)
Lemma search_misses (fuel : nat) :
  (forall e, In e es -> Spec.key e <> (a, b)) ->
  forall low high,
    0 <= low -> high <= Py.len es ->
    high - low + 1 <= Z.of_nat fuel ->
    (forall i, 0 <= i < low -> i < Py.len es -> Spec.key_lt (Spec.key (at_ i)) (a, b)) ->
    (forall i, high < i < Py.len es -> Spec.key_lt (a, b) (Spec.key (at_ i))) ->
    (high < Py.len es
     \/ exists g, low <= g < Py.len es /\ Spec.key_lt (a, b) (Spec.key (at_ g))) ->
    archive3tz.search fuel index a b low high = Ok None.
Proof.
  intros Habsent.
  induction fuel as [| k IH]; intros low high Hlow Hhigh Hfuel Hbelow Habove Hend;
    cbn [archive3tz.search]; destruct (Z.leb_spec low high); try reflexivity; [ lia |].
  set (mid := low + (high - low) / 2).
  assert (Hmid : low <= mid <= high /\ mid < Py.len es).
  { unfold mid. pose proof (Z.div_pos (high - low) 2 ltac:(lia) ltac:(lia)).
    assert ((high - low) / 2 <= high - low) by (apply Z.div_le_upper_bound; lia).
    assert (high - low <= 0 \/ (high - low) / 2 < high - low)
      by (destruct (Z.eq_dec high low); [ left; lia |
          right; apply Z.div_lt_upper_bound; lia ]).
    destruct Hend as [Hlt | [g [Hg _]]]; lia. }
  unfold index. rewrite (Index_getitem_encode es mid d) by (destruct Hes; auto; lia).
  fold index. cbn [Py.bind]. fold (at_ mid).
  assert (Hne : Spec.key (at_ mid) <> (a, b))
    by (apply Habsent, nth_In; unfold Py.len in Hmid; lia).
  destruct (at_ mid) as [[e0 e1] e2] eqn:Hm.
  unfold Spec.key in Hne. cbn [fst] in Hne.
  assert (Heq : (e0 =? a) && (e1 =? b) = false).
  { apply andb_false_iff.
    destruct (Z.eqb_spec e0 a); [| left; reflexivity ].
    destruct (Z.eqb_spec e1 b); [ congruence | right; reflexivity ]. }
  rewrite Heq.
  destruct (archive3tz.md5LessThan e0 e1 a b) eqn:Hlt.
  - apply md5LessThan_spec in Hlt. apply IH; try lia.
    + intros i Hi Hin.
      destruct (Z.eq_dec i mid) as [-> | Hd]; [ rewrite Hm; exact Hlt |].
      pose proof (sorted_index_nth i mid ltac:(lia) ltac:(lia) ltac:(lia)) as Hs.
      rewrite Hm in Hs. destruct (at_ i) as [[i0 i1] i2].
      unfold Spec.key, Spec.key_lt in *. cbn [fst snd] in *. lia.
    + intros i Hi. apply Habove. lia.
    + destruct Hend as [Hh | [g [Hg Hgt]]]; [ left; exact Hh |].
      right. exists g. split; [| exact Hgt ].
      destruct (Z.le_gt_cases g mid) as [Hle | Hgm]; [| lia ].
      exfalso. destruct (Z.eq_dec g mid) as [-> | Hd].
      * rewrite Hm in Hgt. unfold Spec.key, Spec.key_lt in *. cbn [fst snd] in *. lia.
      * pose proof (sorted_index_nth g mid ltac:(lia) ltac:(lia) ltac:(lia)) as Hs.
        rewrite Hm in Hs. destruct (at_ g) as [[g0 g1] g2].
        unfold Spec.key, Spec.key_lt in *. cbn [fst snd] in *. lia.
  - assert (Hgt : Spec.key_lt (a, b) (e0, e1)).
    { assert (Hnl : ~ Spec.key_lt (e0, e1) (a, b))
        by (rewrite <- md5LessThan_spec, Hlt; discriminate).
      unfold Spec.key_lt in *. cbn [fst snd] in *.
      assert (e0 <> a \/ e1 <> b)
        by (destruct (Z.eq_dec e0 a); [ right; congruence | left; assumption ]).
      lia. }
    apply IH; try lia.
    + intros i Hi Hin. apply Hbelow; lia.
    + intros i Hi.
      destruct (Z.eq_dec i mid) as [-> | Hd]; [ rewrite Hm; exact Hgt |].
      destruct (Z.le_gt_cases i high) as [Hle | Hgh]; [| apply Habove; lia ].
      pose proof (sorted_index_nth mid i ltac:(lia) ltac:(lia) ltac:(lia)) as Hs.
      rewrite Hm in Hs. destruct (at_ i) as [[i0 i1] i2].
      unfold Spec.key, Spec.key_lt in *. cbn [fst snd] in *. lia.
Qed.
End Search.

(** The loop bound of the model is never what stops the search. *)
Lemma Index_getitem_raises (index : archive3tz.Index) (i : Z) (e : exn) :
  archive3tz.Index_getitem index i = Raise e -> e = IndexError.
Proof.
  unfold archive3tz.Index_getitem, archive3tz.Index_item.
  repeat match goal with
         | |- context [if ?c then _ else _] => destruct c
         end; cbn; intros H; inversion H; reflexivity.
Qed.

Lemma search_fuel_enough (index : archive3tz.Index) (a b : Z) (fuel : nat) :
  forall low high,
    high - low + 1 <= Z.of_nat fuel ->
    archive3tz.search fuel index a b low high <> Raise OutOfFuel.
Proof.
  induction fuel as [| k IH]; intros low high Hfuel; cbn [archive3tz.search];
    destruct (Z.leb_spec low high); try discriminate; try lia.
  assert (Hhalf : 0 <= (high - low) / 2 <= high - low).
  { split; [ apply Z.div_pos; lia | apply Z.div_le_upper_bound; lia ]. }
  destruct (archive3tz.Index_getitem index (low + (high - low) / 2)) as [[[e0 e1] e2] | e] eqn:E;
    cbn [Py.bind].
  - destruct ((e0 =? a) && (e1 =? b)); [ discriminate |].
    destruct (archive3tz.md5LessThan e0 e1 a b); apply IH; lia.
  - apply Index_getitem_raises in E. subst e. discriminate.
Qed.

Lemma lookup_terminates (index : archive3tz.Index) (filepath : string) :
  archive3tz.findLocalFileHeaderOffsetInIndex index filepath <> Raise OutOfFuel.
Proof.
  unfold archive3tz.findLocalFileHeaderOffsetInIndex.
  destruct (MD5.halves filepath) as [a b].
  apply search_fuel_enough.
  assert (0 <= archive3tz.Index_len index).
  { unfold archive3tz.Index_len. apply Z.div_pos; [| lia].
    apply Z.div_pos; [ apply len_nonneg | lia ]. }
  lia.
Qed.

(** ** The index round trip *)

(** C1 (amended).  For every plain ZIP that [buildIndex] accepts and every
    entry of it that is neither a directory nor [@3dtilesIndex1@], looking
    the entry's filename up in the index that [buildIndex] returns (through
    [readIndex] and [findLocalFileHeaderOffsetInIndex]) returns the entry's
    local-header offset, provided every indexed entry with the same MD5
    digest (the same name, or a colliding one) has that same offset. *)
Theorem index_round_trip :
  forall (infolist : list index3tz.ZipInfo) (blob : bytes) (item : index3tz.ZipInfo),
    index3tz.buildIndex infolist = Ok blob ->
    In item infolist ->
    Spec.indexed item ->
    (forall other,
        In other infolist -> Spec.indexed other ->
        MD5.halves (index3tz.filename other) = MD5.halves (index3tz.filename item) ->
        index3tz.header_offset other = index3tz.header_offset item) ->
    Spec.lookup blob (index3tz.filename item)
    = Ok (Some (index3tz.header_offset item)).
Proof.
  intros infolist blob item Hbuild Hin Hidx Huniq.
  apply buildIndex_inv in Hbuild. cbv zeta in Hbuild.
  set (es := index3tz.sorted (map Spec.entry_of (filter Spec.indexed_b infolist))) in *.
  destruct Hbuild as [-> Hes].
  unfold Spec.lookup. rewrite readIndex_encode. cbn [Py.bind].
  unfold archive3tz.findLocalFileHeaderOffsetInIndex.
  destruct (MD5.halves (index3tz.filename item)) as [a b] eqn:Hmd5.
  rewrite Index_len_encode.
  assert (Hmem : In (Spec.entry_of item) es).
  { unfold es. apply sorted_In. apply in_map. apply filter_In. split; [ exact Hin |].
    apply indexed_b_true. exact Hidx. }
  destruct (In_nth es (Spec.entry_of item) (0, 0, 0) Hmem) as [n [Hn Hnth]].
  destruct (search_finds es a b Hes (Z.to_nat (Py.len es + 2)) 0 (Py.len es)) as [off [Hs Hoff]].
  - lia.
  - lia.
  - pose proof (len_nonneg es). lia.
  - exists (Z.of_nat n). rewrite Nat2Z.id, Hnth. unfold Py.len, Spec.entry_of, Spec.key.
    cbn [fst]. repeat split; try lia. exact Hmd5.
  - rewrite Hs. do 2 f_equal.
    unfold es in Hoff. apply (proj1 (sorted_In _ _)) in Hoff.
    apply (proj1 (in_map_iff _ _ _)) in Hoff.
    destruct Hoff as [other [Hother Hfo]]. apply filter_In in Hfo.
    destruct Hfo as [Hino Hido]. apply indexed_b_true in Hido.
    unfold Spec.entry_of in Hother. inversion Hother as [[Hk Ho]].
    rewrite <- (Huniq other Hino Hido); [ reflexivity | congruence ].
Qed.

(** Both files of a ZIP with two files and a directory are found. *)
Lemma index_round_trip_witness :
  exists blob,
    index3tz.buildIndex Examples.small_zip = Ok blob
    /\ Spec.lookup blob "b.txt" = Ok (Some 74).
Proof.
  eexists. split; [ vm_compute; reflexivity |].
  apply (index_round_trip Examples.small_zip _ (index3tz.mkZipInfo "b.txt" 0 8 9 30 74)).
  - vm_compute. reflexivity.
  - cbn. auto.
  - split; [ reflexivity | discriminate ].
  - intros other Hother Hi Hmd5. cbn in Hother.
    destruct Hother as [E | [E | [E | []]]]; subst other.
    + exfalso. vm_compute in Hmd5. discriminate.
    + exfalso. destruct Hi as [Hd _]. vm_compute in Hd. discriminate.
    + reflexivity.
Defined.

(** C1, as stated, fails on a ZIP that lists one name twice: the index holds
    two entries with the digest of [a.txt], the search returns the offset
    of the second, and the first entry's offset 0 is not what the lookup of
    its name returns. *)
Lemma index_round_trip_counterexample :
  index3tz.buildIndex Examples.dup_zip
  = Ok (Spec.encode_index [ (11703091639316506021, 9094510531650121512, 0);
                            (11703091639316506021, 9094510531650121512, 100) ])
  /\ Spec.lookup
       (Spec.encode_index [ (11703091639316506021, 9094510531650121512, 0);
                            (11703091639316506021, 9094510531650121512, 100) ])
       (index3tz.filename Examples.dup_first)
     = Ok (Some 100)
  /\ In Examples.dup_first Examples.dup_zip
  /\ Spec.indexed Examples.dup_first
  /\ index3tz.header_offset Examples.dup_first = 0.
Proof.
  split; [ vm_compute; reflexivity |].
  split; [ vm_compute; reflexivity |].
  split; [ left; reflexivity |].
  split; [ split; [ reflexivity | discriminate ] | reflexivity ].
Qed.

(** ** Lookup of a key that is not in the index *)

(** C3, at its failing input.  In the index of an archive with the single
    file [a.txt], the lookup of [b.txt], whose digest is above the only
    key, does not return [None]: the search moves [low] up to
    [len(index)] and reads the entry after the last one, which raises
    [IndexError]. *)
Theorem lookup_absent_key_reads_past_end :
  index3tz.buildIndex Examples.one_entry_zip = Ok Examples.one_entry_index
  /\ Spec.lookup Examples.one_entry_index "b.txt" = Raise IndexError.
Proof. split; vm_compute; reflexivity. Qed.

(** The same happens in every well-formed sorted index, the empty one
    included, for every path whose digest is above all keys. *)
Lemma lookup_above_all_keys (es : list index3tz.entry) (filepath : string) :
  Spec.sorted_index es ->
  (forall e, In e es -> Spec.key_lt (Spec.key e) (MD5.halves filepath)) ->
  Spec.lookup (Spec.encode_index es) filepath = Raise IndexError.
Proof.
  intros Hes Habove. unfold Spec.lookup. rewrite readIndex_encode. cbn [Py.bind].
  unfold archive3tz.findLocalFileHeaderOffsetInIndex.
  destruct (MD5.halves filepath) as [a b].
  rewrite Index_len_encode. pose proof (len_nonneg es).
  apply search_past_end; try assumption; try lia.
  intros i Hi. apply Habove. apply nth_In. unfold Py.len in Hi. lia.
Qed.

Lemma lookup_in_empty_index (filepath : string) :
  Spec.lookup [] filepath = Raise IndexError.
Proof.
  apply (lookup_above_all_keys [] filepath).
  - split; constructor.
  - intros e [].
Qed.

(** An absent path whose digest is below some key of the index is reported
    as [None]: with [lookup_above_all_keys], the read past the end is
    confined to the digests above every key. *)
Lemma lookup_below_some_key (es : list index3tz.entry) (filepath : string) :
  Spec.sorted_index es ->
  (forall e, In e es -> Spec.key e <> MD5.halves filepath) ->
  (exists e, In e es /\ Spec.key_lt (MD5.halves filepath) (Spec.key e)) ->
  Spec.lookup (Spec.encode_index es) filepath = Ok None.
Proof.
  intros Hes Habsent [e [Hin Hgt]].
  unfold Spec.lookup. rewrite readIndex_encode. cbn [Py.bind].
  unfold archive3tz.findLocalFileHeaderOffsetInIndex.
  destruct (MD5.halves filepath) as [a b].
  rewrite Index_len_encode. pose proof (len_nonneg es).
  destruct (In_nth es e (0, 0, 0) Hin) as [n [Hn Hnth]].
  apply search_misses; try assumption; try lia.
  right. exists (Z.of_nat n). rewrite Nat2Z.id, Hnth. unfold Py.len.
  split; [ lia | exact Hgt ].
Qed.

(** ** GLB framing *)

(** C8 (amended).  For every GLB buffer with valid magic, version 2 and a
    non-empty, decodable first JSON chunk: when at most 8 bytes follow the
    JSON chunk, [getChunksFromBuffer] returns the JSON string with no BIN
    part; when more than 8 bytes follow, they are read as a chunk header,
    and a chunk type other than 0x004E4942 makes the function raise
    ['Glb binary chunk header error'], while the type 0x004E4942 makes it
    return the JSON string with the BIN bytes.  A BIN part is returned only
    in the last case. *)
Theorem glb_second_chunk :
  forall (buffer : bytes) (total jsonLen : Z) (json : string),
    Py.unpack_ints true 4 5 (Py.slice buffer 0 20)
    = Ok [0x46546C67; 2; total; jsonLen; 0x4E4F534A] ->
    jsonLen <> 0 ->
    Py.decode_utf8 (Py.slice buffer 20 (20 + jsonLen)) = Ok json ->
    (Py.len (Py.slice_from buffer (20 + jsonLen)) <= 8 ->
       glbjson.getChunksFromBuffer buffer = Ok (json, None))
    /\ (forall binLen chunkType,
          8 < Py.len (Py.slice_from buffer (20 + jsonLen)) ->
          Py.unpack_ints true 4 2 (Py.slice (Py.slice_from buffer (20 + jsonLen)) 0 8)
          = Ok [binLen; chunkType] ->
          (chunkType <> 0x004E4942 ->
             glbjson.getChunksFromBuffer buffer
             = Raise (Exception "Glb binary chunk header error"))
          /\ (chunkType = 0x004E4942 ->
                glbjson.getChunksFromBuffer buffer
                = Ok (json, Some (Py.slice (Py.slice_from buffer (20 + jsonLen))
                                    8 (8 + binLen)))))
    /\ (forall js bin,
          glbjson.getChunksFromBuffer buffer = Ok (js, Some bin) ->
          8 < Py.len (Py.slice_from buffer (20 + jsonLen))
          /\ exists binLen,
               Py.unpack_ints true 4 2 (Py.slice (Py.slice_from buffer (20 + jsonLen)) 0 8)
               = Ok [binLen; 0x004E4942]).
Proof.
  intros buffer total jsonLen json Hhdr Hlen Hjson.
  assert (Hrun : glbjson.getChunksFromBuffer buffer =
            let data := Py.slice_from buffer (20 + jsonLen) in
            if Py.len data >? 8 then
              chunkheader <- Py.unpack_ints true 4 2 (Py.slice data 0 8) ;;
              c1 <- Py.index chunkheader 1 ;;
              if negb (c1 =? 0x004E4942)
              then Raise (Exception "Glb binary chunk header error") else
              c0 <- Py.index chunkheader 0 ;;
              Ok (json, Some (Py.slice data 8 (8 + c0)))
            else Ok (json, None)).
  { unfold glbjson.getChunksFromBuffer. rewrite Hhdr. cbn [Py.bind].
    change (Py.index [0x46546C67; 2; total; jsonLen; 0x4E4F534A] 0) with (@Ok Z 0x46546C67).
    change (Py.index [0x46546C67; 2; total; jsonLen; 0x4E4F534A] 1) with (@Ok Z 2).
    change (Py.index [0x46546C67; 2; total; jsonLen; 0x4E4F534A] 4) with (@Ok Z 0x4E4F534A).
    change (Py.index [0x46546C67; 2; total; jsonLen; 0x4E4F534A] 3) with (@Ok Z jsonLen).
    cbn [Py.bind]. rewrite !Z.eqb_refl. cbn [negb].
    apply Z.eqb_neq in Hlen. rewrite Hlen. rewrite Hjson. reflexivity. }
  cbv zeta in Hrun. rewrite Hrun. clear Hrun.
  split; [| split].
  - intros Hshort. destruct (Z.gtb_spec (Py.len (Py.slice_from buffer (20 + jsonLen))) 8);
      [ lia | reflexivity ].
  - intros binLen chunkType Hlong Hch.
    destruct (Z.gtb_spec (Py.len (Py.slice_from buffer (20 + jsonLen))) 8); [| lia ].
    rewrite Hch. cbn [Py.bind].
    change (Py.index [binLen; chunkType] 1) with (@Ok Z chunkType).
    change (Py.index [binLen; chunkType] 0) with (@Ok Z binLen).
    cbn [Py.bind]. split; intros Ht.
    + apply Z.eqb_neq in Ht. rewrite Ht. reflexivity.
    + subst chunkType. reflexivity.
  - intros js bin.
    destruct (Z.gtb_spec (Py.len (Py.slice_from buffer (20 + jsonLen))) 8); [| discriminate ].
    destruct (Py.unpack_ints true 4 2 (Py.slice (Py.slice_from buffer (20 + jsonLen)) 0 8))
      as [ch |] eqn:Hch; [| discriminate ].
    cbn [Py.bind].
    destruct (Py.index ch 1) as [c1 |] eqn:H1; [| discriminate ]. cbn [Py.bind].
    destruct (Z.eqb_spec c1 0x004E4942) as [-> |]; [| discriminate ]. cbn [negb].
    destruct (Py.index ch 0) as [c0 |] eqn:H0; [| discriminate ]. cbn [Py.bind].
    intros _. split; [ lia |]. exists c0.
    unfold Py.unpack_ints in Hch.
    destruct ((0 <=? 2) && _); [| discriminate ].
    inversion Hch as [Hc]. subst ch. cbn in H1, H0 |- *.
    inversion H1 as [E1]. inversion H0 as [E0]. rewrite E1. reflexivity.
Qed.

(** A GLB with a BIN chunk after the JSON chunk [{}]. *)
Lemma glb_second_chunk_witness :
  glbjson.getChunksFromBuffer Examples.glb_bin_chunk
  = Ok ("{}"%string, Some [x01; x02; x03])
  /\ glbjson.getChunksFromBuffer Examples.glb_json_only = Ok ("{}"%string, None).
Proof.
  split.
  - refine (proj2 (proj1 (proj2
      (glb_second_chunk Examples.glb_bin_chunk 33 2 "{}" _ _ _)) 3 0x004E4942 _ _) _);
      try reflexivity; (discriminate || (vm_compute; congruence) || idtac).
  - refine (proj1 (glb_second_chunk Examples.glb_json_only 22 2 "{}" _ _ _) _);
      try reflexivity; (discriminate || (vm_compute; congruence) || idtac).
Defined.

(** C8, as stated, fails: a chunk of type 0 after the JSON chunk does not
    give the JSON string without a BIN part, it makes the call raise. *)
Lemma glb_second_chunk_counterexample :
  glbjson.getChunksFromBuffer Examples.glb_other_chunk
  = Raise (Exception "Glb binary chunk header error")
  /\ Py.unpack_ints true 4 5 (Py.slice Examples.glb_other_chunk 0 20)
     = Ok [0x46546C67; 2; 31; 2; 0x4E4F534A]
  /\ Py.unpack_ints true 4 2 (Py.slice (Py.slice_from Examples.glb_other_chunk 22) 0 8)
     = Ok [1; 0].
Proof. repeat split; vm_compute; reflexivity. Qed.

(** ** Decompression *)

Lemma bytes_eqb_eq (a b : bytes) : archive3tz.bytes_eqb a b = true <-> a = b.
Proof.
  unfold archive3tz.bytes_eqb. destruct (list_eq_dec Byte.byte_eq_dec a b); split;
    intros; congruence.
Qed.

(** C4 (amended).  Whenever [decompressFileContents(m, N, x)] succeeds:
    for Deflate and for Zstd (0x5D or the legacy 0x17) the returned bytes
    have length exactly [N]; for Store the input is returned unchanged,
    whatever [N] is.  No other method succeeds. *)
Theorem decompress_length :
  forall (codecs : archive3tz.Codecs) (compMethod : bytes) (N : Z) (x out : bytes),
    archive3tz.decompressFileContents compMethod N x = Ok out ->
    (compMethod = archive3tz.ZIP_COMPRESSION_METHOD_STORE /\ out = x)
    \/ ((compMethod = archive3tz.ZIP_COMPRESSION_METHOD_DEFLATE
         \/ compMethod = archive3tz.ZIP_COMPRESSION_METHOD_ZSTD
         \/ compMethod = archive3tz.ZIP_COMPRESSION_METHOD_ZSTD_OLD)
        /\ Py.len out = N).
Proof.
  intros codecs compMethod N x out. unfold archive3tz.decompressFileContents.
  destruct (archive3tz.bytes_eqb compMethod archive3tz.ZIP_COMPRESSION_METHOD_DEFLATE) eqn:Ed.
  - apply bytes_eqb_eq in Ed.
    destruct (archive3tz.zlib_decompress x) as [u |]; [| discriminate ]. cbn [Py.bind].
    destruct (Z.eqb_spec (Py.len u) N); cbn [negb]; [| discriminate ].
    intros H. inversion H. subst. right. auto.
  - destruct (archive3tz.bytes_eqb compMethod archive3tz.ZIP_COMPRESSION_METHOD_ZSTD) eqn:Ez;
      [| destruct (archive3tz.bytes_eqb compMethod archive3tz.ZIP_COMPRESSION_METHOD_ZSTD_OLD) eqn:Eo ];
      cbn [orb].
    1, 2: destruct archive3tz.zstd as [decompress |]; [| discriminate ];
      destruct (decompress x N) as [u |]; [| discriminate ]; cbn [Py.bind];
      destruct (Z.eqb_spec (Py.len u) N); cbn [negb]; [| discriminate ];
      intros H; inversion H; subst; right; split; [| reflexivity ].
    + apply bytes_eqb_eq in Ez. auto.
    + apply bytes_eqb_eq in Eo. auto.
    + destruct (archive3tz.bytes_eqb compMethod archive3tz.ZIP_COMPRESSION_METHOD_STORE) eqn:Es;
        cbn [negb]; [| discriminate ].
      apply bytes_eqb_eq in Es. intros H. inversion H. left. auto.
Qed.

(** A deflate stream holding [abc] in one stored block. *)
Lemma decompress_length_witness :
  (archive3tz.ZIP_COMPRESSION_METHOD_DEFLATE = archive3tz.ZIP_COMPRESSION_METHOD_STORE
   /\ [x61; x62; x63] = [x01; x03; x00; xfc; xff; x61; x62; x63])
  \/ ((archive3tz.ZIP_COMPRESSION_METHOD_DEFLATE = archive3tz.ZIP_COMPRESSION_METHOD_DEFLATE
       \/ archive3tz.ZIP_COMPRESSION_METHOD_DEFLATE = archive3tz.ZIP_COMPRESSION_METHOD_ZSTD
       \/ archive3tz.ZIP_COMPRESSION_METHOD_DEFLATE = archive3tz.ZIP_COMPRESSION_METHOD_ZSTD_OLD)
      /\ Py.len [x61; x62; x63] = 3).
Proof.
  apply (decompress_length StoredCodecs.codecs archive3tz.ZIP_COMPRESSION_METHOD_DEFLATE
           3 [x01; x03; x00; xfc; xff; x61; x62; x63] [x61; x62; x63]).
  reflexivity.
Defined.

(** C4, as stated, fails for Store: a stored payload of 3 bytes with a
    declared uncompressed size of 5 is returned as it is. *)
Lemma decompress_length_counterexample :
  @archive3tz.decompressFileContents StoredCodecs.codecs
     archive3tz.ZIP_COMPRESSION_METHOD_STORE 5 [x61; x62; x63]
  = Ok [x61; x62; x63]
  /\ Py.len [x61; x62; x63] <> 5.
Proof. split; [ reflexivity | discriminate ]. Qed.

(** ** ZIP64 extra fields *)

Lemma index_pair (x y : Z) :
  Py.index [x; y] 0 = Ok x /\ Py.index [x; y] 1 = Ok y.
Proof. split; reflexivity. Qed.

Lemma chunks_two (size : nat) (x y : bytes) :
  List.length x = size -> List.length y = size ->
  Py.chunks size 2 (x ++ y) = [x; y].
Proof.
  intros Hx Hy. cbn [Py.chunks]. rewrite <- Hx in *.
  rewrite firstn_exact, skipn_exact. rewrite <- Hy, firstn_all. reflexivity.
Qed.

Lemma unpack_HH (tag size : Z) :
  0 <= tag < 2 ^ 16 -> 0 <= size < 2 ^ 16 ->
  Py.unpack_ints false 2 2 (le_split 2 tag ++ le_split 2 size) = Ok [tag; size].
Proof.
  intros Ht Hs. unfold Py.unpack_ints.
  rewrite len_app, !len_le_split.
  change ((0 <=? 2) && (Z.of_nat 2 + Z.of_nat 2 =? 2 * Z.of_nat 2)) with true.
  change (Z.to_nat 2) with 2%nat.
  rewrite chunks_two by apply length_le_split.
  cbn [map]. rewrite !le_combine_split_small by (cbn; lia). reflexivity.
Qed.

Lemma encode_tuple_len (t : Spec.extra_tuple) :
  Py.len (Spec.encode_tuple t) = 4 + Py.len (snd t).
Proof. unfold Spec.encode_tuple. rewrite !len_app, !len_le_split. lia. Qed.

(** Over tuples none of which is the ZIP64 offset record, the loop runs to
    the end of the extra field. *)
Lemma zip64_scan_skips (f : archive3tz.file) (cde : archive3tz.CDE)
  (ts : list Spec.extra_tuple) :
  forall (pre : bytes) (fuel : nat),
    archive3tz.cde_extraField cde = pre ++ Spec.encode_extra ts ->
    archive3tz.cde_extraFieldLength cde = Py.len (archive3tz.cde_extraField cde) ->
    Forall Spec.tuple_ok ts ->
    Forall (fun t => ~ Spec.zip64_offset_tuple t) ts ->
    Py.len (Spec.encode_extra ts) <= Z.of_nat fuel ->
    archive3tz.zip64_scan fuel f cde (Py.len pre) = Ok (None, f).
Proof.
  induction ts as [| t rest IH]; intros pre fuel Hfield Hlen Hok Hno Hfuel.
  - cbn in Hfield. rewrite app_nil_r in Hfield.
    destruct fuel; cbn [archive3tz.zip64_scan]; rewrite Hlen, Hfield, Z.ltb_irrefl;
      reflexivity.
  - inversion Hok as [| ? ? [Htag Hsize] Hok']; subst.
    inversion Hno as [| ? ? Hnz Hno']; subst.
    set (tag := fst t) in *. set (payload := snd t) in *.
    pose proof (len_nonneg payload) as Hp.
    assert (Henc : Spec.encode_extra (t :: rest)
                   = (le_split 2 tag ++ le_split 2 (Py.len payload))
                       ++ payload ++ Spec.encode_extra rest).
    { unfold Spec.encode_extra. cbn [flat_map]. unfold Spec.encode_tuple.
      rewrite <- !app_assoc. reflexivity. }
    assert (Hl : Py.len (Spec.encode_extra (t :: rest))
                 = 4 + Py.len payload + Py.len (Spec.encode_extra rest)).
    { rewrite Henc, !len_app, !len_le_split. lia. }
    pose proof (len_nonneg (Spec.encode_extra rest)) as Hr.
    destruct fuel as [| k]; [ exfalso; lia |].
    cbn [archive3tz.zip64_scan].
    rewrite Hlen, Hfield, len_app, Hl.
    destruct (Z.ltb_spec (Py.len pre) (Py.len pre + (4 + Py.len payload
                + Py.len (Spec.encode_extra rest)))); [| lia ].
    rewrite Henc.
    rewrite (slice_mid pre (le_split 2 tag ++ le_split 2 (Py.len payload)))
      by (rewrite ?len_app, ?len_le_split; lia).
    rewrite unpack_HH by lia. cbn [Py.bind].
    destruct (index_pair tag (Py.len payload)) as [-> ->]. cbn [Py.bind].
    assert (Hcond : (tag =? archive3tz.ZIP64_EXTENDED_INFORMATION_EXTRA_SIGNATURE)
                    && (Py.len payload =? 8) = false).
    { apply andb_false_iff.
      destruct (Z.eqb_spec tag archive3tz.ZIP64_EXTENDED_INFORMATION_EXTRA_SIGNATURE) as [E |];
        [| left; reflexivity ].
      right. apply Z.eqb_neq. intros E8. apply Hnz. split; assumption. }
    rewrite Hcond.
    replace (Py.len pre + 4 + Py.len payload)
      with (Py.len (pre ++ Spec.encode_tuple t))
      by (rewrite len_app, encode_tuple_len; fold payload; lia).
    apply IH; try assumption; try lia.
    rewrite Hfield. unfold Spec.encode_extra. cbn [flat_map].
    rewrite <- app_assoc. reflexivity.
Qed.

(** C5 (amended).  For every central directory entry whose
    [relativeOffsetOfLocalHeader] is 0xFFFFFFFF and whose extra field is a
    sequence of [(tag, size, payload)] tuples of the declared length, none
    of them with tag 0x0001 and size 8, resolving the local file header
    returns the absent result [None] and leaves the file untouched; no
    error is raised. *)
Theorem zip64_record_missing_returns_none :
  forall (f : archive3tz.file) (cde : archive3tz.CDE) (ts : list Spec.extra_tuple),
    archive3tz.cde_relativeOffsetOfLocalHeader cde = 0xFFFFFFFF ->
    archive3tz.cde_extraField cde = Spec.encode_extra ts ->
    archive3tz.cde_extraFieldLength cde = Py.len (archive3tz.cde_extraField cde) ->
    Forall Spec.tuple_ok ts ->
    Forall (fun t => ~ Spec.zip64_offset_tuple t) ts ->
    archive3tz.getLocalFileHeaderFromCentralDirectoryEntry f cde = Ok (None, f).
Proof.
  intros f cde ts Hrel Hfield Hlen Hok Hno.
  unfold archive3tz.getLocalFileHeaderFromCentralDirectoryEntry.
  rewrite Hrel, Z.eqb_refl.
  apply (zip64_scan_skips f cde ts []); try assumption.
  rewrite Hlen, Hfield. pose proof (len_nonneg (Spec.encode_extra ts)). lia.
Qed.

Lemma zip64_record_missing_returns_none_witness :
  archive3tz.getLocalFileHeaderFromCentralDirectoryEntry
    Examples.empty_file Examples.cde_record_without_zip64
  = Ok (None, Examples.empty_file).
Proof.
  apply (zip64_record_missing_returns_none _ _ [(0x5455, [x01; x00; x00; x00; x00])]).
  - reflexivity.
  - reflexivity.
  - reflexivity.
  - repeat constructor; cbn; lia.
  - repeat constructor. intros [Htag _]. cbn in Htag. discriminate.
Defined.

(** C5, as stated, fails: the entry parsed from [cde_without_zip64] has
    offset 0xFFFFFFFF and no ZIP64 record, and resolving it returns
    [None] without raising anything. *)
Lemma zip64_record_missing_counterexample :
  archive3tz.parseCentralDirectoryEntry Examples.cde_without_zip64
  = Ok Examples.cde_record_without_zip64
  /\ archive3tz.getLocalFileHeaderFromCentralDirectoryEntry
       Examples.empty_file Examples.cde_record_without_zip64
     = Ok (None, Examples.empty_file).
Proof. split; vm_compute; reflexivity. Qed.

(** The loop bound of the model is never what stops the scan. *)
Lemma unpack_ints_unsigned_nonneg (size : nat) (count : Z) (data : bytes) (l : list Z) :
  Py.unpack_ints false size count data = Ok l -> Forall (fun z => 0 <= z) l.
Proof.
  unfold Py.unpack_ints. destruct (_ && _); [| discriminate ].
  intros H. inversion H. apply Forall_forall. intros z Hz.
  apply in_map_iff in Hz. destruct Hz as [c [<- _]]. apply le_combine_bound.
Qed.

Lemma index_In {A} (l : list A) (i : Z) (a : A) : Py.index l i = Ok a -> In a l.
Proof.
  unfold Py.index. destruct (_ && _); [| discriminate ].
  destruct (nth_error l _) eqn:E; [| discriminate ].
  intros H. inversion H. subst. eapply nth_error_In. exact E.
Qed.

Lemma unpack_ints_raises (signed : bool) (size : nat) (count : Z) (data : bytes) (e : exn) :
  Py.unpack_ints signed size count data = Raise e -> e = StructError.
Proof.
  unfold Py.unpack_ints. destruct (_ && _); intros H; inversion H; reflexivity.
Qed.

Lemma index_raises {A} (l : list A) (i : Z) (e : exn) :
  Py.index l i = Raise e -> e = IndexError.
Proof.
  unfold Py.index. destruct (_ && _); [ destruct (nth_error l _) |];
    intros H; inversion H; reflexivity.
Qed.

Lemma getLocalFileHeaderAtOffset_fuel (f : archive3tz.file) (offset : Z) :
  archive3tz.getLocalFileHeaderAtOffset f offset <> Raise OutOfFuel.
Proof.
  unfold archive3tz.getLocalFileHeaderAtOffset, archive3tz.seek.
  destruct (offset <? 0); [ discriminate |].
  destruct (2 ^ 63 <=? offset); [ discriminate |]. cbn [Py.bind].
  destruct (archive3tz.read _ _) as [b f2].
  unfold Py.decode_utf8. destruct (Py.utf8_valid _); discriminate.
Qed.

Lemma zip64_scan_fuel_enough (f : archive3tz.file) (cde : archive3tz.CDE) (fuel : nat) :
  forall currentPos,
    archive3tz.cde_extraFieldLength cde - currentPos <= Z.of_nat fuel ->
    archive3tz.zip64_scan fuel f cde currentPos <> Raise OutOfFuel.
Proof.
  induction fuel as [| k IH]; intros pos Hfuel; cbn [archive3tz.zip64_scan];
    destruct (Z.ltb_spec pos (archive3tz.cde_extraFieldLength cde));
    try discriminate; try lia.
  destruct (Py.unpack_ints false 2 2 _) as [hh | e] eqn:Hhh; cbn [Py.bind];
    [| apply unpack_ints_raises in Hhh; subst e; discriminate ].
  destruct (Py.index hh 0) as [tag | e] eqn:H0; cbn [Py.bind];
    [| apply index_raises in H0; subst e; discriminate ].
  destruct (Py.index hh 1) as [size | e] eqn:H1; cbn [Py.bind];
    [| apply index_raises in H1; subst e; discriminate ].
  destruct (_ && _).
  - destruct (Py.unpack_ints false 8 1 _) as [q | e] eqn:Hq; cbn [Py.bind];
      [| apply unpack_ints_raises in Hq; subst e; discriminate ].
    destruct (Py.index q 0) as [offset | e] eqn:Hq0; cbn [Py.bind];
      [| apply index_raises in Hq0; subst e; discriminate ].
    pose proof (getLocalFileHeaderAtOffset_fuel f offset).
    destruct (archive3tz.getLocalFileHeaderAtOffset f offset); cbn [Py.bind];
      [ discriminate | congruence ].
  - apply IH.
    assert (0 <= size).
    { apply unpack_ints_unsigned_nonneg in Hhh. rewrite Forall_forall in Hhh.
      apply Hhh. eapply index_In. exact H1. }
    lia.
Qed.

Lemma resolve_terminates (f : archive3tz.file) (cde : archive3tz.CDE) :
  archive3tz.getLocalFileHeaderFromCentralDirectoryEntry f cde <> Raise OutOfFuel.
Proof.
  unfold archive3tz.getLocalFileHeaderFromCentralDirectoryEntry.
  destruct (_ =? _).
  - apply zip64_scan_fuel_enough. lia.
  - pose proof (getLocalFileHeaderAtOffset_fuel f
                  (archive3tz.cde_relativeOffsetOfLocalHeader cde)).
    destruct (archive3tz.getLocalFileHeaderAtOffset _ _); cbn [Py.bind];
      [ discriminate | congruence ].
Qed.

(** ** [rfind] and the last central directory entry *)

Lemma starts_with_firstn (needle : bytes) :
  forall h, Py.starts_with needle h = true <-> firstn (List.length needle) h = needle.
Proof.
  induction needle as [| a n IH]; intros h; cbn.
  - split; auto.
  - destruct h as [| b h']; cbn; [ split; discriminate |].
    rewrite andb_true_iff, IH. split.
    + intros [E1 E2]. apply Byte.byte_dec_bl in E1. subst. f_equal. exact E2.
    + intros E. injection E as E1 E2. split; [ apply Byte.byte_dec_lb; auto | exact E2 ].
Qed.

Lemma rfind_from_spec (needle : bytes) :
  forall hay pos,
    0 <= pos ->
    (Py.rfind_from pos hay needle = -1
     /\ forall k, (k <= List.length hay)%nat ->
                  Py.starts_with needle (skipn k hay) = false)
    \/ (exists k, (k <= List.length hay)%nat
                  /\ Py.rfind_from pos hay needle = pos + Z.of_nat k
                  /\ Py.starts_with needle (skipn k hay) = true
                  /\ forall j, (k < j <= List.length hay)%nat ->
                               Py.starts_with needle (skipn j hay) = false).
Proof.
  induction hay as [| a t IH]; intros pos Hpos; cbn [Py.rfind_from].
  - destruct (Py.starts_with needle []) eqn:E.
    + right. exists 0%nat. cbn. repeat split; auto; try lia.
    + left. split; [ reflexivity |]. intros k Hk. cbn in Hk.
      replace k with 0%nat by lia. exact E.
  - destruct (IH (pos + 1) ltac:(lia)) as [[E Hn] | [k [Hk [E [Hs Hl]]]]].
    + rewrite E. cbn [Z.leb Z.compare].
      destruct (Py.starts_with needle (a :: t)) eqn:Eh.
      * right. exists 0%nat. cbn [skipn List.length]. repeat split; auto; try lia.
        intros j Hj. destruct j as [| j]; [ lia |]. cbn [skipn]. apply Hn. lia.
      * left. split; [ reflexivity |]. intros k Hk. destruct k as [| k]; [ exact Eh |].
        cbn [skipn]. apply Hn. cbn in Hk. lia.
    + rewrite E. destruct (Z.leb_spec 0 (pos + 1 + Z.of_nat k)); [| lia ].
      right. exists (S k). cbn [skipn List.length]. repeat split; auto; try lia.
      intros j Hj. destruct j as [| j]; [ lia |]. cbn [skipn]. apply Hl. lia.
Qed.

Lemma slice_in_range {A} (l : list A) (a b : Z) :
  0 <= a -> a <= b -> b <= Py.len l ->
  Py.slice l a b = firstn (Z.to_nat (b - a)) (skipn (Z.to_nat a) l).
Proof.
  intros Ha Hab Hb. unfold Py.slice, Py.clamp. fold (Py.len l).
  destruct (Z.ltb_spec a 0), (Z.ltb_spec b 0); try lia.
  rewrite !Z.min_l by lia. reflexivity.
Qed.

Lemma occurs_at_iff (hay needle : bytes) (i : Z) :
  Spec.occurs_at hay needle i
  <-> 0 <= i <= Py.len hay
      /\ Py.starts_with needle (skipn (Z.to_nat i) hay) = true.
Proof.
  unfold Spec.occurs_at. pose proof (len_nonneg needle) as Hn. split.
  - intros [H0 [Hle Hs]]. rewrite slice_in_range in Hs by lia.
    split; [ lia |]. apply starts_with_firstn.
    replace (Z.to_nat (i + Py.len needle - i)) with (List.length needle) in Hs
      by (unfold Py.len; lia).
    exact Hs.
  - intros [Hi Hs]. apply starts_with_firstn in Hs.
    assert (Hlen : i + Py.len needle <= Py.len hay).
    { pose proof (f_equal (@List.length byte) Hs) as Hl.
      rewrite length_firstn, length_skipn in Hl. unfold Py.len in *. lia. }
    repeat split; try lia. rewrite slice_in_range by lia.
    replace (Z.to_nat (i + Py.len needle - i)) with (List.length needle)
      by (unfold Py.len; lia).
    exact Hs.
Qed.

(** [rfind] returns the last occurrence when there is one. *)
Lemma rfind_last (hay needle : bytes) (i : Z) :
  Spec.last_occurrence hay needle i -> Py.rfind hay needle = i.
Proof.
  intros [Hocc Hlast]. apply occurs_at_iff in Hocc. destruct Hocc as [Hi Hs].
  unfold Py.rfind.
  destruct (rfind_from_spec needle hay 0 ltac:(lia)) as [[_ Hn] | [k [Hk [E [Hsk Hl]]]]].
  - rewrite Hn in Hs by (unfold Py.len in Hi; lia). discriminate.
  - rewrite E. cbn [Z.add].
    destruct (Z.lt_trichotomy (Z.of_nat k) i) as [Hlt | [Heq | Hgt]]; [| exact Heq |].
    + rewrite Hl in Hs by (unfold Py.len in Hi; lia). discriminate.
    + exfalso. apply (Hlast (Z.of_nat k) Hgt). apply occurs_at_iff.
      rewrite Nat2Z.id. unfold Py.len. split; [ lia | exact Hsk ].
Qed.

(** The occurrence [rfind] reports is the last one. *)
Lemma rfind_is_last (hay needle : bytes) :
  0 <= Py.rfind hay needle ->
  Spec.last_occurrence hay needle (Py.rfind hay needle).
Proof.
  unfold Py.rfind.
  destruct (rfind_from_spec needle hay 0 ltac:(lia)) as [[E _] | [k [Hk [E [Hsk Hl]]]]];
    rewrite E; [ lia |].
  intros _. cbn [Z.add]. split.
  - apply occurs_at_iff. rewrite Nat2Z.id. unfold Py.len. split; [ lia | exact Hsk ].
  - intros j Hj Hocc. apply occurs_at_iff in Hocc. destruct Hocc as [Hr Hs].
    rewrite Hl in Hs by (unfold Py.len in Hr; lia). discriminate.
Qed.

Lemma read_tail (f : archive3tz.file) :
  320 <= Py.len (archive3tz.contents f) ->
  archive3tz.read_all
    (archive3tz.mkfile (archive3tz.contents f) (Py.len (archive3tz.contents f) - 320))
  = (Spec.tail 320 (archive3tz.contents f), Spec.at_end f).
Proof.
  intros Hlen. unfold archive3tz.read_all, Spec.tail, Spec.at_end, Py.slice_from, Py.clamp.
  cbn [archive3tz.contents archive3tz.position]. fold (Py.len (archive3tz.contents f)).
  destruct (Z.ltb_spec (Py.len (archive3tz.contents f) - 320) 0); [ lia |].
  rewrite Z.min_l by lia. f_equal. f_equal.
  unfold Py.len. rewrite length_skipn. unfold Py.len in Hlen. lia.
Qed.

(** C9 (amended).  For every archive file of at least 320 bytes (and of a
    size that fits a file offset), [getLastEntryInCentralDirectory] reads
    the trailing 320 bytes and nothing else.  When both signatures occur in
    that window and the last occurrence of 0x02014b50 precedes the last
    occurrence of 0x06054b50, it returns the central directory entry parsed
    from the bytes between the two; when the last 0x02014b50 lies after the
    last 0x06054b50, it returns no entry: it does not fall back to an
    earlier central directory signature. *)
Theorem last_entry_from_tail :
  forall (f : archive3tz.file) (s e : Z),
    320 <= Py.len (archive3tz.contents f) ->
    Py.len (archive3tz.contents f) - 320 < 2 ^ 63 ->
    Spec.last_occurrence (Spec.tail 320 (archive3tz.contents f))
      archive3tz.STARTOFCENTRALDIRECTORY s ->
    Spec.last_occurrence (Spec.tail 320 (archive3tz.contents f))
      archive3tz.ENDOFCENTRALDIRECTORY e ->
    archive3tz.getLastEntryInCentralDirectory f
    = if s <? e
      then cde <- archive3tz.parseCentralDirectoryEntry
                    (Py.slice (Spec.tail 320 (archive3tz.contents f)) s e) ;;
           Ok (Some cde, Spec.at_end f)
      else Ok (None, Spec.at_end f).
Proof.
  intros f s e Hlen Hfit Hs He.
  unfold archive3tz.getLastEntryInCentralDirectory, archive3tz.seek.
  destruct (Z.ltb_spec (Py.len (archive3tz.contents f) - 320) 0); [ lia |].
  destruct (Z.leb_spec (2 ^ 63) (Py.len (archive3tz.contents f) - 320)); [ lia |].
  cbn [Py.bind]. rewrite read_tail by exact Hlen.
  rewrite (rfind_last _ _ s Hs), (rfind_last _ _ e He).
  destruct (Z.ltb_spec s e) as [Hlt | Hge]; cbn [andb].
  - destruct (Z.eqb_spec s e); [ lia |]. cbn [negb]. reflexivity.
  - reflexivity.
Qed.

(** An archive whose last entry is the index, without a comment. *)
Lemma last_entry_from_tail_witness :
  archive3tz.getLastEntryInCentralDirectory Examples.archive_without_comment
  = (if 237 <? 298
     then cde <- archive3tz.parseCentralDirectoryEntry
                   (Py.slice (Spec.tail 320
                      (archive3tz.contents Examples.archive_without_comment)) 237 298) ;;
          Ok (Some cde, Spec.at_end Examples.archive_without_comment)
     else Ok (None, Spec.at_end Examples.archive_without_comment)).
Proof.
  apply (last_entry_from_tail Examples.archive_without_comment 237 298).
  - vm_compute. discriminate.
  - vm_compute. reflexivity.
  - assert (E : Py.rfind (Spec.tail 320 (archive3tz.contents Examples.archive_without_comment))
                  archive3tz.STARTOFCENTRALDIRECTORY = 237) by (vm_compute; reflexivity).
    rewrite <- E. apply rfind_is_last. rewrite E. lia.
  - assert (E : Py.rfind (Spec.tail 320 (archive3tz.contents Examples.archive_without_comment))
                  archive3tz.ENDOFCENTRALDIRECTORY = 298) by (vm_compute; reflexivity).
    rewrite <- E. apply rfind_is_last. rewrite E. lia.
Defined.

(** C9, as stated, fails: in [archive_with_comment] the last end-of-central-
    directory signature of the window is at 294 and the last central
    directory signature before it, at 233, starts the entry of
    [@3dtilesIndex1@]; but the comment repeats the central directory
    signature at 316, after the end signature, and no entry is returned. *)
Lemma last_entry_counterexample :
  archive3tz.getLastEntryInCentralDirectory Examples.archive_with_comment
  = Ok (None, Spec.at_end Examples.archive_with_comment)
  /\ Py.len (archive3tz.contents Examples.archive_with_comment) = 387
  /\ Py.rfind (Spec.tail 320 (archive3tz.contents Examples.archive_with_comment))
       archive3tz.ENDOFCENTRALDIRECTORY = 294
  /\ Py.rfind (Py.slice (Spec.tail 320 (archive3tz.contents Examples.archive_with_comment))
                 0 294)
       archive3tz.STARTOFCENTRALDIRECTORY = 233
  /\ (cde <- archive3tz.parseCentralDirectoryEntry
               (Py.slice (Spec.tail 320 (archive3tz.contents Examples.archive_with_comment))
                  233 294) ;;
      Ok (archive3tz.cde_filename cde))
     = Ok "@3dtilesIndex1@"%string.
Proof. repeat split; vm_compute; reflexivity. Qed.

(** A file shorter than 320 bytes is never scanned: the seek to a negative
    position raises [OSError], which the [FileNotFoundError] handler does
    not catch. *)
Lemma last_entry_short_file (f : archive3tz.file) :
  Py.len (archive3tz.contents f) < 320 ->
  archive3tz.getLastEntryInCentralDirectory f = Raise OSError.
Proof.
  intros Hlen. unfold archive3tz.getLastEntryInCentralDirectory, archive3tz.seek.
  destruct (Z.ltb_spec (Py.len (archive3tz.contents f) - 320) 0); [ reflexivity | lia ].
Qed.

Example last_entry_short_archive :
  Py.len (archive3tz.contents Examples.short_archive) = 283
  /\ archive3tz.getLastEntryInCentralDirectory Examples.short_archive = Raise OSError.
Proof. split; vm_compute; reflexivity. Qed.

(** ** The property decoder *)

Lemma assoc_in_keys {A} (key : string) (o : list (string * A)) (a : A) :
  gltf.assoc key o = Some a -> existsb (String.eqb key) (map fst o) = true.
Proof.
  unfold gltf.assoc. induction o as [| [k v] r IH]; cbn; [ discriminate |].
  rewrite (String.eqb_sym key k). destruct (String.eqb k key); cbn; auto.
Qed.

(** After a prologue that finds everything, the result is that of the
    branch selection. *)
Lemma prologue_resolved (d : gltf.GltfDocument) (ftName propName : string)
  T tp cp enums compatMap propType bufferView bv buffer :
  Spec.resolved d ftName propName T tp cp enums compatMap propType bufferView bv buffer ->
  gltf.getFeatureTablePropertyValues d ftName propName
  = gltf.decodeProperty d T tp cp enums compatMap propType bufferView bv buffer
      (match gltf.bv_byteOffset bv with Some o => o | None => 0 end)
      (gltf.bv_byteLength bv).
Proof.
  intros [HT [Htp [Hcm [[classes [cls [Hcl [Hcls Hcp]]]] [Hen [Hty [Hview [Hbv Hbuf]]]]]]]].
  unfold gltf.getFeatureTablePropertyValues.
  rewrite HT. cbn [Py.bind]. rewrite (assoc_in_keys _ _ _ Htp). cbn [negb].
  rewrite Hcl, Hen, Hcm. cbn [Py.bind]. rewrite Htp. cbn [Py.bind Py.getitem].
  rewrite Hview, Hcls. cbn [Py.bind Py.getitem]. rewrite Hcp. cbn [Py.bind Py.getitem].
  rewrite Hty. cbn [Py.bind Py.getitem]. rewrite Hbv. cbn [Py.bind].
  rewrite Hbuf. reflexivity.
Qed.

Lemma mapM_ok {A B} (f : A -> result B) (g : A -> B) (l : list A) :
  (forall a, In a l -> f a = Ok (g a)) -> Py.mapM f l = Ok (map g l).
Proof.
  induction l as [| a r IH]; intros H; cbn; [ reflexivity |].
  rewrite (H a) by (left; reflexivity). rewrite IH by (intros; apply H; right; assumption).
  reflexivity.
Qed.

Lemma in_range (n i : Z) : In i (Py.range n) <-> 0 <= i < n.
Proof.
  unfold Py.range. rewrite in_map_iff. split.
  - intros [k [<- Hk]]. apply in_seq in Hk. lia.
  - intros Hi. exists (Z.to_nat i). split; [ lia | apply in_seq; lia ].
Qed.


Lemma index_nth {A} (l : list A) (i : Z) (d : A) :
  0 <= i < Py.len l -> Py.index l i = Ok (nth (Z.to_nat i) l d).
Proof.
  intros Hi. unfold Py.index. fold (Py.len l).
  destruct (Z.ltb_spec i 0); [ lia |].
  destruct (Z.leb_spec 0 i); [| lia ]. destruct (Z.ltb_spec i (Py.len l)); [| lia ].
  cbn [andb]. rewrite (nth_error_nth' l d) by (unfold Py.len in Hi; lia). reflexivity.
Qed.

Lemma chunks_bytes (data : bytes) :
  map le_combine (Py.chunks 1 (List.length data) data) = map Byte.byte.unsigned data.
Proof.
  induction data as [| b r IH]; [ reflexivity |].
  cbn [List.length Py.chunks firstn skipn map]. rewrite IH. f_equal. apply le_combine_1.
Qed.

(** [struct.unpack('<nB', data)] gives the bytes as integers. *)
Lemma unpack_bytes (data : bytes) :
  Py.unpack_ints false 1 (Py.len data) data = Ok (map Byte.byte.unsigned data).
Proof.
  unfold Py.unpack_ints. pose proof (len_nonneg data).
  destruct (Z.leb_spec 0 (Py.len data)); [| lia ].
  rewrite Z.mul_1_r, Z.eqb_refl. cbn [andb].
  unfold Py.len. rewrite Nat2Z.id. rewrite chunks_bytes. reflexivity.
Qed.

Lemma ceil_div8_spec (n : Z) : 0 <= n -> 8 * gltf.ceil_div8 n - 8 < n <= 8 * gltf.ceil_div8 n.
Proof.
  intros Hn. unfold gltf.ceil_div8.
  pose proof (Z.div_mod (- n) 8 ltac:(lia)). pose proof (Z.mod_pos_bound (- n) 8 ltac:(lia)).
  lia.
Qed.

Lemma slice_len {A} (l : list A) (a b : Z) :
  0 <= a -> a <= b -> b <= Py.len l -> Py.len (Py.slice l a b) = b - a.
Proof.
  intros Ha Hab Hb. rewrite slice_in_range by assumption.
  unfold Py.len in *. rewrite length_firstn, length_skipn. lia.
Qed.

Lemma slice_nth {A} (l : list A) (a b : Z) (k : nat) (d : A) :
  0 <= a -> a <= b -> b <= Py.len l -> Z.of_nat k < b - a ->
  nth k (Py.slice l a b) d = nth (Z.to_nat (a + Z.of_nat k)) l d.
Proof.
  intros Ha Hab Hb Hk. rewrite slice_in_range by assumption.
  rewrite nth_firstn. destruct (Nat.ltb_spec k (Z.to_nat (b - a))); [| lia ].
  rewrite nth_skipn. f_equal. lia.
Qed.

(** Where the values buffer view carries a byte offset [o] and selects at
    least [ceil(n / 8)] bytes of its buffer, a BOOLEAN property that is
    not an array, in a table with [n] rows, is decoded as the packed bits:
    the decoder returns [n] booleans, read from the [ceil(n / 8)] bytes at
    [o], where value [i] is bit [i mod 8], counted from the least
    significant, of byte [i / 8]: [(byte[i/8] >> (i%8)) & 1]. *)
Theorem boolean_scalar_bits :
  forall (d : gltf.GltfDocument) (ftName propName : string)
         T tp cp enums compatMap bufferView bv (bs : bytes) (o n : Z),
    Spec.resolved d ftName propName T tp cp enums compatMap "BOOLEAN" bufferView bv (Some bs) ->
    gltf.cp_array cp <> Some true ->
    gltf.ft_count T = n -> 0 <= n ->
    gltf.bv_byteOffset bv = Some o -> 0 <= o ->
    gltf.ceil_div8 n <= gltf.bv_byteLength bv ->
    o + gltf.ceil_div8 n <= Py.len bs ->
    gltf.getFeatureTablePropertyValues d ftName propName
    = Ok (Some (map (fun i => gltf.VBool
                      (Z.land (Z.shiftr (Spec.byte_at bs (o + i / 8)) (i mod 8)) 1 =? 1))
                    (Py.range n))).
Proof.
  intros d ftName propName T tp cp enums compatMap bufferView bv bs o n
         Hres Harr Hcount Hn Hoff Ho Hview Hbuf.
  rewrite (prologue_resolved _ _ _ _ _ _ _ _ _ _ _ _ Hres).
  destruct Hres as [_ [_ [Hcm _]]].
  unfold gltf.decodeProperty.
  assert (Hnot : match gltf.mode d with
                 | gltf.UNKNOWN => false
                 | gltf.EXT_FEATURE_METADATA => String.eqb "BOOLEAN" "ARRAY"
                 | gltf.EXT_STRUCTURAL_METADATA =>
                     match gltf.cp_array cp with Some b => b | None => false end
                 end = false).
  { destruct (gltf.mode d); try reflexivity.
    destruct (gltf.cp_array cp) as [[|] |]; congruence. }
  rewrite Hnot. cbn [String.eqb Ascii.eqb Bool.eqb andb].
  unfold gltf.decodeBoolean. rewrite Hoff, Hcount. cbn [Py.getitem Py.bind gltf.buffer_slice].
  pose proof (ceil_div8_spec n Hn) as Hc.
  rewrite Z.min_l by lia.
  set (data := Py.slice bs o (o + gltf.ceil_div8 n)).
  assert (Hlen : Py.len data = gltf.ceil_div8 n).
  { unfold data. rewrite slice_len by lia. lia. }
  rewrite <- Hlen at 1. rewrite unpack_bytes. cbn [Py.bind].
  rewrite (mapM_ok _ (fun i => gltf.VBool
             (Z.land (Z.shiftr (Spec.byte_at bs (o + i / 8)) (i mod 8)) 1 =? 1))).
  - reflexivity.
  - intros i Hi. apply in_range in Hi. unfold gltf.unpackBits.
    assert (Hq : 0 <= i / 8 < gltf.ceil_div8 n).
    { pose proof (Z.div_mod i 8 ltac:(lia)). pose proof (Z.mod_pos_bound i 8 ltac:(lia)). lia. }
    rewrite (index_nth _ _ 0) by (unfold Py.len; rewrite length_map; fold (Py.len data); lia).
    cbn [Py.bind]. do 3 f_equal.
    change 0 with (Byte.byte.unsigned x00) at 1. rewrite map_nth.
    unfold Spec.byte_at, data. f_equal.
    rewrite slice_nth by lia. rewrite Z2Nat.id by lia. reflexivity.
Qed.

(** The packed booleans of the specification: 10 rows in 0xA5, 0x02. *)
Lemma boolean_scalar_bits_witness :
  gltf.getFeatureTablePropertyValues Examples.bool_doc "t" "p"
  = Ok (Some (map gltf.VBool
                [true; false; true; false; false; true; false; true; false; true])).
Proof.
  rewrite (boolean_scalar_bits Examples.bool_doc "t" "p"
             (gltf.mkFeatureTable "t" "c" 10 [("p"%string, Examples.values_at 0)])
             (Examples.values_at 0)
             (Examples.class_property "BOOLEAN" None None None) []
             (gltf.mkCompatMap "values" "stringOffsets" "arrayOffsets" "count")
             0 Examples.bool_view [xa5; x02] 0 10).
  - reflexivity.
  - repeat split; try reflexivity. do 2 eexists. repeat split; reflexivity.
  - discriminate.
  - reflexivity.
  - lia.
  - reflexivity.
  - lia.
  - vm_compute. discriminate.
  - vm_compute. discriminate.
Defined.

(** The BOOLEAN branch reads [bufferView["byteOffset"]] itself: a buffer
    view without that key, whose offset is 0 for every branch that uses
    the [bufferByteOffset] of the prologue, makes it raise [KeyError]. *)
Lemma boolean_scalar_needs_byte_offset :
  forall (d : gltf.GltfDocument) (ftName propName : string)
         T tp cp enums compatMap bufferView bv buffer,
    Spec.resolved d ftName propName T tp cp enums compatMap "BOOLEAN" bufferView bv buffer ->
    gltf.cp_array cp <> Some true ->
    gltf.bv_byteOffset bv = None ->
    gltf.getFeatureTablePropertyValues d ftName propName = Raise (KeyError "byteOffset").
Proof.
  intros d ftName propName T tp cp enums compatMap bufferView bv buffer Hres Harr Hoff.
  rewrite (prologue_resolved _ _ _ _ _ _ _ _ _ _ _ _ Hres).
  unfold gltf.decodeProperty.
  assert (Hnot : match gltf.mode d with
                 | gltf.UNKNOWN => false
                 | gltf.EXT_FEATURE_METADATA => String.eqb "BOOLEAN" "ARRAY"
                 | gltf.EXT_STRUCTURAL_METADATA =>
                     match gltf.cp_array cp with Some b => b | None => false end
                 end = false).
  { destruct (gltf.mode d); try reflexivity.
    destruct (gltf.cp_array cp) as [[|] |]; congruence. }
  rewrite Hnot. cbn [String.eqb Ascii.eqb Bool.eqb andb].
  unfold gltf.decodeBoolean. rewrite Hoff. reflexivity.
Qed.

(** C6, at its failing input.  A BOOLEAN property of a table with 10 rows
    whose values buffer view selects the bytes 0xA5, 0x02 at the start of
    its buffer without a [byteOffset] is not decoded as packed bits: the
    decoder raises [KeyError].  The same buffer view is read from offset 0
    by the other branches: as 10 arrays of one boolean it gives the bits,
    and as two UINT8 values the bytes. *)
Theorem boolean_scalar_without_byte_offset :
  gltf.getFeatureTablePropertyValues Examples.bool_no_offset_doc "t" "p"
  = Raise (KeyError "byteOffset")
  /\ gltf.getFeatureTablePropertyValues Examples.bool_array_no_offset_doc "t" "p"
     = Ok (Some (map (fun b => gltf.VSeq [gltf.VBool b])
                   [true; false; true; false; false; true; false; true; false; true]))
  /\ gltf.getFeatureTablePropertyValues Examples.bytes_no_offset_doc "t" "p"
     = Ok (Some [gltf.VInt 165; gltf.VInt 2]).
Proof. repeat split; vm_compute; reflexivity. Qed.

(** ** Offset and scale on properties that are not arrays *)

(** None of the branches for properties that are not arrays reads
    [offset], [scale] or [normalized]: the decoded values are the same
    whatever the class property says about them. *)
Lemma non_array_ignores_transform (d : gltf.GltfDocument)
  T tp cp enums compatMap propType bufferView bv buffer byteOffset byteLength
  (offset scale : option gltf.number) (normalized : option bool) :
  Spec.is_array_prop (gltf.mode d) cp propType = false ->
  gltf.decodeProperty d T tp (Spec.with_transform cp offset scale normalized)
    enums compatMap propType bufferView bv buffer byteOffset byteLength
  = gltf.decodeProperty d T tp cp enums compatMap propType bufferView bv buffer
      byteOffset byteLength.
Proof.
  unfold Spec.is_array_prop, gltf.decodeProperty. cbn [Spec.with_transform gltf.cp_array].
  intros H. destruct (gltf.mode d); rewrite ?H; reflexivity.
Qed.

(** C2, at its failing input.  The FLOAT32 SCALAR property with
    [elementCount = 4], values 1.0, 2.0, 3.0, 4.0, [offset = 10] and
    [scale = 2] decodes to the raw values 1.0, 2.0, 3.0, 4.0;
    [applyOffsetScale] on them gives 12.0, 14.0, 16.0, 18.0, and this is
    what the decoder returns when the same bytes are declared as a
    fixed-size array of one component. *)
Theorem scalar_offset_scale_not_applied :
  gltf.getFeatureTablePropertyValues Examples.height_doc "t" "p"
  = Ok (Some (map (fun z => gltf.VFloat (gltf.float_of_Z z)) [1; 2; 3; 4]))
  /\ Py.mapM (fun v => gltf.applyOffsetScale (Some "FLOAT32"%string) v
                         (gltf.NInt 10) (gltf.NInt 2) false)
       (map (fun z => gltf.VFloat (gltf.float_of_Z z)) [1; 2; 3; 4])
     = Ok (map (fun z => gltf.VFloat (gltf.float_of_Z z)) [12; 14; 16; 18])
  /\ gltf.getFeatureTablePropertyValues Examples.height_array_doc "t" "p"
     = Ok (Some (map (fun z => gltf.VSeq [gltf.VFloat (gltf.float_of_Z z)])
                   [12; 14; 16; 18])).
Proof. repeat split; vm_compute; reflexivity. Qed.

(** ** Tables without rows *)

Lemma chunks_length (size n : nat) (data : bytes) :
  List.length (Py.chunks size n data) = n.
Proof. revert data. induction n; intros data; cbn; auto. Qed.

Lemma unpack_ints_len (signed : bool) (size : nat) (count : Z) (data : bytes) (l : list Z) :
  Py.unpack_ints signed size count data = Ok l -> Py.len l = count.
Proof.
  unfold Py.unpack_ints. destruct (Z.leb_spec 0 count); cbn [andb]; [| discriminate ].
  destruct (_ =? _); [| discriminate ]. intros E. inversion E.
  unfold Py.len. rewrite length_map, chunks_length. lia.
Qed.

Lemma unpack_floats_len (mw ew : Z) (size : nat) (count : Z) (data : bytes) l :
  gltf.unpack_floats mw ew size count data = Ok l -> Py.len l = count.
Proof.
  unfold gltf.unpack_floats. destruct (Z.leb_spec 0 count); cbn [andb]; [| discriminate ].
  destruct (_ =? _); [| discriminate ]. intros E. inversion E.
  unfold Py.len. rewrite length_map, chunks_length. lia.
Qed.

Lemma readScalarValues_len (propType : option string) (count : Z) (data : bytes) l :
  gltf.readScalarValues propType count data = Ok l -> Py.len l = count.
Proof.
  unfold gltf.readScalarValues.
  repeat match goal with
         | |- context [if gltf.type_is propType ?s then _ else _] =>
             destruct (gltf.type_is propType s)
         end; try discriminate;
    match goal with
    | |- context [Py.unpack_ints ?s ?z count data] =>
        destruct (Py.unpack_ints s z count data) as [vs |] eqn:E; [| discriminate ];
        apply unpack_ints_len in E
    | |- context [gltf.unpack_floats ?m ?e ?z count data] =>
        destruct (gltf.unpack_floats m e z count data) as [vs |] eqn:E; [| discriminate ];
        apply unpack_floats_len in E
    end;
    cbn [Py.bind]; intros H; inversion H; unfold Py.len in *; rewrite length_map; exact E.
Qed.


Lemma mapM_len {A B} (f : A -> result B) (l : list A) (r : list B) :
  Py.mapM f l = Ok r -> List.length r = List.length l.
Proof.
  revert r. induction l as [| a t IH]; intros r; cbn.
  - intros H. inversion H. reflexivity.
  - destruct (f a); [| discriminate ]. destruct (Py.mapM f t); [| discriminate ].
    intros H. inversion H. cbn. f_equal. apply IH. reflexivity.
Qed.






Section EmptyTable.
Variable d : gltf.GltfDocument.
Variable T : gltf.FeatureTable.
Hypothesis Hcount : gltf.ft_count T = 0.








End EmptyTable.




(** *** Branches that succeed on a table without rows *)





Lemma unpack_ints_ok (signed : bool) (size : nat) (count : Z) (data : bytes) :
  0 <= count -> Py.len data = count * Z.of_nat size ->
  exists l, Py.unpack_ints signed size count data = Ok l /\ Py.len l = count.
Proof.
  intros Hc Hl. unfold Py.unpack_ints.
  destruct (Z.leb_spec 0 count); [| lia ]. rewrite Hl, Z.eqb_refl. cbn [andb].
  eexists. split; [ reflexivity |]. unfold Py.len.
  rewrite length_map, chunks_length. lia.
Qed.


Section NoRows.
Variable d : gltf.GltfDocument.
Variable T : gltf.FeatureTable.
Hypothesis Hcount : gltf.ft_count T = 0.






End NoRows.

Section NoRowsExact.
Variable T : gltf.FeatureTable.
Hypothesis Hcount : gltf.ft_count T = 0.





End NoRowsExact.




(* ===================================================================== *)
(** * Further properties of the readers                                   *)
(* ===================================================================== *)

(** ** Slices of slices and reads *)

Lemma clamp_in_range (n i : Z) : 0 <= i <= n -> Py.clamp n i = i.
Proof. intros H. unfold Py.clamp. destruct (Z.ltb_spec i 0); lia. Qed.

Lemma clamp_above (n i : Z) : 0 <= n <= i -> Py.clamp n i = n.
Proof. intros H. unfold Py.clamp. destruct (Z.ltb_spec i 0); lia. Qed.

Lemma clamp_bounds (n i : Z) : 0 <= n -> 0 <= Py.clamp n i <= n.
Proof. intros H. unfold Py.clamp. destruct (Z.ltb_spec i 0); lia. Qed.

(** A slice is never longer than its bounds are apart. *)
Lemma slice_len_le {A} (l : list A) (a b : Z) :
  0 <= a -> 0 <= b -> Py.len (Py.slice l a b) <= Z.max 0 (b - a).
Proof.
  intros Ha Hb. unfold Py.slice, Py.len. rewrite length_firstn, length_skipn.
  unfold Py.clamp. destruct (Z.ltb_spec a 0); [ lia |].
  destruct (Z.ltb_spec b 0); lia.
Qed.

Lemma slice_len_le_list {A} (l : list A) (a b : Z) :
  Py.len (Py.slice l a b) <= Py.len l.
Proof.
  unfold Py.slice, Py.len. rewrite length_firstn, length_skipn. lia.
Qed.

Lemma slice_slice {A} (l : list A) (a n x y : Z) :
  0 <= a -> 0 <= x -> x <= y -> y <= n -> a + n <= Py.len l ->
  Py.slice (Py.slice l a (a + n)) x y = Py.slice l (a + x) (a + y).
Proof.
  intros Ha Hx Hxy Hyn Hlen.
  assert (Hin : Py.len (Py.slice l a (a + n)) = n)
    by (rewrite slice_len; lia).
  rewrite (slice_in_range (Py.slice l a (a + n)) x y) by lia.
  rewrite (slice_in_range l a (a + n)) by lia.
  rewrite (slice_in_range l (a + x) (a + y)) by lia.
  rewrite skipn_firstn_comm, firstn_firstn, skipn_skipn.
  f_equal; [ lia | f_equal; lia ].
Qed.

Lemma slice_from_in_range {A} (l : list A) (a : Z) :
  0 <= a -> Py.slice_from l a = skipn (Z.to_nat a) l.
Proof.
  intros Ha. unfold Py.slice_from, Py.clamp. fold (Py.len l).
  destruct (Z.ltb_spec a 0); [ lia |].
  destruct (Z.le_gt_cases a (Py.len l)).
  - rewrite Z.min_l by lia. reflexivity.
  - rewrite Z.min_r by lia. unfold Py.len.
    rewrite Nat2Z.id, skipn_all. symmetry. apply skipn_all2.
    unfold Py.len in *. lia.
Qed.

Lemma slice_to_end {A} (l : list A) (a b : Z) :
  0 <= a -> Py.len l <= b -> Py.slice l a b = Py.slice_from l a.
Proof.
  intros Ha Hb. rewrite slice_from_in_range by exact Ha.
  unfold Py.slice. fold (Py.len l). pose proof (len_nonneg l).
  rewrite (clamp_above _ b) by lia.
  unfold Py.clamp. destruct (Z.ltb_spec a 0); [ lia |].
  destruct (Z.le_gt_cases a (Py.len l)).
  - rewrite Z.min_l by lia. apply firstn_all2. rewrite length_skipn.
    unfold Py.len in *. lia.
  - rewrite Z.min_r by lia. replace (Py.len l - Py.len l) with 0 by lia.
    cbn [Z.to_nat firstn]. symmetry. apply skipn_all2. unfold Py.len in *. lia.
Qed.

Lemma read_in_range (c : bytes) (p n : Z) :
  0 <= p -> 0 <= n -> p + n <= Py.len c ->
  archive3tz.read (archive3tz.mkfile c p) n
  = (Py.slice c p (p + n), archive3tz.mkfile c (p + n)).
Proof.
  intros Hp Hn Hlen. unfold archive3tz.read.
  cbn [archive3tz.contents archive3tz.position].
  rewrite slice_len by lia. do 2 f_equal. lia.
Qed.

Lemma seek_ok (f : archive3tz.file) (p : Z) :
  0 <= p < 2 ^ 63 ->
  archive3tz.seek f p = Ok (archive3tz.mkfile (archive3tz.contents f) p).
Proof.
  intros Hp. unfold archive3tz.seek.
  destruct (Z.ltb_spec p 0); [ lia |].
  destruct (Z.leb_spec (2 ^ 63) p); [ lia | reflexivity ].
Qed.

Lemma seek_inv (f f' : archive3tz.file) (p : Z) :
  archive3tz.seek f p = Ok f' ->
  0 <= p < 2 ^ 63 /\ f' = archive3tz.mkfile (archive3tz.contents f) p.
Proof.
  unfold archive3tz.seek.
  destruct (Z.ltb_spec p 0); [ discriminate |].
  destruct (Z.leb_spec (2 ^ 63) p); [ discriminate |].
  intros E. inversion E. split; [ lia | reflexivity ].
Qed.

Lemma length_list_byte_of_string (s : string) :
  List.length (list_byte_of_string s) = String.length s.
Proof. induction s; cbn; auto. Qed.

Lemma length_string_of_list_byte (b : bytes) :
  String.length (string_of_list_byte b) = List.length b.
Proof. induction b; cbn; auto. Qed.

Lemma decode_encode (s : string) :
  Py.utf8_valid (Py.encode_utf8 s) = true ->
  Py.decode_utf8 (Py.encode_utf8 s) = Ok s.
Proof.
  intros H. unfold Py.decode_utf8. rewrite H. unfold Py.encode_utf8.
  rewrite string_of_list_byte_of_string. reflexivity.
Qed.

Lemma decode_inv (b : bytes) (s : string) :
  Py.decode_utf8 b = Ok s -> Py.encode_utf8 s = b /\ Py.utf8_valid b = true.
Proof.
  unfold Py.decode_utf8. destruct (Py.utf8_valid b); [| discriminate ].
  intros H. inversion H. unfold Py.encode_utf8.
  rewrite list_byte_of_string_of_list_byte. auto.
Qed.

(** ** Local file headers *)

(** The header read at [off]: 130 bytes when the file has them. *)
Lemma header_read (f : archive3tz.file) (off : Z) :
  0 <= off < 2 ^ 63 ->
  archive3tz.getLocalFileHeaderAtOffset f off
  = let c := archive3tz.contents f in
    let b := Py.slice c off (off + 130) in
    filename <- Py.decode_utf8
      (Py.slice b 30 (30 + Py.int_from_bytes (Py.slice b 26 28))) ;;
    Ok ({| archive3tz.lfh_signature := Py.slice b 0 4;
           archive3tz.lfh_versionNeeded := Py.slice b 4 6;
           archive3tz.lfh_generalBits := Py.slice b 6 8;
           archive3tz.lfh_compressionMethod := Py.slice b 8 10;
           archive3tz.lfh_lastModTime := Py.slice b 10 12;
           archive3tz.lfh_lastModDate := Py.slice b 12 14;
           archive3tz.lfh_crc32 := Py.slice b 14 18;
           archive3tz.lfh_compressedSize := Py.int_from_bytes (Py.slice b 18 22);
           archive3tz.lfh_uncompressedSize := Py.int_from_bytes (Py.slice b 22 26);
           archive3tz.lfh_filenameLength := Py.int_from_bytes (Py.slice b 26 28);
           archive3tz.lfh_extraFieldLength := Py.int_from_bytes (Py.slice b 28 30);
           archive3tz.lfh_filename := filename;
           archive3tz.lfh_extraField :=
             Py.slice b (30 + Py.int_from_bytes (Py.slice b 26 28))
               (30 + Py.int_from_bytes (Py.slice b 26 28)
                + Py.int_from_bytes (Py.slice b 28 30)) |},
        archive3tz.mkfile c (off + Py.len b)).
Proof.
  intros Hoff. unfold archive3tz.getLocalFileHeaderAtOffset.
  rewrite seek_ok by exact Hoff. cbn [Py.bind]. unfold archive3tz.read.
  cbn [archive3tz.contents archive3tz.position].
  unfold archive3tz.LOCALFILEHEADERSIZE.
  replace (off + (30 + 100)) with (off + 130) by lia. reflexivity.
Qed.

(** A header's file name is never longer than 100 bytes: the name is cut
    out of the 130 bytes that are read. *)
Lemma header_name_length (f f' : archive3tz.file) (off : Z) (lfh : archive3tz.LFH) :
  archive3tz.getLocalFileHeaderAtOffset f off = Ok (lfh, f') ->
  (String.length (archive3tz.lfh_filename lfh) <= 100)%nat.
Proof.
  unfold archive3tz.getLocalFileHeaderAtOffset.
  destruct (archive3tz.seek f off) as [f1 | e] eqn:Hs; [| discriminate ].
  apply seek_inv in Hs. destruct Hs as [Hoff ->]. cbn [Py.bind].
  unfold archive3tz.read. cbn [archive3tz.contents archive3tz.position].
  set (b := Py.slice (archive3tz.contents f) off (off + _)).
  assert (Hb : Py.len b <= 130).
  { unfold b, archive3tz.LOCALFILEHEADERSIZE.
    pose proof (slice_len_le (archive3tz.contents f) off (off + (30 + 100))
                  ltac:(lia) ltac:(lia)). lia. }
  destruct (Py.decode_utf8 _) as [name | e] eqn:Hd; [| discriminate ].
  cbn [Py.bind]. intros H. inversion H. subst. cbn [archive3tz.lfh_filename].
  apply decode_inv in Hd. destruct Hd as [Hd _].
  unfold Py.encode_utf8 in Hd.
  rewrite <- length_list_byte_of_string, Hd.
  unfold archive3tz.LOCALFILEHEADERSIZE.
  set (fn := Py.int_from_bytes _).
  assert (Hfn : 0 <= fn) by (unfold fn, Py.int_from_bytes; apply le_combine_bound).
  pose proof (len_nonneg b).
  assert (Py.len (Py.slice b 30 (30 + fn)) <= 100).
  { unfold Py.slice, Py.len. rewrite length_firstn, length_skipn.
    fold (Py.len b). unfold Py.clamp.
    destruct (Z.ltb_spec 30 0); [ lia |].
    destruct (Z.ltb_spec (30 + fn) 0); lia. }
  unfold Py.len in *. lia.
Qed.

Lemma slice_len_clamped {A} (l : list A) (a b : Z) :
  0 <= a <= Py.len l -> a <= b ->
  Py.len (Py.slice l a b) = Z.min b (Py.len l) - a.
Proof.
  intros Ha Hb. unfold Py.slice, Py.len in *.
  rewrite length_firstn, length_skipn.
  unfold Py.clamp. destruct (Z.ltb_spec a 0); [ lia |].
  destruct (Z.ltb_spec b 0); lia.
Qed.

(** ** Where the contents of an entry are read *)

(** X1.  After a local file header was read at [off], the contents are
    sought at the first byte after the header, the name and the extra
    field, less the number of bytes that the file lacks of the 130 after
    [off]: at the right place exactly when the file holds 130 bytes from
    [off] on. *)
Theorem contents_start_after_header :
  forall (f f1 : archive3tz.file) (off : Z) (lfh : archive3tz.LFH),
    0 <= off <= Py.len (archive3tz.contents f) ->
    archive3tz.getLocalFileHeaderAtOffset f off = Ok (lfh, f1) ->
    archive3tz.seekToFileContentsStartFromLocalFileHeader f1 lfh
    = archive3tz.seek f
        (off + 30 + archive3tz.lfh_filenameLength lfh
         + archive3tz.lfh_extraFieldLength lfh
         - Z.max 0 (off + 130 - Py.len (archive3tz.contents f))).
Proof.
  intros f f1 off lfh Hoff H.
  assert (Hlt : 0 <= off < 2 ^ 63).
  { unfold archive3tz.getLocalFileHeaderAtOffset in H.
    destruct (archive3tz.seek f off) eqn:Hs; [| discriminate ].
    apply seek_inv in Hs. lia. }
  rewrite header_read in H by exact Hlt. cbv zeta in H.
  destruct (Py.decode_utf8 _) as [name | e]; [| discriminate ].
  cbn [Py.bind] in H. inversion H. subst. clear H.
  unfold archive3tz.seekToFileContentsStartFromLocalFileHeader.
  cbn [archive3tz.position archive3tz.lfh_filenameLength
       archive3tz.lfh_extraFieldLength].
  rewrite slice_len_clamped by lia.
  unfold archive3tz.seek. cbn [archive3tz.contents].
  match goal with
  | |- (if ?p <? 0 then _ else _) = (if ?q <? 0 then _ else _) =>
      replace p with q by lia
  end.
  reflexivity.
Qed.

(** The local entry of [a.txt] at the start of the example archive. *)
Lemma contents_start_after_header_witness :
  archive3tz.seekToFileContentsStartFromLocalFileHeader
    (archive3tz.mkfile Examples.tiny_3tz 130) Examples.a_header
  = archive3tz.seek (archive3tz.mkfile Examples.tiny_3tz 0)
      (0 + 30 + 5 + 0 - Z.max 0 (0 + 130 - 456)).
Proof.
  apply (contents_start_after_header (archive3tz.mkfile Examples.tiny_3tz 0)
           (archive3tz.mkfile Examples.tiny_3tz 130) 0 Examples.a_header).
  - vm_compute. split; discriminate.
  - vm_compute. reflexivity.
Defined.

(** In a file that ends 43 bytes after the start of a local entry, the
    contents of the entry are sought 87 bytes before their start, inside
    the entry before it. *)
Example contents_start_short_file :
  exists lfh f1,
    archive3tz.getLocalFileHeaderAtOffset Examples.cut_after_b 135 = Ok (lfh, f1)
    /\ archive3tz.seekToFileContentsStartFromLocalFileHeader f1 lfh
       = Ok (archive3tz.mkfile (archive3tz.contents Examples.cut_after_b) 83)
    /\ 135 + 30 + archive3tz.lfh_filenameLength lfh
       + archive3tz.lfh_extraFieldLength lfh = 170.
Proof. do 2 eexists. vm_compute. repeat split; reflexivity. Qed.

(** ** What the contents of an entry are *)

Section FileContents.
Context {codecs : archive3tz.Codecs}.

Lemma decompress_store (n : Z) (data : bytes) :
  archive3tz.decompressFileContents archive3tz.ZIP_COMPRESSION_METHOD_STORE n data
  = Ok data.
Proof. reflexivity. Qed.

Lemma decompress_other_length (m : bytes) (n : Z) (data out : bytes) :
  archive3tz.bytes_eqb m archive3tz.ZIP_COMPRESSION_METHOD_STORE = false ->
  archive3tz.decompressFileContents m n data = Ok out ->
  Py.len out = n.
Proof.
  intros Hs. unfold archive3tz.decompressFileContents. rewrite Hs. cbn [negb].
  destruct (archive3tz.bytes_eqb m archive3tz.ZIP_COMPRESSION_METHOD_DEFLATE).
  - destruct (archive3tz.zlib_decompress data) as [u |]; [| discriminate ].
    cbn [Py.bind]. destruct (Z.eqb_spec (Py.len u) n); cbn [negb]; [| discriminate ].
    intros H. inversion H. subst. first [ reflexivity | assumption ].
  - destruct (archive3tz.bytes_eqb m archive3tz.ZIP_COMPRESSION_METHOD_ZSTD
              || archive3tz.bytes_eqb m archive3tz.ZIP_COMPRESSION_METHOD_ZSTD_OLD);
      [| discriminate ].
    destruct archive3tz.zstd as [decompress |]; [| discriminate ].
    destruct (decompress data n) as [u |]; [| discriminate ].
    cbn [Py.bind]. destruct (Z.eqb_spec (Py.len u) n); cbn [negb]; [| discriminate ].
    intros H. inversion H. subst. first [ reflexivity | assumption ].
Qed.

(** X2.  The contents that [getFileContentsFromLocalFileHeader] returns
    have the length that the header announces: the compressed size for a
    stored entry, the uncompressed size for any other. *)
Theorem file_contents_length :
  forall (f f' : archive3tz.file) (lfh : archive3tz.LFH) (b : bytes),
    archive3tz.getFileContentsFromLocalFileHeader f lfh = Ok (b, f') ->
    Py.len b
    = if archive3tz.bytes_eqb (archive3tz.lfh_compressionMethod lfh)
           archive3tz.ZIP_COMPRESSION_METHOD_STORE
      then archive3tz.lfh_compressedSize lfh
      else archive3tz.lfh_uncompressedSize lfh.
Proof.
  intros f f' lfh b. unfold archive3tz.getFileContentsFromLocalFileHeader.
  destruct (archive3tz.seekToFileContentsStartFromLocalFileHeader f lfh) as [f1 | e];
    [| discriminate ].
  cbn [Py.bind]. destruct (archive3tz.read f1 _) as [data f2].
  destruct (Z.eqb_spec (Py.len data) (archive3tz.lfh_compressedSize lfh)) as [E | E];
    cbn [negb]; [| discriminate ].
  destruct (archive3tz.bytes_eqb _ archive3tz.ZIP_COMPRESSION_METHOD_STORE) eqn:Hs.
  - intros H. inversion H. subst. exact E.
  - destruct (archive3tz.decompressFileContents _ _ data) as [u | e] eqn:Hd.
    + intros H. inversion H. subst.
      exact (decompress_other_length _ _ _ _ Hs Hd).
    + destruct e; discriminate.
Qed.
End FileContents.

(** The deflated entry [b.txt] of the example archive, read with the
    stored-block decompressor. *)
Lemma file_contents_length_witness :
  Py.len [x61; x62; x63]
  = if archive3tz.bytes_eqb (archive3tz.lfh_compressionMethod Examples.b_header)
         archive3tz.ZIP_COMPRESSION_METHOD_STORE
    then archive3tz.lfh_compressedSize Examples.b_header
    else archive3tz.lfh_uncompressedSize Examples.b_header.
Proof.
  apply (file_contents_length (codecs := StoredCodecs.codecs)
           (archive3tz.mkfile Examples.tiny_3tz 265)
           (archive3tz.mkfile Examples.tiny_3tz 178) Examples.b_header).
  vm_compute. reflexivity.
Defined.

Section FileContentsMore.
Context {codecs : archive3tz.Codecs}.

(** X3.  Reading the raw contents and decompressing them afterwards, as
    the server does, gives what [getFileContentsFromLocalFileHeader]
    gives: the one returns [b] exactly when the other returns raw
    contents that [decompressFileContents] turns into [b]. *)
Theorem file_contents_via_raw :
  forall (f f' : archive3tz.file) (lfh : archive3tz.LFH) (b : bytes),
    archive3tz.getFileContentsFromLocalFileHeader f lfh = Ok (b, f')
    <-> exists raw,
          archive3tz.getRawFileContentsFromLocalFileHeader f lfh
          = Ok (archive3tz.lfh_compressionMethod lfh,
                archive3tz.lfh_uncompressedSize lfh, raw, f')
          /\ archive3tz.decompressFileContents
               (archive3tz.lfh_compressionMethod lfh)
               (archive3tz.lfh_uncompressedSize lfh) raw = Ok b.
Proof.
  intros f f' lfh b.
  unfold archive3tz.getFileContentsFromLocalFileHeader,
    archive3tz.getRawFileContentsFromLocalFileHeader.
  destruct (archive3tz.seekToFileContentsStartFromLocalFileHeader f lfh) as [f1 | e];
    cbn [Py.bind]; [| split; [ discriminate | intros [raw [H _]]; discriminate ] ].
  destruct (archive3tz.read f1 _) as [data f2].
  destruct (negb (Py.len data =? archive3tz.lfh_compressedSize lfh));
    [ split; [ discriminate | intros [raw [H _]]; discriminate ] |].
  destruct (archive3tz.bytes_eqb _ archive3tz.ZIP_COMPRESSION_METHOD_STORE) eqn:Hs.
  - apply bytes_eqb_eq in Hs. rewrite Hs. split.
    + intros H. inversion H. subst. exists b. split; reflexivity.
    + intros [raw [H Hd]]. inversion H. subst. rewrite decompress_store in Hd.
      inversion Hd. reflexivity.
  - split.
    + intros H. exists data.
      destruct (archive3tz.decompressFileContents _ _ data) as [u | e].
      * inversion H. subst. split; reflexivity.
      * destruct e; discriminate.
    + intros [raw [H Hd]]. inversion H. subst. rewrite Hd. reflexivity.
Qed.

(** X4.  For a header whose compressed size fits the 4-byte field it is
    parsed from, every exception of [getFileContentsFromLocalFileHeader]
    is an [OSError] or a [ValueError] of the seek, an [Exception], or a
    [NotImplementedError]: whatever the decompressor raises is raised
    again as one of the last two. *)
Theorem file_contents_errors :
  forall (f : archive3tz.file) (lfh : archive3tz.LFH) (e : exn),
    0 <= archive3tz.lfh_compressedSize lfh < 2 ^ 32 ->
    archive3tz.getFileContentsFromLocalFileHeader f lfh = Raise e ->
    e = OSError
    \/ (exists msg, e = ValueError msg)
    \/ (exists msg, e = Exception msg)
    \/ (exists msg, e = NotImplementedError msg).
Proof.
  intros f lfh e _. unfold archive3tz.getFileContentsFromLocalFileHeader,
    archive3tz.seekToFileContentsStartFromLocalFileHeader, archive3tz.seek.
  destruct (_ <? 0); cbn [Py.bind]; [ intros H; inversion H; auto |].
  destruct (2 ^ 63 <=? _); cbn [Py.bind]; [ intros H; inversion H; eauto |].
  destruct (archive3tz.read _ _) as [data f2].
  destruct (negb _); [ intros H; inversion H; eauto |].
  destruct (archive3tz.bytes_eqb _ _); [ discriminate |].
  destruct (archive3tz.decompressFileContents _ _ data) as [u | e']; [ discriminate |].
  destruct e'; intros H; inversion H; eauto.
Qed.
End FileContentsMore.

(** The entry [b.txt] of the example archive, whose method is changed to
    93 while no [zstandard] module is installed. *)
Lemma file_contents_errors_witness :
  archive3tz.getFileContentsFromLocalFileHeader (codecs := StoredCodecs.codecs)
    (archive3tz.mkfile Examples.tiny_3tz 265)
    (archive3tz.mkLFH [] [] [] archive3tz.ZIP_COMPRESSION_METHOD_ZSTD
       [] [] [] 8 3 5 0 "b.txt" [])
  = Raise (NotImplementedError "Failed to decompress '")
  /\ (NotImplementedError "Failed to decompress '" = OSError
      \/ (exists msg, NotImplementedError "Failed to decompress '" = ValueError msg)
      \/ (exists msg, NotImplementedError "Failed to decompress '" = Exception msg)
      \/ (exists msg,
            NotImplementedError "Failed to decompress '" = NotImplementedError msg)).
Proof.
  split; [ vm_compute; reflexivity |].
  apply (file_contents_errors (codecs := StoredCodecs.codecs)
           (archive3tz.mkfile Examples.tiny_3tz 265)
           (archive3tz.mkLFH [] [] [] archive3tz.ZIP_COMPRESSION_METHOD_ZSTD
              [] [] [] 8 3 5 0 "b.txt" [])).
  - cbn [archive3tz.lfh_compressedSize]. lia.
  - vm_compute. reflexivity.
Defined.

(** ** Single files of an archive *)

Lemma last_entry_contents (f f' : archive3tz.file) (r : option archive3tz.CDE) :
  archive3tz.getLastEntryInCentralDirectory f = Ok (r, f') ->
  archive3tz.contents f' = archive3tz.contents f.
Proof.
  unfold archive3tz.getLastEntryInCentralDirectory.
  destruct (archive3tz.seek f _) as [f1 | e] eqn:Hs; [| discriminate ].
  apply seek_inv in Hs. destruct Hs as [_ ->]. cbn [Py.bind].
  unfold archive3tz.read_all. cbn [archive3tz.contents archive3tz.position].
  destruct (_ && _).
  - destruct (archive3tz.parseCentralDirectoryEntry _); [| discriminate ].
    cbn [Py.bind]. intros H. inversion H. reflexivity.
  - intros H. inversion H. reflexivity.
Qed.

(** The header that is read where a local entry stands. *)
Lemma header_of_entry (c : bytes) (p off : Z) (name : string) (m : bytes)
  (usize : Z) (raw : bytes) :
  Spec.entry_at c off name m usize raw -> Py.len c < 2 ^ 63 ->
  exists lfh,
    archive3tz.getLocalFileHeaderAtOffset (archive3tz.mkfile c p) off
    = Ok (lfh, archive3tz.mkfile c (off + 130))
    /\ archive3tz.lfh_compressionMethod lfh = m
    /\ archive3tz.lfh_compressedSize lfh = Py.len raw
    /\ archive3tz.lfh_uncompressedSize lfh = usize
    /\ archive3tz.lfh_filenameLength lfh = Py.len (Py.encode_utf8 name)
    /\ archive3tz.lfh_extraFieldLength lfh
       = le_combine (Py.slice c (off + 28) (off + 30))
    /\ archive3tz.lfh_filename lfh = name.
Proof.
  intros (H0 & H130 & Hm & Hcs & Hus & Hfn & H100 & Hutf & Hname & Hend & Hraw) Hlen.
  rewrite header_read by lia. cbv zeta. cbn [archive3tz.contents].
  unfold Py.int_from_bytes.
  pose proof (len_nonneg (Py.encode_utf8 name)) as Hn0.
  rewrite (slice_slice c off 130 26 28), (slice_slice c off 130 28 30),
    (slice_slice c off 130 8 10), (slice_slice c off 130 18 22),
    (slice_slice c off 130 22 26) by lia.
  rewrite Hfn, (slice_slice c off 130 30) by lia.
  replace (off + (30 + Py.len (Py.encode_utf8 name)))
    with (off + 30 + Py.len (Py.encode_utf8 name)) by lia.
  rewrite Hname, (decode_encode _ Hutf). cbn [Py.bind].
  rewrite (slice_len c off (off + 130)) by lia.
  replace (off + (off + 130 - off)) with (off + 130) by lia.
  eexists. split; [ reflexivity |].
  cbn [archive3tz.lfh_compressionMethod archive3tz.lfh_compressedSize
       archive3tz.lfh_uncompressedSize archive3tz.lfh_filenameLength
       archive3tz.lfh_extraFieldLength archive3tz.lfh_filename].
  repeat split; auto.
Qed.

Section SingleFile.
Context {codecs : archive3tz.Codecs}.

(** The contents that are read after the header of a local entry. *)
Lemma contents_of_entry (c : bytes) (off : Z) (name : string) (m : bytes)
  (usize : Z) (raw b : bytes) (lfh : archive3tz.LFH) :
  Spec.entry_at c off name m usize raw -> Py.len c < 2 ^ 63 ->
  archive3tz.lfh_compressionMethod lfh = m ->
  archive3tz.lfh_compressedSize lfh = Py.len raw ->
  archive3tz.lfh_uncompressedSize lfh = usize ->
  archive3tz.lfh_filenameLength lfh = Py.len (Py.encode_utf8 name) ->
  archive3tz.lfh_extraFieldLength lfh = le_combine (Py.slice c (off + 28) (off + 30)) ->
  archive3tz.decompressFileContents m usize raw = Ok b ->
  exists f',
    archive3tz.getFileContentsFromLocalFileHeader
      (archive3tz.mkfile c (off + 130)) lfh = Ok (b, f')
    /\ archive3tz.contents f' = c.
Proof.
  intros (H0 & H130 & Hm & Hcs & Hus & Hfn & H100 & Hutf & Hname & Hend & Hraw)
    Hlen Lm Lcs Lus Lfn Lef Hd.
  unfold archive3tz.getFileContentsFromLocalFileHeader,
    archive3tz.seekToFileContentsStartFromLocalFileHeader.
  cbn [archive3tz.position]. rewrite Lfn, Lef, Lcs, Lm, Lus.
  set (fn := Py.len (Py.encode_utf8 name)) in *.
  set (ef := le_combine (Py.slice c (off + 28) (off + 30))) in *.
  assert (Hef : 0 <= ef) by (unfold ef; apply le_combine_bound).
  pose proof (len_nonneg (Py.encode_utf8 name)) as Hn0. fold fn in Hn0.
  pose proof (len_nonneg raw) as Hr0.
  rewrite seek_ok by lia. cbn [Py.bind archive3tz.contents].
  rewrite read_in_range by lia.
  replace (off + 130 + fn + ef - 100) with (off + 30 + fn + ef) by lia.
  rewrite Hraw, Z.eqb_refl. cbn [negb].
  destruct (archive3tz.bytes_eqb m archive3tz.ZIP_COMPRESSION_METHOD_STORE) eqn:Hs.
  - apply bytes_eqb_eq in Hs. rewrite Hs, decompress_store in Hd.
    inversion Hd. eexists. split; reflexivity.
  - rewrite Hd. eexists. split; reflexivity.
Qed.

(** The lookup of a path whose digest is the key of an entry of a
    well-formed sorted index, when all entries of that key agree. *)
Lemma find_in_index (es : list index3tz.entry) (filepath : string) (off : Z) :
  Spec.sorted_index es ->
  In (MD5.halves filepath, off) es ->
  (forall off', In (MD5.halves filepath, off') es -> off' = off) ->
  archive3tz.findLocalFileHeaderOffsetInIndex
    (archive3tz.mkIndex (Spec.encode_index es)) filepath = Ok (Some off).
Proof.
  intros Hes Hin Huniq. unfold archive3tz.findLocalFileHeaderOffsetInIndex.
  destruct (MD5.halves filepath) as [a b] eqn:Hmd5.
  rewrite Index_len_encode. pose proof (len_nonneg es).
  destruct (In_nth es (a, b, off) (0, 0, 0) Hin) as [n [Hn Hnth]].
  destruct (search_finds es a b Hes (Z.to_nat (Py.len es + 2)) 0 (Py.len es))
    as [off' [Hs Hoff]]; try lia.
  - exists (Z.of_nat n). rewrite Nat2Z.id, Hnth. unfold Py.len, Spec.key.
    cbn [fst]. repeat split; lia.
  - rewrite Hs. rewrite (Huniq off' Hoff). reflexivity.
Qed.

(** X5.  [getSingleFile] returns the contents of a file of a 3tz
    archive: when the last central directory entry points (not through a
    ZIP64 record) at a local entry named [@3dtilesIndex1@] whose
    contents are a well-formed sorted index, the index lists the digest
    of [filepath] with one offset, and a local entry named [filepath]
    stands at that offset, the result is the decompressed data of that
    entry. *)
Theorem getSingleFile_returns_contents :
  forall (c : bytes) (cde : archive3tz.CDE) (f1 : archive3tz.file)
         (es : list index3tz.entry) (filepath : string) (off : Z)
         (mi : bytes) (ui : Z) (rawi : bytes)
         (m : bytes) (usize : Z) (raw b : bytes),
    Py.len c < 2 ^ 63 ->
    archive3tz.getLastEntryInCentralDirectory (archive3tz.mkfile c 0)
    = Ok (Some cde, f1) ->
    archive3tz.cde_relativeOffsetOfLocalHeader cde <> 0xFFFFFFFF ->
    Spec.entry_at c (archive3tz.cde_relativeOffsetOfLocalHeader cde)
      "@3dtilesIndex1@" mi ui rawi ->
    archive3tz.decompressFileContents mi ui rawi = Ok (Spec.encode_index es) ->
    Spec.sorted_index es ->
    In (MD5.halves filepath, off) es ->
    (forall off', In (MD5.halves filepath, off') es -> off' = off) ->
    Spec.entry_at c off filepath m usize raw ->
    archive3tz.decompressFileContents m usize raw = Ok b ->
    archive3tz.getSingleFile c filepath = archive3tz.Returns (Some b).
Proof.
  intros c cde f1 es filepath off mi ui rawi m usize raw b
    Hlen Hlast Hz64 Hidx Hdi Hes Hin Huniq Hent Hd.
  unfold archive3tz.getSingleFile. rewrite Hlast.
  pose proof (last_entry_contents _ _ _ Hlast) as Hc1.
  cbn [archive3tz.contents] in Hc1.
  destruct f1 as [c1 p1]. cbn [archive3tz.contents] in Hc1. subst c1.
  unfold archive3tz.getLocalFileHeaderFromCentralDirectoryEntry.
  apply Z.eqb_neq in Hz64. rewrite Hz64.
  destruct (header_of_entry c p1 _ _ _ _ _ Hidx Hlen)
    as (lfh & Hh & Lm & Lcs & Lus & Lfn & Lef & Lname).
  rewrite Hh. cbn [Py.bind fst snd]. rewrite Lname, String.eqb_refl.
  destruct (contents_of_entry c _ _ _ _ _ _ lfh Hidx Hlen Lm Lcs Lus Lfn Lef Hdi)
    as (f3 & Hc & Hc3).
  rewrite Hc. destruct f3 as [c3 p3]. cbn [archive3tz.contents] in Hc3. subst c3.
  rewrite readIndex_encode, (find_in_index es filepath off Hes Hin Huniq).
  destruct (header_of_entry c p3 _ _ _ _ _ Hent Hlen)
    as (lfh2 & Hh2 & Lm2 & Lcs2 & Lus2 & Lfn2 & Lef2 & Lname2).
  rewrite Hh2, Lname2, String.eqb_refl. cbn [negb].
  destruct (contents_of_entry c _ _ _ _ _ _ lfh2 Hent Hlen Lm2 Lcs2 Lus2 Lfn2 Lef2 Hd)
    as (f5 & Hc5 & _).
  rewrite Hc5. reflexivity.
Qed.

(** X6.  [getSingleFile] never returns the contents of a path whose
    UTF-8 encoding is longer than 100 bytes: the name of a local file
    header is cut out of the 130 bytes read at its offset, so it cannot
    equal such a path. *)
Theorem getSingleFile_long_path :
  forall (c : bytes) (filepath : string) (b : bytes),
    100 < Py.len (Py.encode_utf8 filepath) ->
    archive3tz.getSingleFile c filepath <> archive3tz.Returns (Some b).
Proof.
  intros c filepath b Hlong. unfold archive3tz.getSingleFile.
  destruct (archive3tz.getLastEntryInCentralDirectory _) as [[[cde |] f1] | e];
    try discriminate.
  destruct (archive3tz.getLocalFileHeaderFromCentralDirectoryEntry f1 cde)
    as [[[lfh |] f2] | e]; try discriminate.
  destruct (String.eqb _ "@3dtilesIndex1@"); [| discriminate ].
  destruct (archive3tz.getFileContentsFromLocalFileHeader f2 lfh)
    as [[indexContent f3] | e]; [| discriminate ].
  destruct (archive3tz.readIndex indexContent) as [index | e]; [| discriminate ].
  destruct (archive3tz.findLocalFileHeaderOffsetInIndex index filepath)
    as [[offset |] | e]; try discriminate.
  destruct (archive3tz.getLocalFileHeaderAtOffset f3 offset)
    as [[lfh2 f4] | e] eqn:Hh; [| discriminate ].
  apply header_name_length in Hh.
  destruct (String.eqb_spec (archive3tz.lfh_filename lfh2) filepath) as [E | E];
    cbn [negb]; [| discriminate ].
  exfalso. rewrite E in Hh. unfold Py.len, Py.encode_utf8 in Hlong.
  rewrite length_list_byte_of_string in Hlong. lia.
Qed.
End SingleFile.

(** The files [a.txt] (stored) and [b.txt] (deflated) of the example
    archive. *)
Lemma getSingleFile_returns_contents_witness :
  archive3tz.getSingleFile (codecs := StoredCodecs.codecs) Examples.tiny_3tz "b.txt"
  = archive3tz.Returns (Some [x61; x62; x63]).
Proof.
  destruct (archive3tz.getLastEntryInCentralDirectory
              (archive3tz.mkfile Examples.tiny_3tz 0)) as [[[cde |] f1] | e] eqn:Hlast;
    try (vm_compute in Hlast; discriminate).
  assert (Hoff : archive3tz.cde_relativeOffsetOfLocalHeader cde = 178)
    by (vm_compute in Hlast; inversion Hlast; reflexivity).
  apply (getSingleFile_returns_contents (codecs := StoredCodecs.codecs)
           Examples.tiny_3tz cde f1 Examples.tiny_entries "b.txt" 135
           archive3tz.ZIP_COMPRESSION_METHOD_STORE 48
           (Spec.encode_index Examples.tiny_entries)
           archive3tz.ZIP_COMPRESSION_METHOD_DEFLATE 3 Examples.b_raw).
  - vm_compute. reflexivity.
  - exact Hlast.
  - rewrite Hoff. discriminate.
  - rewrite Hoff. vm_compute. repeat split; try discriminate; reflexivity.
  - reflexivity.
  - split.
    + repeat constructor; vm_compute; discriminate.
    + repeat constructor.
  - vm_compute. right. left. reflexivity.
  - intros off' Hin. vm_compute in Hin.
    destruct Hin as [E | [E | []]]; inversion E. reflexivity.
  - vm_compute. repeat split; try discriminate; reflexivity.
  - vm_compute. reflexivity.
Defined.

Lemma getSingleFile_long_path_witness :
  100 < Py.len (Py.encode_utf8 Examples.long_path)
  /\ archive3tz.getSingleFile (codecs := StoredCodecs.codecs)
       Examples.tiny_3tz Examples.long_path
     <> archive3tz.Returns (Some []).
Proof.
  split; [ reflexivity |].
  apply (getSingleFile_long_path (codecs := StoredCodecs.codecs)). reflexivity.
Defined.

(** ** The last central directory entry: tails without a signature *)

Lemma rfind_none (hay needle : bytes) :
  (forall i, ~ Spec.occurs_at hay needle i) -> Py.rfind hay needle = -1.
Proof.
  intros Hno. unfold Py.rfind.
  destruct (rfind_from_spec needle hay 0 ltac:(lia)) as [[E _] | [k [Hk [_ [Hsk _]]]]];
    [ exact E |].
  exfalso. apply (Hno (Z.of_nat k)). apply occurs_at_iff.
  rewrite Nat2Z.id. unfold Py.len. split; [ lia | exact Hsk ].
Qed.

Lemma rfind_lower_bound (hay needle : bytes) : -1 <= Py.rfind hay needle.
Proof.
  unfold Py.rfind.
  destruct (rfind_from_spec needle hay 0 ltac:(lia)) as [[E _] | [k [_ [E _]]]];
    rewrite E; lia.
Qed.

Lemma rfind_absent (hay needle : bytes) :
  Py.rfind hay needle = -1 -> forall i, ~ Spec.occurs_at hay needle i.
Proof.
  intros Hr i Hocc. apply occurs_at_iff in Hocc. destruct Hocc as [Hi Hs].
  unfold Py.rfind in Hr.
  destruct (rfind_from_spec needle hay 0 ltac:(lia)) as [[_ Hn] | [k [_ [E _]]]].
  - rewrite Hn in Hs; [ discriminate | unfold Py.len in Hi; lia ].
  - rewrite E in Hr. lia.
Qed.

Lemma rfind_is_last_at (hay needle : bytes) (e : Z) :
  Py.rfind hay needle = e -> 0 <= e -> Spec.last_occurrence hay needle e.
Proof. intros <- H. apply rfind_is_last. exact H. Qed.

(** X7.  When the last 320 bytes of an archive hold an
    end-of-central-directory signature but no central directory
    signature, as they do when the last entry of the directory with the
    end record takes more than 320 bytes,
    [getLastEntryInCentralDirectory] does not return [None]: [rfind]
    gives -1 for the start, the slice from -1 to the end signature is
    empty, and the result is the entry parsed from no bytes, with empty
    fields and the local header offset 0. *)
Theorem last_entry_without_directory_signature :
  forall (f : archive3tz.file) (e : Z),
    320 <= Py.len (archive3tz.contents f) ->
    Py.len (archive3tz.contents f) - 320 < 2 ^ 63 ->
    (forall i, ~ Spec.occurs_at (Spec.tail 320 (archive3tz.contents f))
                   archive3tz.STARTOFCENTRALDIRECTORY i) ->
    Spec.last_occurrence (Spec.tail 320 (archive3tz.contents f))
      archive3tz.ENDOFCENTRALDIRECTORY e ->
    archive3tz.getLastEntryInCentralDirectory f
    = Ok (Some Spec.empty_cde, Spec.at_end f).
Proof.
  intros f e Hlen Hfit Hno He.
  unfold archive3tz.getLastEntryInCentralDirectory.
  rewrite seek_ok by lia. cbn [Py.bind]. rewrite read_tail by exact Hlen.
  rewrite (rfind_none _ _ Hno), (rfind_last _ _ e He).
  destruct He as [[He0 [Hle _]] _].
  assert (Htail : Py.len (Spec.tail 320 (archive3tz.contents f)) = 320).
  { unfold Spec.tail, Py.len in *. rewrite length_skipn. lia. }
  rewrite Htail in Hle. change (Py.len archive3tz.ENDOFCENTRALDIRECTORY) with 4 in Hle.
  destruct (Z.ltb_spec (-1) e); [| lia ].
  destruct (Z.eqb_spec (-1) e); [ lia |]. cbn [andb negb].
  assert (Hs : Py.slice (Spec.tail 320 (archive3tz.contents f)) (-1) e = []).
  { unfold Py.slice. fold (Py.len (Spec.tail 320 (archive3tz.contents f))).
    rewrite Htail. unfold Py.clamp.
    destruct (Z.ltb_spec e 0); [ lia |]. cbn [Z.ltb Z.compare].
    replace (Z.to_nat (Z.min e 320 - Z.max (-1 + 320) 0)) with 0%nat by lia.
    reflexivity. }
  rewrite Hs. reflexivity.
Qed.

(** 298 zero bytes before an end record. *)
Lemma last_entry_without_directory_signature_witness :
  archive3tz.getLastEntryInCentralDirectory
    (archive3tz.mkfile Examples.only_end_record 0)
  = Ok (Some Spec.empty_cde, Spec.at_end (archive3tz.mkfile Examples.only_end_record 0)).
Proof.
  apply (last_entry_without_directory_signature
           (archive3tz.mkfile Examples.only_end_record 0) 298).
  - vm_compute. discriminate.
  - vm_compute. reflexivity.
  - apply rfind_absent. vm_compute. reflexivity.
  - apply rfind_is_last_at; [ vm_compute; reflexivity | lia ].
Defined.

Section NoEndRecord.
Context {codecs : archive3tz.Codecs}.

(** X8.  A container of at least 320 bytes whose last 320 bytes hold no
    end-of-central-directory signature makes [getSingleFile] raise
    [AttributeError]: no entry is found, and the [None] that stands for
    it is asked for its offset. *)
Theorem getSingleFile_without_end_record :
  forall (c : bytes) (filepath : string),
    320 <= Py.len c -> Py.len c - 320 < 2 ^ 63 ->
    (forall i, ~ Spec.occurs_at (Spec.tail 320 c) archive3tz.ENDOFCENTRALDIRECTORY i) ->
    archive3tz.getSingleFile c filepath = archive3tz.RaisesAttributeError.
Proof.
  intros c filepath Hlen Hfit Hno.
  unfold archive3tz.getSingleFile, archive3tz.getLastEntryInCentralDirectory.
  cbn [archive3tz.contents]. rewrite seek_ok by (cbn [archive3tz.contents]; lia).
  cbn [Py.bind archive3tz.contents].
  pose proof (read_tail (archive3tz.mkfile c 0) Hlen) as Hr.
  cbn [archive3tz.contents] in Hr. rewrite Hr.
  rewrite (rfind_none _ _ Hno).
  pose proof (rfind_lower_bound (Spec.tail 320 c) archive3tz.STARTOFCENTRALDIRECTORY).
  destruct (Z.ltb_spec (Py.rfind (Spec.tail 320 c) archive3tz.STARTOFCENTRALDIRECTORY) (-1));
    [ lia |].
  reflexivity.
Qed.
End NoEndRecord.

(** 320 zero bytes. *)
Lemma getSingleFile_without_end_record_witness :
  archive3tz.getSingleFile (codecs := StoredCodecs.codecs) Examples.no_signature "a.txt"
  = archive3tz.RaisesAttributeError.
Proof.
  apply (getSingleFile_without_end_record (codecs := StoredCodecs.codecs)).
  - vm_compute. discriminate.
  - vm_compute. reflexivity.
  - apply rfind_absent. vm_compute. reflexivity.
Defined.

(** ** The index as a sequence *)

Lemma index_item_ok (idx : archive3tz.Index) (k : Z) :
  let n := Py.len (archive3tz.view idx) / 8 in
  (exists v, archive3tz.Index_item idx k = Ok v) <-> - n <= k < n.
Proof.
  cbv zeta. unfold archive3tz.Index_item. set (n := Py.len _ / 8).
  destruct (Z.ltb_spec k 0);
    destruct (Z.leb_spec 0 (k + n)); destruct (Z.leb_spec 0 k);
    try destruct (Z.ltb_spec (k + n) n); try destruct (Z.ltb_spec k n);
    cbn [andb]; split; intros H'; try lia; try (destruct H' as [v Hv]; discriminate);
    eauto.
Qed.

(** X9.  [index[i]] follows the bounds of a Python sequence of
    [len(index)] items: it returns an entry exactly for [-len(index) <=
    i < len(index)], whether or not the number of 64-bit words of the
    blob is a multiple of three. *)
Theorem index_getitem_bounds :
  forall (idx : archive3tz.Index) (i : Z),
    (exists entry, archive3tz.Index_getitem idx i = Ok entry)
    <-> - archive3tz.Index_len idx <= i < archive3tz.Index_len idx.
Proof.
  intros idx i. unfold archive3tz.Index_getitem, archive3tz.Index_len.
  pose proof (index_item_ok idx (3 * i)) as H0.
  pose proof (index_item_ok idx (3 * i + 1)) as H1.
  pose proof (index_item_ok idx (3 * i + 2)) as H2.
  cbv zeta in H0, H1, H2. set (n := Py.len (archive3tz.view idx) / 8) in *.
  assert (Hn : 0 <= n).
  { unfold n. apply Z.div_pos; [ apply len_nonneg | lia ]. }
  pose proof (Z.div_mod n 3 ltac:(lia)) as Hdm.
  pose proof (Z.mod_pos_bound n 3 ltac:(lia)) as Hmb.
  split.
  - intros [entry He].
    destruct (archive3tz.Index_item idx (3 * i)) as [x |] eqn:E0; [| discriminate ].
    destruct (archive3tz.Index_item idx (3 * i + 1)) as [y |] eqn:E1; [| discriminate ].
    destruct (archive3tz.Index_item idx (3 * i + 2)) as [z |] eqn:E2; [| discriminate ].
    assert (- n <= 3 * i < n) by (apply H0; eauto).
    assert (- n <= 3 * i + 2 < n) by (apply H2; eauto).
    lia.
  - intros Hi.
    destruct (proj2 H0 ltac:(lia)) as [x ->].
    destruct (proj2 H1 ltac:(lia)) as [y ->].
    destruct (proj2 H2 ltac:(lia)) as [z ->].
    cbn [Py.bind]. eauto.
Qed.

Lemma skipn_nth_cons {A} (l : list A) (i : nat) (d : A) :
  (i < List.length l)%nat -> skipn i l = nth i l d :: skipn (S i) l.
Proof.
  revert i. induction l as [| a l IH]; intros i Hi; [ cbn in Hi; lia |].
  destruct i as [| i]; [ reflexivity |]. cbn [skipn nth]. apply IH. cbn in Hi. lia.
Qed.

Lemma index_iter_encode (es : list index3tz.entry) :
  Forall Spec.entry_ok es ->
  forall (fuel : nat) (i : Z),
    0 <= i <= Py.len es -> Py.len es - i < Z.of_nat fuel ->
    archive3tz.Index_iter fuel (archive3tz.mkIndex (Spec.encode_index es)) i
    = Ok (skipn (Z.to_nat i) es).
Proof.
  intros Hok. induction fuel as [| k IH]; intros i Hi Hfuel; [ lia |].
  cbn [archive3tz.Index_iter].
  destruct (Z.eq_dec i (Py.len es)) as [-> | Hne].
  - rewrite Index_getitem_past_end by lia. unfold Py.len.
    rewrite Nat2Z.id, skipn_all. reflexivity.
  - rewrite (Index_getitem_encode es i (0, 0, 0)) by (try assumption; lia).
    rewrite IH by lia. cbn [Py.bind].
    replace (Z.to_nat (i + 1)) with (S (Z.to_nat i)) by lia.
    rewrite (skipn_nth_cons es (Z.to_nat i) (0, 0, 0)); [ reflexivity |].
    unfold Py.len in *. lia.
Qed.

(** X10.  Iterating over the index of a blob that encodes the entries
    [es], as the listing loop of [3gm.py] does, yields [es], in order:
    the sequence protocol asks for [index[0]], [index[1]], ... and stops
    at the [IndexError] of [index[len(es)]]. *)
Theorem index_iteration :
  forall (es : list index3tz.entry) (idx : archive3tz.Index),
    Forall Spec.entry_ok es ->
    archive3tz.readIndex (Spec.encode_index es) = Ok idx ->
    archive3tz.Index_entries idx = Ok es.
Proof.
  intros es idx Hok Hidx. rewrite readIndex_encode in Hidx. inversion Hidx. subst.
  unfold archive3tz.Index_entries. rewrite Index_len_encode.
  pose proof (len_nonneg es).
  rewrite (index_iter_encode es Hok) by lia. reflexivity.
Qed.

Lemma index_iteration_witness :
  archive3tz.Index_entries (archive3tz.mkIndex (Spec.encode_index Examples.tiny_entries))
  = Ok Examples.tiny_entries.
Proof.
  apply (index_iteration Examples.tiny_entries).
  - repeat constructor; vm_compute; discriminate.
  - reflexivity.
Defined.

(** ** The index that [buildIndex] writes *)

Lemma insert_length (x : index3tz.entry) (l : list index3tz.entry) :
  List.length (index3tz.insert x l) = S (List.length l).
Proof.
  induction l as [| y r IH]; cbn [index3tz.insert]; [ reflexivity |].
  destruct (index3tz.key_le x y); cbn [List.length]; auto.
Qed.

Lemma sorted_length (l : list index3tz.entry) :
  List.length (index3tz.sorted l) = List.length l.
Proof.
  induction l as [| x r IH]; [ reflexivity |].
  unfold index3tz.sorted in *. cbn [fold_right List.length].
  rewrite insert_length, IH. reflexivity.
Qed.

(** X11.  The blob of [buildIndex] is a sequence of 24-byte records, one
    for every entry of the central directory that is neither a directory
    nor the index itself and no other, in ascending order of their keys. *)
Theorem buildIndex_sorted_records :
  forall (infolist : list index3tz.ZipInfo) (blob : bytes),
    index3tz.buildIndex infolist = Ok blob ->
    exists es,
      blob = Spec.encode_index es
      /\ Spec.sorted_index es
      /\ Py.len blob = 24 * Py.len (filter Spec.indexed_b infolist)
      /\ forall e, In e es
                   <-> exists item, In item infolist /\ Spec.indexed item
                                    /\ e = Spec.entry_of item.
Proof.
  intros infolist blob H. apply buildIndex_inv in H. cbv zeta in H.
  destruct H as [-> Hes]. eexists. split; [ reflexivity |]. split; [ exact Hes |].
  split.
  - rewrite encode_index_len. unfold Py.len.
    rewrite sorted_length, length_map. reflexivity.
  - intros e. rewrite sorted_In, in_map_iff. split.
    + intros [item [He Hin]]. apply filter_In in Hin. destruct Hin as [Hin Hb].
      exists item. rewrite indexed_b_true. auto.
    + intros [item [Hin [Hi ->]]]. exists item. split; [ reflexivity |].
      apply filter_In. rewrite <- indexed_b_true. auto.
Qed.

Lemma buildIndex_sorted_records_witness :
  exists es,
    Spec.encode_index
      [ (11703091639316506021, 9094510531650121512, 0);
        (14018283021449973966, 18269407469251022780, 74) ] = Spec.encode_index es
    /\ Spec.sorted_index es
    /\ Py.len (Spec.encode_index
                 [ (11703091639316506021, 9094510531650121512, 0);
                   (14018283021449973966, 18269407469251022780, 74) ])
       = 24 * Py.len (filter Spec.indexed_b Examples.small_zip)
    /\ forall e, In e es
                 <-> exists item, In item Examples.small_zip /\ Spec.indexed item
                                  /\ e = Spec.entry_of item.
Proof.
  apply (buildIndex_sorted_records Examples.small_zip). vm_compute. reflexivity.
Defined.

(** *** When [buildIndex] succeeds *)

Lemma testbit_8233 (n : Z) :
  0 <= n -> Z.testbit 8233 n = true -> n = 0 \/ n = 3 \/ n = 5 \/ n = 13.
Proof.
  intros Hn Ht. destruct (Z.le_gt_cases 14 n) as [Hge | Hlt].
  - rewrite Z.bits_above_log2 in Ht; [ discriminate | lia |].
    change (Z.log2 8233) with 13. lia.
  - remember (Z.to_nat n) as k eqn:Ek.
    assert (En : n = Z.of_nat k) by lia. subst n. clear Ek Hn.
    do 14 (destruct k as [| k];
           [ vm_compute in Ht; first [ discriminate Ht | cbn; auto ] |]).
    lia.
Qed.

Lemma land_no_forbidden_flag (item : index3tz.ZipInfo) :
  ~ Spec.forbidden_flag item ->
  Z.land (index3tz.flag_bits item) index3tz.disallowedFlagBits = 0.
Proof.
  intros Hno. rewrite disallowedFlagBits_value. apply Z.bits_inj'. intros n Hn.
  rewrite Z.land_spec, Z.bits_0.
  destruct (Z.testbit 8233 n) eqn:E; [| apply andb_false_r ].
  rewrite andb_true_r.
  destruct (Z.testbit (index3tz.flag_bits item) n) eqn:Ef; [| reflexivity ].
  exfalso. apply Hno. unfold Spec.forbidden_flag.
  destruct (testbit_8233 n Hn E) as [-> | [-> | [-> | ->]]]; auto.
Qed.

Lemma check_accepts (item : index3tz.ZipInfo) :
  ~ Spec.fails_validation item ->
  index3tz.checkIfSupportedZipItem item = Ok tt.
Proof.
  intros Hok. unfold index3tz.checkIfSupportedZipItem.
  assert (Hm : (negb (index3tz.compress_type item =? 8)
                && negb (index3tz.compress_type item =? 93)
                && negb (index3tz.compress_type item =? 0)) = false).
  { destruct (Z.eqb_spec (index3tz.compress_type item) 8); [ reflexivity |].
    destruct (Z.eqb_spec (index3tz.compress_type item) 93); [ reflexivity |].
    destruct (Z.eqb_spec (index3tz.compress_type item) 0); [ reflexivity |].
    exfalso. apply Hok. right. left. repeat split; assumption. }
  rewrite Hm, land_no_forbidden_flag.
  2: { intros Hf. apply Hok. left. exact Hf. }
  cbn [Z.eqb negb].
  destruct (Z.eqb_spec (index3tz.compress_size item) 0); [| reflexivity ].
  destruct (Z.eqb_spec (index3tz.file_size item) 0); [ reflexivity |].
  exfalso. apply Hok. right. right. split; assumption.
Qed.

Lemma collect_ok (infolist : list index3tz.ZipInfo) :
  (forall item, In item infolist -> ~ Spec.fails_validation item) ->
  forall acc,
    index3tz.collect infolist acc
    = Ok (acc ++ map Spec.entry_of (filter Spec.indexed_b infolist)).
Proof.
  induction infolist as [| x rest IH]; intros Hok acc; cbn [index3tz.collect].
  - cbn. rewrite app_nil_r. reflexivity.
  - rewrite check_accepts by (apply Hok; left; reflexivity). cbn [Py.bind filter].
    fold (Spec.indexed_b x). destruct (Spec.indexed_b x).
    + destruct (MD5.halves (index3tz.filename x)) as [lo hi] eqn:E.
      rewrite IH by (intros item Hi; apply Hok; right; exact Hi).
      cbn [map]. unfold Spec.entry_of. rewrite E, <- app_assoc. reflexivity.
    + apply IH. intros item Hi. apply Hok. right. exact Hi.
Qed.

Lemma pack_ok (es : list index3tz.entry) :
  Forall Spec.entry_ok es ->
  forall acc, index3tz.pack es acc = Ok (acc ++ Spec.encode_index es).
Proof.
  induction 1 as [| [[lo hi] off] es [Hlo [Hhi Hoff]] Hes IH]; intros acc;
    cbn [index3tz.pack].
  - cbn. rewrite app_nil_r. reflexivity.
  - cbn [fst snd] in Hlo, Hhi, Hoff. unfold Spec.u64 in *. unfold Py.pack_Q.
    destruct (Z.leb_spec 0 lo), (Z.ltb_spec lo (2 ^ 64)); try lia.
    destruct (Z.leb_spec 0 hi), (Z.ltb_spec hi (2 ^ 64)); try lia.
    destruct (Z.leb_spec 0 off), (Z.ltb_spec off (2 ^ 64)); try lia.
    cbn [andb Py.bind]. rewrite IH. unfold Spec.encode_index. cbn [flat_map].
    unfold Spec.encode_entry. cbn [fst snd]. rewrite <- !app_assoc. reflexivity.
Qed.

Lemma halves_u64 (s : string) :
  Spec.u64 (fst (MD5.halves s)) /\ Spec.u64 (snd (MD5.halves s)).
Proof.
  unfold MD5.halves. cbn [fst snd]. set (d := MD5.digest _).
  assert (Hd : List.length d = 16%nat).
  { unfold d, MD5.digest. rewrite !length_app, !length_le_split. reflexivity. }
  unfold Spec.u64. split.
  - pose proof (le_combine_bound (firstn 8 d)) as Hb.
    rewrite length_firstn, Hd in Hb. exact Hb.
  - pose proof (le_combine_bound (skipn 8 d)) as Hb.
    rewrite length_skipn, Hd in Hb. exact Hb.
Qed.

Lemma sorted_Forall (P : index3tz.entry -> Prop) (l : list index3tz.entry) :
  Forall P l -> Forall P (index3tz.sorted l).
Proof.
  intros H. apply Forall_forall. intros e He.
  apply (proj1 (sorted_In _ _)) in He.
  rewrite Forall_forall in H. apply H. exact He.
Qed.

(** X12.  For a ZIP in which no entry has an empty name, [buildIndex]
    returns an index exactly when every entry of the central directory
    passes the validation and the local header offset of every entry it
    indexes fits 64 bits; the second condition is the range check of
    [struct.pack]. *)
Theorem buildIndex_succeeds_iff :
  forall (infolist : list index3tz.ZipInfo),
    (forall item, In item infolist -> index3tz.filename item <> ""%string) ->
    (exists blob, index3tz.buildIndex infolist = Ok blob)
    <-> (forall item, In item infolist -> ~ Spec.fails_validation item)
        /\ (forall item, In item infolist -> Spec.indexed item ->
                         Spec.u64 (index3tz.header_offset item)).
Proof.
  intros infolist _. split.
  - intros [blob H]. split.
    + intros item Hin Hbad. unfold index3tz.buildIndex in H.
      destruct (collect_rejects infolist item [] Hin Hbad) as [msg Hr].
      rewrite Hr in H. discriminate.
    + intros item Hin Hidx. apply buildIndex_inv in H. cbv zeta in H.
      destruct H as [_ [Hok _]]. rewrite Forall_forall in Hok.
      assert (He : Spec.entry_ok (Spec.entry_of item)).
      { apply Hok. apply sorted_In. apply in_map. apply filter_In.
        split; [ exact Hin | apply indexed_b_true; exact Hidx ]. }
      destruct He as [_ [_ Ho]]. exact Ho.
  - intros [Hval Hoff]. unfold index3tz.buildIndex.
    rewrite collect_ok by exact Hval. cbn [Py.bind app].
    eexists. apply pack_ok. apply sorted_Forall. apply Forall_forall.
    intros e He. apply in_map_iff in He. destruct He as [item [<- Hin]].
    apply filter_In in Hin. destruct Hin as [Hin Hb]. apply indexed_b_true in Hb.
    unfold Spec.entry_ok, Spec.entry_of. cbn [fst snd].
    destruct (halves_u64 (index3tz.filename item)) as [H1 H2].
    repeat split; try apply H1; try apply H2; apply (Hoff item Hin Hb).
Qed.

(** The ZIP with two files and a directory. *)
Lemma buildIndex_succeeds_iff_witness :
  (exists blob, index3tz.buildIndex Examples.small_zip = Ok blob)
  /\ ((exists blob, index3tz.buildIndex Examples.small_zip = Ok blob)
      <-> (forall item, In item Examples.small_zip -> ~ Spec.fails_validation item)
          /\ (forall item, In item Examples.small_zip -> Spec.indexed item ->
                           Spec.u64 (index3tz.header_offset item))).
Proof.
  split; [ eexists; vm_compute; reflexivity |].
  apply (buildIndex_succeeds_iff Examples.small_zip).
  intros item [<- | [<- | [<- | []]]]; discriminate.
Defined.

(** ** [ZipStatistics] *)

Lemma gather_item_spec (st : index3tz.ZipStatistics) (x : index3tz.ZipInfo) :
  let st1 := index3tz.gather_item st x in
  index3tz.numFiles st1
  = index3tz.numFiles st + (if Spec.indexed_b x then 1 else 0)
  /\ index3tz.fileSize st1 = index3tz.fileSize st
  /\ index3tz.maxFileSize st <= index3tz.maxFileSize st1
  /\ index3tz.maxCompFileSize st <= index3tz.maxCompFileSize st1
  /\ index3tz.maxHeaderOffset st <= index3tz.maxHeaderOffset st1
  /\ (Spec.indexed_b x = true ->
      index3tz.file_size x <= index3tz.maxFileSize st1
      /\ index3tz.compress_size x <= index3tz.maxCompFileSize st1
      /\ index3tz.header_offset x <= index3tz.maxHeaderOffset st1).
Proof.
  cbv zeta. unfold index3tz.gather_item. fold (Spec.indexed_b x).
  destruct (Spec.indexed_b x);
    cbn [index3tz.numFiles index3tz.fileSize index3tz.maxFileSize
         index3tz.maxCompFileSize index3tz.maxHeaderOffset].
  - destruct (Z.gtb_spec (index3tz.file_size x) (index3tz.maxFileSize st));
    destruct (Z.gtb_spec (index3tz.compress_size x) (index3tz.maxCompFileSize st));
    destruct (Z.gtb_spec (index3tz.header_offset x) (index3tz.maxHeaderOffset st));
    repeat split; lia.
  - repeat split; try lia; try discriminate.
Qed.

Lemma gather_fold (infolist : list index3tz.ZipInfo) :
  forall st,
    let st' := fold_left index3tz.gather_item infolist st in
    index3tz.numFiles st'
    = index3tz.numFiles st + Py.len (filter Spec.indexed_b infolist)
    /\ index3tz.fileSize st' = index3tz.fileSize st
    /\ index3tz.maxFileSize st <= index3tz.maxFileSize st'
    /\ index3tz.maxCompFileSize st <= index3tz.maxCompFileSize st'
    /\ index3tz.maxHeaderOffset st <= index3tz.maxHeaderOffset st'
    /\ forall item, In item infolist -> Spec.indexed item ->
         index3tz.file_size item <= index3tz.maxFileSize st'
         /\ index3tz.compress_size item <= index3tz.maxCompFileSize st'
         /\ index3tz.header_offset item <= index3tz.maxHeaderOffset st'.
Proof.
  induction infolist as [| x rest IH]; intros st; cbn [fold_left filter].
  - cbv zeta. cbn. repeat split; try lia; try contradiction.
  - specialize (IH (index3tz.gather_item st x)). cbv zeta in IH |- *.
    destruct IH as (Hn & Hs & H1 & H2 & H3 & Hall).
    pose proof (gather_item_spec st x) as Hstep. cbv zeta in Hstep.
    destruct Hstep as (Sn & Ss & S1 & S2 & S3 & Sx).
    set (st1 := index3tz.gather_item st x) in *.
    set (st' := fold_left index3tz.gather_item rest st1) in *.
    repeat split; try lia.
    + rewrite Hn, Sn. destruct (Spec.indexed_b x); unfold Py.len; cbn [List.length]; lia.
    + destruct H as [<- | Hin]; [| apply Hall; assumption ].
      apply indexed_b_true in H0. specialize (Sx H0). lia.
    + destruct H as [<- | Hin]; [| apply Hall; assumption ].
      apply indexed_b_true in H0. specialize (Sx H0). lia.
    + destruct H as [<- | Hin]; [| apply Hall; assumption ].
      apply indexed_b_true in H0. specialize (Sx H0). lia.
Qed.

(** X13.  The number of files that [ZipStatistics] counts is the number
    of entries of the index that [buildIndex] writes for the same ZIP. *)
Theorem gather_counts_index_entries :
  forall (size : Z) (infolist : list index3tz.ZipInfo) (blob : bytes),
    index3tz.buildIndex infolist = Ok blob ->
    Py.len blob = 24 * index3tz.numFiles (index3tz.gather size infolist).
Proof.
  intros size infolist blob H. apply buildIndex_inv in H. cbv zeta in H.
  destruct H as [-> _]. rewrite encode_index_len. unfold index3tz.gather.
  destruct (gather_fold infolist (index3tz.mkZipStatistics 0 0 0 0 size)) as [Hn _].
  rewrite Hn. cbn [index3tz.numFiles]. unfold Py.len.
  rewrite sorted_length, length_map. lia.
Qed.

Lemma gather_counts_index_entries_witness :
  Py.len (Spec.encode_index
            [ (11703091639316506021, 9094510531650121512, 0);
              (14018283021449973966, 18269407469251022780, 74) ])
  = 24 * index3tz.numFiles (index3tz.gather 1000 Examples.small_zip).
Proof.
  apply (gather_counts_index_entries 1000 Examples.small_zip).
  vm_compute. reflexivity.
Defined.

(** X14.  The maxima that [ZipStatistics] gathers bound the sizes and
    the local header offset of every file that it counts, and are never
    negative. *)
Theorem gather_maxima :
  forall (size : Z) (infolist : list index3tz.ZipInfo),
    let stats := index3tz.gather size infolist in
    0 <= index3tz.maxFileSize stats
    /\ 0 <= index3tz.maxCompFileSize stats
    /\ 0 <= index3tz.maxHeaderOffset stats
    /\ forall item, In item infolist -> Spec.indexed item ->
         index3tz.file_size item <= index3tz.maxFileSize stats
         /\ index3tz.compress_size item <= index3tz.maxCompFileSize stats
         /\ index3tz.header_offset item <= index3tz.maxHeaderOffset stats.
Proof.
  intros size infolist. cbv zeta. unfold index3tz.gather.
  destruct (gather_fold infolist (index3tz.mkZipStatistics 0 0 0 0 size))
    as (_ & _ & H1 & H2 & H3 & Hall).
  cbn [index3tz.maxFileSize index3tz.maxCompFileSize index3tz.maxHeaderOffset] in H1, H2, H3.
  repeat split; try assumption; apply Hall; assumption.
Qed.

(** ** GLB files: the JSON part *)

(** The same exception at another result type. *)
Ltac same_error :=
  let E := fresh "E" in intros ? E; inversion E; reflexivity.

(** X15.  [getJsonFromBuffer] and [getChunksFromBuffer] read the same
    JSON part: the first returns what the second returns as its first
    part, and it fails only where the second fails in the same way. *)
Theorem glb_json_agrees_with_chunks :
  forall (buffer : bytes),
    (forall (json : string) (bin : option bytes),
        glbjson.getChunksFromBuffer buffer = Ok (json, bin) ->
        glbjson.getJsonFromBuffer buffer = Ok json)
    /\ (forall (e : exn),
           glbjson.getJsonFromBuffer buffer = Raise e ->
           glbjson.getChunksFromBuffer buffer = Raise e).
Proof.
  intros buffer. unfold glbjson.getChunksFromBuffer, glbjson.getJsonFromBuffer.
  destruct (Py.unpack_ints true 4 5 _) as [header | e0]; cbn [Py.bind];
    [| split; [ discriminate | same_error ] ].
  destruct (Py.index header 0) as [h0 | e0]; cbn [Py.bind];
    [| split; [ discriminate | same_error ] ].
  destruct (negb (h0 =? _)); [ split; [ discriminate | same_error ] |].
  destruct (Py.index header 1) as [h1 | e0]; cbn [Py.bind];
    [| split; [ discriminate | same_error ] ].
  destruct (negb (h1 =? _)); [ split; [ discriminate | same_error ] |].
  destruct (Py.index header 4) as [h4 | e0]; cbn [Py.bind];
    [| split; [ discriminate | same_error ] ].
  destruct (negb (h4 =? _)); [ split; [ discriminate | same_error ] |].
  destruct (Py.index header 3) as [h3 | e0]; cbn [Py.bind];
    [| split; [ discriminate | same_error ] ].
  destruct (h3 =? 0); [ split; [ discriminate | same_error ] |].
  destruct (Py.decode_utf8 _) as [jsondata | e0]; cbn [Py.bind];
    [| split; [ discriminate | same_error ] ].
  split; [| discriminate ].
  intros json bin.
  destruct (_ >? 8); [| intros H; inversion H; reflexivity ].
  destruct (Py.unpack_ints true 4 2 _) as [ch |]; cbn [Py.bind]; [| discriminate ].
  destruct (Py.index ch 1) as [c1 |]; cbn [Py.bind]; [| discriminate ].
  destruct (negb (c1 =? _)); [ discriminate |].
  destruct (Py.index ch 0) as [c0 |]; cbn [Py.bind]; [| discriminate ].
  intros H. inversion H. reflexivity.
Qed.

(** *** Reading the JSON part from a file *)

Lemma slice_nonneg {A} (l : list A) (a b : Z) :
  0 <= a -> 0 <= b ->
  Py.slice l a b = firstn (Z.to_nat (b - a)) (skipn (Z.to_nat a) l).
Proof.
  intros Ha Hb. unfold Py.slice, Py.clamp.
  destruct (Z.ltb_spec a 0); [ lia |]. destruct (Z.ltb_spec b 0); [ lia |].
  set (n := Z.of_nat (List.length l)).
  destruct (Z.le_gt_cases a n) as [Han | Han].
  - rewrite (Z.min_l a n) by lia.
    destruct (Z.le_gt_cases b n) as [Hbn | Hbn].
    + rewrite Z.min_l by lia. reflexivity.
    + rewrite Z.min_r by lia.
      rewrite !firstn_all2; try reflexivity; rewrite length_skipn; unfold n in *; lia.
  - rewrite (Z.min_r a n) by lia.
    rewrite (skipn_all2 (n := Z.to_nat a)) by (unfold n in *; lia).
    rewrite firstn_nil. unfold n. rewrite Nat2Z.id, skipn_all, firstn_nil. reflexivity.
Qed.

Lemma slice_firstn {A} (l : list A) (k : nat) (a b : Z) :
  0 <= a -> 0 <= b -> b <= Z.of_nat k ->
  Py.slice (firstn k l) a b = Py.slice l a b.
Proof.
  intros Ha Hb Hk. rewrite !slice_nonneg by assumption.
  rewrite skipn_firstn_comm, firstn_firstn. f_equal. lia.
Qed.

Lemma firstn_plus {A} (a b : nat) :
  forall l : list A, firstn (a + b) l = firstn a l ++ firstn b (skipn a l).
Proof.
  induction a as [| a IH]; intros l; [ reflexivity |].
  destruct l as [| x l]; [ cbn; rewrite firstn_nil; reflexivity |].
  cbn [Nat.add firstn skipn app]. rewrite IH. reflexivity.
Qed.

Lemma read_nonneg (c : bytes) (p n : Z) :
  0 <= p -> 0 <= n ->
  fst (archive3tz.read (archive3tz.mkfile c p) n)
  = firstn (Z.to_nat n) (Py.slice_from c p).
Proof.
  intros Hp Hn. unfold archive3tz.read. cbn [fst archive3tz.contents archive3tz.position].
  rewrite slice_nonneg, slice_from_in_range by lia. f_equal. lia.
Qed.

Lemma slice_from_length {A} (l : list A) (a : Z) :
  0 <= a -> Py.len (Py.slice_from l a) = Z.max 0 (Py.len l - a).
Proof.
  intros Ha. rewrite slice_from_in_range by exact Ha.
  unfold Py.len. rewrite length_skipn. lia.
Qed.

Lemma chunks_nth (size n : nat) :
  forall (data : bytes) (k : nat),
    (k < n)%nat ->
    nth k (Py.chunks size n data) [] = firstn size (skipn (k * size) data).
Proof.
  induction n as [| n IH]; intros data k Hk; [ lia |].
  cbn [Py.chunks]. destruct k as [| k]; [ reflexivity |].
  cbn [nth]. rewrite IH by lia. rewrite skipn_skipn. do 2 f_equal. lia.
Qed.

Lemma index_map {A B} (f : A -> B) (l : list A) (i : Z) (d : A) :
  0 <= i < Py.len l ->
  Py.index (map f l) i = Ok (f (nth (Z.to_nat i) l d)).
Proof.
  intros Hi. rewrite (index_nth _ i (f d)).
  - rewrite map_nth. reflexivity.
  - unfold Py.len in *. rewrite length_map. exact Hi.
Qed.

Lemma index_lt {A} (l : list A) (i : Z) (a : A) :
  Py.index l i = Ok a -> i < Py.len l.
Proof.
  unfold Py.index. fold (Py.len l). pose proof (len_nonneg l).
  destruct (Z.ltb_spec i 0); [ lia |].
  destruct (Z.ltb_spec i (Py.len l)); [ lia |].
  rewrite andb_false_r. discriminate.
Qed.

(** Word [k] of an unpacked buffer as its bytes give it. *)
Lemma unpack_ints_index (signed : bool) (size : nat) (count : Z) (data : bytes)
  (l : list Z) (k v : Z) :
  Py.unpack_ints signed size count data = Ok l ->
  Py.index l k = Ok v -> 0 <= k ->
  v = let u := le_combine (Py.slice data (k * Z.of_nat size) ((k + 1) * Z.of_nat size)) in
      if signed then Py.to_signed size u else u.
Proof.
  intros Hu Hi Hk. pose proof (unpack_ints_len _ _ _ _ _ Hu) as Hlen.
  unfold Py.unpack_ints in Hu. destruct (_ && _); [| discriminate ].
  inversion Hu. subst l. clear Hu.
  assert (Hkn : k < count) by (rewrite <- Hlen; exact (index_lt _ _ _ Hi)).
  rewrite (index_map _ _ k []) in Hi.
  2: { unfold Py.len. rewrite chunks_length. lia. }
  inversion Hi. subst v. clear Hi.
  rewrite chunks_nth by lia. cbv zeta.
  rewrite slice_nonneg by nia.
  replace (Z.to_nat ((k + 1) * Z.of_nat size - k * Z.of_nat size)) with size by nia.
  replace (Z.to_nat (k * Z.of_nat size)) with (Z.to_nat k * size)%nat by nia.
  reflexivity.
Qed.

(** The fourth header word as the bytes 12 to 16 give it. *)
Lemma header_word3 (data : bytes) (header : list Z) (h3 : Z) :
  Py.unpack_ints true 4 5 data = Ok header ->
  Py.index header 3 = Ok h3 ->
  h3 = Py.to_signed 4 (le_combine (Py.slice data 12 16)).
Proof.
  intros Hu Hi. exact (unpack_ints_index true 4 5 data header 3 h3 Hu Hi ltac:(lia)).
Qed.

(** X16.  [getJsonFromFile] returns what [getJsonFromBuffer] returns on
    the rest of the file, and fails as it does, when the length that the
    header gives for the JSON chunk is not negative or the rest of the
    file has at most 65535 bytes.  (A negative length counts from the
    end of the buffer, and the two buffers end at different places.) *)
Theorem glb_json_from_file :
  forall (f : archive3tz.file),
    0 <= archive3tz.position f ->
    (Py.len (Py.slice_from (archive3tz.contents f) (archive3tz.position f)) <= 65535
     \/ 0 <= Py.to_signed 4
               (le_combine
                  (Py.slice (Py.slice_from (archive3tz.contents f)
                               (archive3tz.position f)) 12 16))) ->
    Spec.returned (glbjson.getJsonFromFile f)
    = glbjson.getJsonFromBuffer
        (Py.slice_from (archive3tz.contents f) (archive3tz.position f)).
Proof.
  intros [c p]. cbn [archive3tz.contents archive3tz.position]. intros Hp Hcond.
  set (rest := Py.slice_from c p) in *.
  unfold glbjson.getJsonFromFile, glbjson.getJsonFromBuffer, Spec.returned.
  pose proof (read_nonneg c p 65535 Hp ltac:(lia)) as Hr1. fold rest in Hr1.
  destruct (archive3tz.read (archive3tz.mkfile c p) 65535) as [buffer1 f1] eqn:Er1.
  cbn [fst] in Hr1.
  assert (Hf1 : f1 = archive3tz.mkfile c (p + Py.len buffer1)).
  { unfold archive3tz.read in Er1. cbn [archive3tz.contents archive3tz.position] in Er1.
    inversion Er1. reflexivity. }
  assert (Hhead : Py.slice buffer1 0 20 = Py.slice rest 0 20).
  { rewrite Hr1. apply slice_firstn; lia. }
  rewrite Hhead.
  destruct (Py.unpack_ints true 4 5 (Py.slice rest 0 20)) as [header | e0] eqn:Eh;
    cbn [Py.bind]; [| reflexivity ].
  destruct (Py.index header 0) as [h0 | e0]; cbn [Py.bind]; [| reflexivity ].
  destruct (negb (h0 =? _)); [ reflexivity |].
  destruct (Py.index header 1) as [h1 | e0]; cbn [Py.bind]; [| reflexivity ].
  destruct (negb (h1 =? _)); [ reflexivity |].
  destruct (Py.index header 4) as [h4 | e0]; cbn [Py.bind]; [| reflexivity ].
  destruct (negb (h4 =? _)); [ reflexivity |].
  destruct (Py.index header 3) as [h3 | e0] eqn:E3; cbn [Py.bind]; [| reflexivity ].
  destruct (Z.eqb_spec h3 0) as [| Hnz]; [ reflexivity |].
  assert (Hrest20 : 20 <= Py.len rest).
  { unfold Py.unpack_ints in Eh.
    destruct (Z.eqb_spec (Py.len (Py.slice rest 0 20)) (5 * Z.of_nat 4)) as [Hl |];
      [| rewrite andb_false_r in Eh; discriminate ].
    pose proof (slice_len_le_list rest 0 20). lia. }
  pose proof (header_word3 _ _ _ Eh E3) as Hw.
  pose proof (slice_slice rest 0 20 12 16 ltac:(lia) ltac:(lia) ltac:(lia)
                ltac:(lia) ltac:(lia)) as Hss.
  cbn [Z.add] in Hss. rewrite Hss in Hw. rewrite <- Hw in Hcond. clear Hw Hss.
  assert (Hjson : forall buffer file',
            (if h3 >=? 65535 - 20
             then let '(more, file) := archive3tz.read f1 (h3 + 20 - 65535) in
                  (buffer1 ++ more, file)
             else (buffer1, f1)) = (buffer, file') ->
            Py.slice buffer 20 (20 + h3) = Py.slice rest 20 (20 + h3)).
  { intros buffer file'. destruct (Z.geb_spec h3 (65535 - 20)) as [Hbig | Hsmall].
    - subst f1.
      pose proof (read_nonneg c (p + Py.len buffer1) (h3 + 20 - 65535)
                    ltac:(pose proof (len_nonneg buffer1); lia) ltac:(lia)) as Hr2.
      destruct (archive3tz.read _ (h3 + 20 - 65535)) as [more f2]. cbn [fst] in Hr2.
      intros E. inversion E. subst buffer file'. clear E.
      assert (Hcat : buffer1 ++ more = firstn (Z.to_nat (h3 + 20)) rest).
      { rewrite Hr2, Hr1.
        assert (Hskip : Py.slice_from c (p + Py.len (firstn (Z.to_nat 65535) rest))
                        = skipn (Z.to_nat 65535) rest).
        { unfold rest. rewrite !slice_from_in_range
            by (try lia; pose proof (len_nonneg (firstn (Z.to_nat 65535) (Py.slice_from c p))); lia).
          rewrite skipn_skipn. unfold Py.len. rewrite length_firstn, length_skipn.
          destruct (Nat.le_gt_cases (Z.to_nat 65535) (List.length c - Z.to_nat p)).
          - f_equal. lia.
          - rewrite !skipn_all2; [ reflexivity | lia | lia ]. }
        rewrite Hskip.
        replace (Z.to_nat (h3 + 20)) with (Z.to_nat 65535 + Z.to_nat (h3 + 20 - 65535))%nat
          by lia.
        rewrite firstn_plus. reflexivity. }
      rewrite Hcat. apply slice_firstn; lia.
    - intros E. inversion E. subst buffer file'. clear E.
      destruct Hcond as [Hshort | Hpos].
      + rewrite Hr1, firstn_all2; [ reflexivity |]. unfold Py.len in Hshort. lia.
      + rewrite Hr1. apply slice_firstn; lia. }
  destruct (if h3 >=? 65535 - 20 then _ else _) as [buffer file'] eqn:Eb.
  rewrite (Hjson buffer file' eq_refl).
  destruct (Py.decode_utf8 _); reflexivity.
Qed.

(** The GLB with a BIN chunk, read from its start. *)
Lemma glb_json_from_file_witness :
  Spec.returned (glbjson.getJsonFromFile (archive3tz.mkfile Examples.glb_bin_chunk 0))
  = glbjson.getJsonFromBuffer
      (Py.slice_from Examples.glb_bin_chunk 0).
Proof.
  apply (glb_json_from_file (archive3tz.mkfile Examples.glb_bin_chunk 0)).
  - cbn. lia.
  - left. vm_compute. discriminate.
Defined.


(** ** Subtree files *)

Lemma unpack_iiQQ_inv (data : bytes) (h0 h1 h2 h3 : Z) :
  subtreejson.unpack_iiQQ data = Ok (h0, h1, h2, h3) ->
  Py.len data = 24
  /\ h2 = le_combine (Py.slice data 8 16) /\ 0 <= h2
  /\ h3 = le_combine (Py.slice data 16 24) /\ 0 <= h3.
Proof.
  unfold subtreejson.unpack_iiQQ.
  destruct (Z.eqb_spec (Py.len data) 24); [| discriminate ].
  intros H. inversion H. repeat split; try assumption; apply le_combine_bound.
Qed.

(** X17.  [getJsonFromBuffer] and [getChunksFromBuffer] of a subtree
    read the same JSON part: the first returns what the second returns
    as its first part, and it fails only where the second fails in the
    same way. *)
Theorem subtree_json_agrees_with_chunks :
  forall (buffer : bytes),
    (forall (json : option string) (bin : option bytes),
        subtreejson.getChunksFromBuffer buffer = Ok (json, bin) ->
        subtreejson.getJsonFromBuffer buffer = Ok json)
    /\ (forall (e : exn),
           subtreejson.getJsonFromBuffer buffer = Raise e ->
           subtreejson.getChunksFromBuffer buffer = Raise e).
Proof.
  intros buffer. unfold subtreejson.getChunksFromBuffer, subtreejson.getJsonFromBuffer.
  destruct (subtreejson.unpack_iiQQ _) as [[[[h0 h1] h2] h3] | e0]; cbn [Py.bind];
    [| split; [ discriminate | same_error ] ].
  destruct (negb (h0 =? _)); [ split; [ discriminate | same_error ] |].
  destruct (negb (h1 =? _)); [ split; [ discriminate | same_error ] |].
  destruct (h2 =? 0).
  { split; [| discriminate ]. intros json bin H. inversion H. reflexivity. }
  destruct (Py.decode_utf8 _) as [jsondata | e0]; cbn [Py.bind];
    [| split; [ discriminate | same_error ] ].
  split; [| discriminate ].
  intros json bin. destruct (h3 >? 0); [ destruct (negb _); [ discriminate |] |];
    intros H; inversion H; reflexivity.
Qed.

Lemma slice_prefix {A} (mid post : list A) (b : Z) :
  b = Py.len mid -> Py.slice (mid ++ post) 0 b = mid.
Proof.
  intros ->. apply (slice_mid [] mid post 0); reflexivity.
Qed.

Lemma split_three {A} (l : list A) (a b : nat) :
  l = firstn a l ++ firstn b (skipn a l) ++ skipn (a + b) l.
Proof.
  rewrite Nat.add_comm, <- skipn_skipn, firstn_skipn, firstn_skipn. reflexivity.
Qed.

(** X18.  When [getChunksFromBuffer] returns a JSON part and a binary
    part, the buffer is its 24-byte header, the UTF-8 encoding of the
    JSON part and the binary part, with nothing between or after them,
    and the header gives the lengths of the two parts. *)
Theorem subtree_chunks_partition :
  forall (buffer : bytes) (json : string) (bin : bytes),
    subtreejson.getChunksFromBuffer buffer = Ok (Some json, Some bin) ->
    buffer = Py.slice buffer 0 24 ++ Py.encode_utf8 json ++ bin
    /\ Py.len (Py.slice buffer 0 24) = 24
    /\ le_combine (Py.slice buffer 8 16) = Py.len (Py.encode_utf8 json)
    /\ le_combine (Py.slice buffer 16 24) = Py.len bin
    /\ 0 < Py.len bin.
Proof.
  intros buffer json bin. unfold subtreejson.getChunksFromBuffer.
  destruct (subtreejson.unpack_iiQQ _) as [[[[h0 h1] h2] h3] | e0] eqn:Eh;
    cbn [Py.bind]; [| discriminate ].
  apply unpack_iiQQ_inv in Eh. destruct Eh as (H24 & Hh2 & H2 & Hh3 & H3).
  destruct (negb (h0 =? _)); [ discriminate |].
  destruct (negb (h1 =? _)); [ discriminate |].
  destruct (Z.eqb_spec h2 0); [ discriminate |].
  destruct (Py.decode_utf8 _) as [jsondata | e0] eqn:Ed; cbn [Py.bind];
    [| discriminate ].
  destruct (Z.gtb_spec h3 0); [| discriminate ].
  destruct (Z.eqb_spec h3 (Py.len buffer - 24 - h2)) as [E3 |]; cbn [negb];
    [| discriminate ].
  intros Hr.
  assert (Hj : jsondata = json) by congruence.
  assert (Hb : Py.slice_from buffer (24 + h2) = bin) by congruence.
  clear Hr. subst jsondata bin.
  apply decode_inv in Ed. destruct Ed as [Ed _].
  assert (Hb24 : 24 <= Py.len buffer)
    by (pose proof (slice_len_le_list buffer 0 24); lia).
  pose proof (slice_slice buffer 0 24 8 16 ltac:(lia) ltac:(lia) ltac:(lia)
                ltac:(lia) ltac:(lia)) as S2.
  pose proof (slice_slice buffer 0 24 16 24 ltac:(lia) ltac:(lia) ltac:(lia)
                ltac:(lia) ltac:(lia)) as S3.
  cbn [Z.add] in S2, S3. rewrite S2 in Hh2. rewrite S3 in Hh3.
  rewrite Ed. rewrite slice_from_in_range by lia.
  rewrite (slice_in_range buffer 0 24), (slice_in_range buffer 24 (24 + h2)) by lia.
  assert (Hlj : Py.len (firstn (Z.to_nat (24 + h2 - 24)) (skipn (Z.to_nat 24) buffer)) = h2).
  { unfold Py.len in *. rewrite length_firstn, length_skipn. lia. }
  repeat split.
  - replace (Z.to_nat (24 + h2)) with (24 + Z.to_nat h2)%nat by lia.
    replace (Z.to_nat (24 + h2 - 24)) with (Z.to_nat h2) by lia.
    change (Z.to_nat (24 - 0)) with 24%nat. change (Z.to_nat 24) with 24%nat.
    change (Z.to_nat 0) with 0%nat. rewrite skipn_O.
    apply split_three.
  - unfold Py.len in *. rewrite length_firstn. cbn [skipn Z.to_nat]. lia.
  - rewrite Hlj. symmetry. exact Hh2.
  - unfold Py.len in *. rewrite length_skipn. lia.
  - unfold Py.len in *. rewrite length_skipn. lia.
Qed.

(** The subtree file of [{}] and two bytes. *)
Lemma subtree_chunks_partition_witness :
  Spec.subtree_file "{}" [x01; x02]
  = Py.slice (Spec.subtree_file "{}" [x01; x02]) 0 24
      ++ Py.encode_utf8 "{}" ++ [x01; x02]
  /\ Py.len (Py.slice (Spec.subtree_file "{}" [x01; x02]) 0 24) = 24
  /\ le_combine (Py.slice (Spec.subtree_file "{}" [x01; x02]) 8 16)
     = Py.len (Py.encode_utf8 "{}")
  /\ le_combine (Py.slice (Spec.subtree_file "{}" [x01; x02]) 16 24)
     = Py.len [x01; x02]
  /\ 0 < Py.len [x01; x02].
Proof.
  apply (subtree_chunks_partition (Spec.subtree_file "{}" [x01; x02])).
  vm_compute. reflexivity.
Defined.

(** X19.  A subtree file made of a non-empty JSON text and a binary part
    is read back: [getChunksFromBuffer] returns the JSON text and the
    binary part, or no binary part when that part is empty. *)
Theorem subtree_round_trip :
  forall (json : string) (bin : bytes),
    json <> ""%string ->
    Py.utf8_valid (Py.encode_utf8 json) = true ->
    Py.len (Py.encode_utf8 json) < 2 ^ 64 ->
    Py.len bin < 2 ^ 64 ->
    subtreejson.getChunksFromBuffer (Spec.subtree_file json bin)
    = Ok (Some json, match bin with [] => None | _ => Some bin end).
Proof.
  intros json bin Hne Hutf Hjl Hbl. unfold subtreejson.getChunksFromBuffer.
  set (js := Py.encode_utf8 json) in *.
  pose proof (len_nonneg js) as Hj0. pose proof (len_nonneg bin) as Hb0.
  assert (Hjpos : 0 < Py.len js).
  { destruct json as [| ch r]; [ congruence |]. unfold js, Py.len, Py.encode_utf8.
    rewrite length_list_byte_of_string. cbn [String.length]. lia. }
  set (hdr := le_split 4 0x74627573 ++ le_split 4 1
                ++ le_split 8 (Py.len js) ++ le_split 8 (Py.len bin)).
  assert (Hfile : Spec.subtree_file json bin = hdr ++ (js ++ bin)).
  { unfold Spec.subtree_file, hdr. fold js. rewrite <- !app_assoc. reflexivity. }
  assert (Hhl : Py.len hdr = 24).
  { unfold hdr. rewrite !len_app, !len_le_split. reflexivity. }
  assert (Hs : Py.slice (Spec.subtree_file json bin) 0 24 = hdr).
  { rewrite Hfile. apply slice_prefix. rewrite Hhl. reflexivity. }
  rewrite Hs.
  assert (Hu : subtreejson.unpack_iiQQ hdr = Ok (0x74627573, 1, Py.len js, Py.len bin)).
  { unfold subtreejson.unpack_iiQQ. rewrite Hhl. cbn [Z.eqb Pos.eqb].
    unfold hdr.
    rewrite (slice_prefix (le_split 4 0x74627573) _ 4) by reflexivity.
    rewrite (slice_mid (le_split 4 0x74627573) (le_split 4 1) _ 4 8) by reflexivity.
    rewrite (app_assoc (le_split 4 0x74627573) (le_split 4 1)).
    rewrite (slice_mid (le_split 4 0x74627573 ++ le_split 4 1)
               (le_split 8 (Py.len js)) _ 8 16)
      by (rewrite ?len_app, ?len_le_split; reflexivity).
    rewrite (app_assoc (le_split 4 0x74627573 ++ le_split 4 1)).
    rewrite <- (app_nil_r (le_split 8 (Py.len bin))) at 1.
    rewrite (slice_mid _ (le_split 8 (Py.len bin)) [] 16 24)
      by (rewrite ?len_app, ?len_le_split; reflexivity).
    rewrite !le_combine_split_small by (cbn; lia).
    reflexivity. }
  rewrite Hu. cbn [Py.bind Z.eqb Pos.eqb negb].
  destruct (Z.eqb_spec (Py.len js) 0); [ lia |].
  assert (Hsj : Py.slice (Spec.subtree_file json bin) 24 (24 + Py.len js) = js).
  { rewrite Hfile. apply slice_mid; [ rewrite Hhl; reflexivity | reflexivity ]. }
  rewrite Hsj. unfold js at 1. rewrite (decode_encode _ Hutf). cbn [Py.bind].
  destruct bin as [| b0 bin'].
  - reflexivity.
  - set (bin := b0 :: bin') in *.
    destruct (Z.gtb_spec (Py.len bin) 0);
      [| unfold bin, Py.len in *; cbn [List.length] in *; lia ].
    assert (Hl : Py.len (Spec.subtree_file json bin) = 24 + Py.len js + Py.len bin).
    { rewrite Hfile. rewrite !len_app, Hhl. lia. }
    rewrite Hl. destruct (Z.eqb_spec (Py.len bin) (24 + Py.len js + Py.len bin - 24 - Py.len js));
      [| lia ].
    cbn [negb]. do 3 f_equal.
    rewrite slice_from_in_range by lia. rewrite Hfile.
    rewrite app_assoc.
    replace (Z.to_nat (24 + Py.len js)) with (List.length (hdr ++ js))
      by (rewrite length_app; unfold Py.len in *; lia).
    apply skipn_exact.
Qed.

Lemma subtree_round_trip_witness :
  subtreejson.getChunksFromBuffer (Spec.subtree_file "{}" [x01; x02])
  = Ok (Some "{}"%string, Some [x01; x02]).
Proof.
  apply (subtree_round_trip "{}" [x01; x02]).
  - discriminate.
  - reflexivity.
  - vm_compute. reflexivity.
  - vm_compute. reflexivity.
Defined.

(** ** Images *)

Lemma le_combine_eqb (x y : bytes) :
  List.length x = List.length y ->
  (le_combine x =? le_combine y) = true <-> x = y.
Proof.
  intros Hl. rewrite Z.eqb_eq. split; [ apply le_combine_inj; exact Hl | congruence ].
Qed.

Lemma be_eqb (x y : bytes) :
  List.length x = List.length y -> (Spec.be x =? Spec.be y) = true <-> x = y.
Proof.
  intros Hl. unfold Spec.be. rewrite le_combine_eqb by (rewrite !length_rev; exact Hl).
  split; [| congruence ]. intros H. rewrite <- (rev_involutive x), H.
  apply rev_involutive.
Qed.

Lemma bool_eq_iff (a b : bool) : (a = true <-> b = true) -> a = b.
Proof.
  destruct a, b; intros [H1 H2]; try reflexivity.
  - symmetry. apply H1. reflexivity.
  - apply H2. reflexivity.
Qed.

(** Word [k] of a buffer unpacked big-endian. *)
Lemma unpack_be_index (size : nat) (count : Z) (data : bytes) (l : list Z) (k v : Z) :
  imgutils.unpack_be size count data = Ok l ->
  Py.index l k = Ok v -> 0 <= k ->
  v = Spec.be (Py.slice data (k * Z.of_nat size) ((k + 1) * Z.of_nat size)).
Proof.
  intros Hu Hi Hk. unfold imgutils.unpack_be in Hu.
  destruct (Z.leb_spec 0 count); [| discriminate ].
  destruct (_ =? _); [| discriminate ]. cbn [andb] in Hu.
  inversion Hu. subst l. clear Hu.
  assert (Hkn : k < count).
  { apply index_lt in Hi. unfold Py.len in Hi.
    rewrite length_map, chunks_length in Hi. lia. }
  rewrite (index_map _ _ k []) in Hi by (unfold Py.len; rewrite chunks_length; lia).
  inversion Hi. subst v. clear Hi.
  rewrite chunks_nth by lia. unfold Spec.be.
  rewrite slice_nonneg by nia.
  replace (Z.to_nat ((k + 1) * Z.of_nat size - k * Z.of_nat size)) with size by nia.
  replace (Z.to_nat (k * Z.of_nat size)) with (Z.to_nat k * size)%nat by nia.
  reflexivity.
Qed.

Lemma unpack_be_ok (size : nat) (count : Z) (data : bytes) :
  0 <= count -> Py.len data = count * Z.of_nat size ->
  exists l, imgutils.unpack_be size count data = Ok l /\ Py.len l = count.
Proof.
  intros Hc Hl. unfold imgutils.unpack_be.
  destruct (Z.leb_spec 0 count); [| lia ]. rewrite Hl, Z.eqb_refl. cbn [andb].
  eexists. split; [ reflexivity |]. unfold Py.len.
  rewrite length_map, chunks_length. lia.
Qed.

Lemma index_ok {A} (l : list A) (i : Z) :
  0 <= i < Py.len l -> exists a, Py.index l i = Ok a.
Proof.
  intros Hi. destruct l as [| d l']; [ unfold Py.len in Hi; cbn in Hi; lia |].
  exists (nth (Z.to_nat i) (d :: l') d). apply index_nth. exact Hi.
Qed.

Lemma starts_with_slice (needle hay : bytes) :
  Py.starts_with needle hay = true <-> Py.slice hay 0 (Py.len needle) = needle.
Proof.
  rewrite starts_with_firstn, slice_nonneg by (try lia; apply len_nonneg).
  cbn [Z.to_nat skipn]. rewrite Z.sub_0_r. unfold Py.len. rewrite Nat2Z.id.
  reflexivity.
Qed.

Lemma slice_split {A} (l : list A) (a b c : Z) :
  0 <= a -> a <= b -> b <= c -> c <= Py.len l ->
  Py.slice l a c = Py.slice l a b ++ Py.slice l b c.
Proof.
  intros Ha Hab Hbc Hc. rewrite !slice_nonneg by lia.
  replace (Z.to_nat (c - a)) with (Z.to_nat (b - a) + Z.to_nat (c - b))%nat by lia.
  rewrite firstn_plus, skipn_skipn. do 3 f_equal. lia.
Qed.

Lemma app_eq_len {A} (x1 x2 y1 y2 : list A) :
  List.length x1 = List.length y1 ->
  x1 ++ x2 = y1 ++ y2 <-> x1 = y1 /\ x2 = y2.
Proof.
  intros Hl. split; [| intros [-> ->]; reflexivity ].
  revert y1 Hl. induction x1 as [| a x1 IH]; intros [| b y1] Hl H;
    cbn in Hl; try discriminate.
  - split; [ reflexivity | exact H ].
  - cbn in H. injection H as -> H. apply IH in H; [| congruence ].
    destruct H as [-> ->]. split; reflexivity.
Qed.

Lemma slice_slice0 {A} (l : list A) (n x y : Z) :
  0 <= x -> x <= y -> y <= n -> n <= Py.len l ->
  Py.slice (Py.slice l 0 n) x y = Py.slice l x y.
Proof.
  intros Hx Hxy Hy Hn.
  pose proof (slice_slice l 0 n x y ltac:(lia) Hx Hxy Hy ltac:(lia)) as H.
  exact H.
Qed.

(** X20.  [sniffImageMimeType] never raises: it returns ['image/png']
    exactly for the buffers that start with the eight bytes of the PNG
    signature, ['image/jpeg'] exactly for the other buffers of at least
    eight bytes that start with FF D8 FF E0, and [None] for every other
    buffer. *)
Theorem sniff_by_signature (buffer : bytes) :
  imgutils.sniffImageMimeType buffer =
  Ok (if Py.starts_with Spec.PNG_SIGNATURE buffer then Some "image/png"%string
      else if (8 <=? Py.len buffer) && Py.starts_with Spec.JFIF_START buffer
           then Some "image/jpeg"%string
           else None).
Proof.
  unfold imgutils.sniffImageMimeType.
  destruct (Z.ltb_spec (Py.len buffer) 8) as [Hs | Hl].
  - destruct (Py.starts_with Spec.PNG_SIGNATURE buffer) eqn:Ep.
    + apply starts_with_firstn in Ep.
      apply (f_equal (@List.length byte)) in Ep. rewrite length_firstn in Ep.
      change (List.length Spec.PNG_SIGNATURE) with 8%nat in Ep.
      unfold Py.len in Hs. lia.
    + destruct (Z.leb_spec 8 (Py.len buffer)); [ lia | reflexivity ].
  - destruct (Z.leb_spec 8 (Py.len buffer)); [| lia ]. cbn [andb].
    destruct (unpack_ints_ok false 4 2 (Py.slice buffer 0 8)) as (magic & Hm & Hlen);
      [ lia | rewrite slice_len by lia; reflexivity |].
    rewrite Hm. cbn [Py.bind].
    destruct (index_ok magic 0) as (m0 & H0); [ lia |].
    destruct (index_ok magic 1) as (m1 & H1); [ lia |].
    rewrite H0, H1. cbn [Py.bind].
    pose proof (unpack_ints_index _ _ _ _ _ _ _ Hm H0 ltac:(lia)) as E0.
    pose proof (unpack_ints_index _ _ _ _ _ _ _ Hm H1 ltac:(lia)) as E1.
    cbv zeta in E0, E1.
    change (0 * Z.of_nat 4) with 0 in E0. change ((0 + 1) * Z.of_nat 4) with 4 in E0.
    change (1 * Z.of_nat 4) with 4 in E1. change ((1 + 1) * Z.of_nat 4) with 8 in E1.
    rewrite slice_slice0 in E0, E1 by lia.
    assert (P0 : (m0 =? 0x474e5089) = true <->
                 Py.slice buffer 0 4 = [x89; x50; x4e; x47]%byte).
    { rewrite E0. change 0x474e5089 with (le_combine [x89; x50; x4e; x47]%byte).
      apply le_combine_eqb. apply Nat2Z.inj. fold (Py.len (Py.slice buffer 0 4)).
      rewrite slice_len by lia. reflexivity. }
    assert (P1 : (m1 =? 0xa1a0a0d) = true <->
                 Py.slice buffer 4 8 = [x0d; x0a; x1a; x0a]%byte).
    { rewrite E1. change 0xa1a0a0d with (le_combine [x0d; x0a; x1a; x0a]%byte).
      apply le_combine_eqb. apply Nat2Z.inj. fold (Py.len (Py.slice buffer 4 8)).
      rewrite slice_len by lia. reflexivity. }
    assert (PJ : (m0 =? 0xe0ffd8ff) = true <->
                 Py.slice buffer 0 4 = [xff; xd8; xff; xe0]%byte).
    { rewrite E0. change 0xe0ffd8ff with (le_combine [xff; xd8; xff; xe0]%byte).
      apply le_combine_eqb. apply Nat2Z.inj. fold (Py.len (Py.slice buffer 0 4)).
      rewrite slice_len by lia. reflexivity. }
    assert (Epng : (m0 =? 0x474e5089) && (m1 =? 0xa1a0a0d) =
                   Py.starts_with Spec.PNG_SIGNATURE buffer).
    { apply bool_eq_iff. rewrite andb_true_iff, P0, P1, starts_with_slice.
      change (Py.len Spec.PNG_SIGNATURE) with 8.
      rewrite (slice_split buffer 0 4 8) by lia.
      change Spec.PNG_SIGNATURE with ([x89; x50; x4e; x47] ++ [x0d; x0a; x1a; x0a])%byte.
      symmetry. apply app_eq_len. apply Nat2Z.inj. fold (Py.len (Py.slice buffer 0 4)).
      rewrite slice_len by lia. reflexivity. }
    assert (Ejpg : (m0 =? 0xe0ffd8ff) = Py.starts_with Spec.JFIF_START buffer).
    { apply bool_eq_iff. rewrite PJ, starts_with_slice. reflexivity. }
    rewrite Epng, Ejpg.
    destruct (Py.starts_with Spec.PNG_SIGNATURE buffer); [ reflexivity |].
    destruct (Py.starts_with Spec.JFIF_START buffer); reflexivity.
Qed.

(** Where the JPEG loop of [getImageStats] finds a frame header, the loop
    of [getImageDims] finds the same two fields. *)
Lemma dims_jpeg_of_stats (buffer : bytes) :
  forall (fuel : nat) (i : Z) (s : imgutils.ImageStats),
    imgutils.stats_jpeg fuel buffer i = Ok (Some s) ->
    imgutils.dims_jpeg fuel buffer i = Ok (imgutils.width s, imgutils.height s).
Proof.
  induction fuel as [| k IH]; intros i s; cbn [imgutils.stats_jpeg imgutils.dims_jpeg].
  - destruct (i <? Py.len buffer); discriminate.
  - destruct (i <? Py.len buffer); [| discriminate ].
    destruct (imgutils.skip_ff (Py.slice_from buffer i) i) as [j | e];
      cbn [Py.bind]; [| discriminate ].
    destruct (imgutils.byte_at buffer j) as [c | e]; cbn [Py.bind]; [| discriminate ].
    destruct (c =? 216); [ apply IH |].
    destruct (c =? 217); [ discriminate |].
    destruct ((c >? 208) && (c <=? 215)); [ apply IH |].
    destruct (c =? 1); [ apply IH |].
    destruct (j + 1 + 2 <? Py.len buffer); [| discriminate ].
    destruct (imgutils.unpack_be 2 1 (Py.slice buffer (j + 1) (j + 1 + 2))) as [l | e];
      cbn [Py.bind]; [| discriminate ].
    destruct (Py.index l 0) as [n | e]; cbn [Py.bind]; [| discriminate ].
    destruct (c =? 192); [| apply IH ].
    destruct (Z.ltb_spec (j + 1 + 2 + 6) (Py.len buffer)); [| discriminate ].
    destruct (Z.ltb_spec (j + 1 + 2 + 1 + 4) (Py.len buffer)); [| lia ].
    destruct (imgutils.byte_at buffer (j + 1 + 2)) as [p | e];
      cbn [Py.bind]; [| discriminate ].
    destruct (imgutils.unpack_be 2 2 _) as [wh | e]; cbn [Py.bind]; [| discriminate ].
    destruct (Py.index wh 0) as [w | e]; cbn [Py.bind]; [| discriminate ].
    destruct (Py.index wh 1) as [h | e]; cbn [Py.bind]; [| discriminate ].
    destruct (imgutils.byte_at buffer _) as [ch | e]; cbn [Py.bind]; [| discriminate ].
    intros E. inversion E. reflexivity.
Qed.

(** X21.  Whenever [getImageStats] returns, [getImageDims] returns too
    on the same buffer and mimetype, and gives the width and the height
    of the statistics. *)
Theorem stats_and_dims_agree (buffer : bytes) (mimetype : option string)
  (s : imgutils.ImageStats) :
  imgutils.getImageStats buffer mimetype = Ok s ->
  imgutils.getImageDims buffer mimetype = Ok (imgutils.width s, imgutils.height s).
Proof.
  unfold imgutils.getImageStats, imgutils.getImageDims.
  destruct mimetype as [m |]; [| discriminate ].
  destruct (String.eqb m "image/png").
  - destruct (Py.len buffer <? 33); [ discriminate |].
    destruct (imgutils.unpack_be 4 2 (Py.slice buffer 8 16)) as [ihdr | e];
      cbn [Py.bind]; [| discriminate ].
    destruct (Py.index ihdr 0) as [i0 | e]; cbn [Py.bind]; [| discriminate ].
    destruct (negb (i0 =? 13)); [ discriminate |].
    destruct (Py.index ihdr 1) as [i1 | e]; cbn [Py.bind]; [| discriminate ].
    destruct (negb (i1 =? 1229472850)); [ discriminate |].
    destruct (imgutils.unpack_be 4 2 (Py.slice buffer 16 24)) as [wh | e];
      cbn [Py.bind]; [| discriminate ].
    destruct (Py.index wh 0) as [w | e]; cbn [Py.bind]; [| discriminate ].
    destruct (Py.index wh 1) as [h | e]; cbn [Py.bind]; [| discriminate ].
    destruct (imgutils.byte_at buffer 24) as [b | e]; cbn [Py.bind]; [| discriminate ].
    destruct (imgutils.byte_at buffer 25) as [c | e]; cbn [Py.bind]; [| discriminate ].
    repeat match goal with
           | |- context [if ?c =? ?k then _ else _] => destruct (c =? k)
           end;
      intros E; inversion E; reflexivity.
  - destruct (String.eqb m "image/jpeg"); [| discriminate ].
    destruct (imgutils.stats_jpeg _ buffer 0) as [[s' |] | e] eqn:Es;
      cbn [Py.bind]; try discriminate.
    intros E. inversion E. subst s'. apply dims_jpeg_of_stats. exact Es.
Qed.

Lemma stats_and_dims_agree_witness :
  imgutils.getImageStats Examples.png_640x480 (Some "image/png"%string)
    = Ok (imgutils.mkImageStats 640 480 8 4 32)
  /\ imgutils.getImageDims Examples.png_640x480 (Some "image/png"%string)
    = Ok (640, 480).
Proof.
  split; [ reflexivity |].
  exact (stats_and_dims_agree Examples.png_640x480 (Some "image/png"%string)
           (imgutils.mkImageStats 640 480 8 4 32) eq_refl).
Defined.

(** X22.  For a file extension other than [.png] and [.jpg], [.ktx2]
    included, [getImageStats] on the content type of the extension
    raises [UnboundLocalError], since [bpp] is never assigned, while
    [getImageDims] returns [0, 0]. *)
Theorem stats_of_other_extension (buffer : bytes) (ext : string) :
  ext <> ".png"%string -> ext <> ".jpg"%string ->
  imgutils.getImageStats buffer (imgutils.contentTypeFromFileExtension ext)
    = Raise UnboundLocalError
  /\ imgutils.getImageDims buffer (imgutils.contentTypeFromFileExtension ext)
    = Ok (0, 0).
Proof.
  intros Hp Hj. unfold imgutils.contentTypeFromFileExtension.
  destruct (String.eqb_spec ext ".png"); [ contradiction |].
  destruct (String.eqb_spec ext ".jpg"); [ contradiction |].
  destruct (String.eqb ext ".ktx2"); split; reflexivity.
Qed.

Lemma stats_of_other_extension_witness :
  imgutils.contentTypeFromFileExtension ".ktx2" = Some "image/ktx2"%string
  /\ imgutils.getImageStats Examples.png_640x480
       (imgutils.contentTypeFromFileExtension ".ktx2") = Raise UnboundLocalError
  /\ imgutils.getImageDims Examples.png_640x480
       (imgutils.contentTypeFromFileExtension ".ktx2") = Ok (0, 0).
Proof.
  split; [ reflexivity |].
  apply (stats_of_other_extension Examples.png_640x480 ".ktx2"); discriminate.
Defined.

(** X23.  For a buffer of at least 33 bytes and the mimetype
    ['image/png'], [getImageDims] depends on the bytes 8 to 24 only:
    when the bytes 8 to 16 are the length 13 and the type [IHDR] it
    returns the big-endian values of the bytes 16 to 20 and 20 to 24,
    otherwise it raises an [Exception].  The eight signature bytes are
    not examined. *)
Theorem png_dims (buffer : bytes) :
  33 <= Py.len buffer ->
  (Py.slice buffer 8 16 = Spec.IHDR_HEAD ->
   imgutils.getImageDims buffer (Some "image/png"%string)
     = Ok (Spec.be (Py.slice buffer 16 20), Spec.be (Py.slice buffer 20 24)))
  /\ (Py.slice buffer 8 16 <> Spec.IHDR_HEAD ->
      exists msg, imgutils.getImageDims buffer (Some "image/png"%string)
                    = Raise (Exception msg)).
Proof.
  intros Hlen. unfold imgutils.getImageDims. cbn [String.eqb Ascii.eqb Bool.eqb].
  destruct (Z.ltb_spec (Py.len buffer) 33); [ lia |].
  destruct (unpack_be_ok 4 2 (Py.slice buffer 8 16)) as (ihdr & Hi & Li);
    [ lia | rewrite slice_len by lia; reflexivity |].
  destruct (unpack_be_ok 4 2 (Py.slice buffer 16 24)) as (wh & Hw & Lw);
    [ lia | rewrite slice_len by lia; reflexivity |].
  rewrite Hi, Hw. cbn [Py.bind].
  destruct (index_ok ihdr 0) as (i0 & H0); [ lia |].
  destruct (index_ok ihdr 1) as (i1 & H1); [ lia |].
  destruct (index_ok wh 0) as (w & W0); [ lia |].
  destruct (index_ok wh 1) as (h & W1); [ lia |].
  rewrite H0, H1, W0, W1. cbn [Py.bind].
  pose proof (unpack_be_index _ _ _ _ _ _ Hi H0 ltac:(lia)) as E0.
  pose proof (unpack_be_index _ _ _ _ _ _ Hi H1 ltac:(lia)) as E1.
  pose proof (unpack_be_index _ _ _ _ _ _ Hw W0 ltac:(lia)) as F0.
  pose proof (unpack_be_index _ _ _ _ _ _ Hw W1 ltac:(lia)) as F1.
  change (0 * Z.of_nat 4) with 0 in E0, F0.
  change ((0 + 1) * Z.of_nat 4) with 4 in E0, F0.
  change (1 * Z.of_nat 4) with 4 in E1, F1.
  change ((1 + 1) * Z.of_nat 4) with 8 in E1, F1.
  change 16 with (8 + 8) in E0, E1. change 24 with (16 + 8) in F0, F1.
  rewrite slice_slice in E0, E1, F0, F1 by lia.
  cbn [Z.add Pos.add Pos.succ] in E0, E1, F0, F1.
  assert (P0 : (i0 =? 13) = true <-> Py.slice buffer 8 12 = [x00; x00; x00; x0d]%byte).
  { rewrite E0. change 13 with (Spec.be [x00; x00; x00; x0d]%byte).
    apply be_eqb. apply Nat2Z.inj. fold (Py.len (Py.slice buffer 8 12)).
    rewrite slice_len by lia. reflexivity. }
  assert (P1 : (i1 =? 0x49484452) = true <->
               Py.slice buffer 12 16 = [x49; x48; x44; x52]%byte).
  { rewrite E1. change 0x49484452 with (Spec.be [x49; x48; x44; x52]%byte).
    apply be_eqb. apply Nat2Z.inj. fold (Py.len (Py.slice buffer 12 16)).
    rewrite slice_len by lia. reflexivity. }
  assert (PH : Py.slice buffer 8 16 = Spec.IHDR_HEAD <->
               Py.slice buffer 8 12 = [x00; x00; x00; x0d]%byte
               /\ Py.slice buffer 12 16 = [x49; x48; x44; x52]%byte).
  { rewrite (slice_split buffer 8 12 16) by lia.
    change Spec.IHDR_HEAD with ([x00; x00; x00; x0d] ++ [x49; x48; x44; x52])%byte.
    apply app_eq_len. apply Nat2Z.inj. fold (Py.len (Py.slice buffer 8 12)).
    rewrite slice_len by lia. reflexivity. }
  split.
  - intros Hh. apply PH in Hh. destruct Hh as [A B].
    apply P0 in A. apply P1 in B. rewrite A, B. cbn [negb]. subst w h. reflexivity.
  - intros Hh. destruct (i0 =? 13) eqn:A; cbn [negb]; [| eexists; reflexivity ].
    destruct (i1 =? 1229472850) eqn:B; cbn [negb]; [| eexists; reflexivity ].
    exfalso. apply Hh, PH. split; [ apply P0 | apply P1 ]; first [ assumption | reflexivity ].
Qed.

Lemma png_dims_witness :
  Py.slice Examples.png_640x480 8 16 = Spec.IHDR_HEAD
  /\ imgutils.getImageDims Examples.png_640x480 (Some "image/png"%string) = Ok (640, 480)
  /\ exists msg,
       imgutils.getImageDims (repeat x00 33) (Some "image/png"%string)
         = Raise (Exception msg).
Proof.
  split; [ reflexivity |]. split.
  - exact (proj1 (png_dims Examples.png_640x480 ltac:(vm_compute; discriminate)) eq_refl).
  - apply (proj2 (png_dims (repeat x00 33) ltac:(vm_compute; discriminate))).
    vm_compute. discriminate.
Defined.

Lemma slice_from_app {A} (pre rest : list A) (i : Z) :
  i = Py.len pre -> Py.slice_from (pre ++ rest) i = rest.
Proof.
  intros ->. rewrite slice_from_in_range by apply len_nonneg.
  unfold Py.len. rewrite Nat2Z.id. apply skipn_exact.
Qed.

Lemma byte_at_app (pre post : bytes) (b : byte) (i : Z) :
  i = Py.len pre -> imgutils.byte_at (pre ++ b :: post) i = Ok (Byte.byte.unsigned b).
Proof.
  intros ->. unfold imgutils.byte_at.
  rewrite (index_nth _ _ b)
    by (rewrite len_app; pose proof (len_nonneg pre); unfold Py.len; cbn [List.length]; lia).
  unfold Py.len. rewrite Nat2Z.id, nth_middle. reflexivity.
Qed.

Lemma be_rev_le_split (n : nat) (v : Z) :
  0 <= v < 2 ^ (Z.of_nat n * 8) -> le_combine (rev (rev (le_split n v))) = v.
Proof.
  intros Hv. rewrite rev_involutive, le_combine_split. apply Z.mod_small. exact Hv.
Qed.

Lemma unpack_be_one (v : Z) (data : bytes) :
  data = rev (le_split 2 v) -> 0 <= v < 2 ^ 16 -> imgutils.unpack_be 2 1 data = Ok [v].
Proof.
  intros -> Hv. unfold imgutils.unpack_be.
  change (Z.to_nat 1) with 1%nat. cbn [Py.chunks map]. rewrite firstn_all2 by (rewrite length_rev, length_le_split; lia).
  rewrite be_rev_le_split by exact Hv.
  unfold Py.len. rewrite length_rev, length_le_split. reflexivity.
Qed.

Lemma unpack_be_two (v w : Z) (data : bytes) :
  data = rev (le_split 2 v) ++ rev (le_split 2 w) ->
  0 <= v < 2 ^ 16 -> 0 <= w < 2 ^ 16 -> imgutils.unpack_be 2 2 data = Ok [v; w].
Proof.
  intros -> Hv Hw. unfold imgutils.unpack_be.
  change (Z.to_nat 2) with 2%nat. cbn [Py.chunks map].
  assert (L : forall z, List.length (rev (le_split 2 z)) = 2%nat)
    by (intros z; rewrite length_rev, length_le_split; reflexivity).
  assert (F : firstn 2 (rev (le_split 2 v) ++ rev (le_split 2 w)) = rev (le_split 2 v))
    by (rewrite <- (L v) at 1; apply firstn_exact).
  assert (S : skipn 2 (rev (le_split 2 v) ++ rev (le_split 2 w)) = rev (le_split 2 w))
    by (rewrite <- (L v) at 1; apply skipn_exact).
  rewrite F, S. rewrite firstn_all2 by (rewrite L; lia).
  rewrite !be_rev_le_split by assumption.
  unfold Py.len. rewrite length_app, !L. reflexivity.
Qed.

Lemma length_encode_segment (s : Spec.segment) :
  Py.len (Spec.encode_segment s) = 4 + Py.len (snd s).
Proof.
  unfold Spec.encode_segment, Py.len.
  rewrite !length_app, length_rev, !length_le_split. cbn [List.length]. lia.
Qed.

Lemma segments_length (segs : list Spec.segment) :
  Z.of_nat (List.length segs) <= Py.len (flat_map Spec.encode_segment segs).
Proof.
  induction segs as [| s segs IH]; cbn [flat_map List.length]; [ unfold Py.len; cbn; lia |].
  rewrite len_app, length_encode_segment. pose proof (len_nonneg (snd s)). lia.
Qed.

Lemma unsigned_marker (m : Z) : 0 <= m < 256 -> Byte.byte.unsigned (Byte.byte.of_Z m) = m.
Proof.
  intros Hm. rewrite Byte.byte.unsigned_of_Z. unfold Byte.byte.wrap.
  apply Z.mod_small. exact Hm.
Qed.

(** One round of the loop over a segment with a length field. *)
Lemma dims_jpeg_skip_segment (k : nat) (pre tail : bytes) (s : Spec.segment) :
  Spec.segment_ok s -> 0 < Py.len tail ->
  imgutils.dims_jpeg (S k) (pre ++ Spec.encode_segment s ++ tail) (Py.len pre)
  = imgutils.dims_jpeg k (pre ++ Spec.encode_segment s ++ tail)
      (Py.len pre + Py.len (Spec.encode_segment s)).
Proof.
  intros [Hm Hl] Ht. destruct s as [m payload]. cbn [fst snd] in Hm, Hl.
  destruct Hm as (Hr & H1 & H2 & H3 & H4 & H5).
  pose proof (len_nonneg pre) as Hp. pose proof (len_nonneg payload) as Hq.
  rewrite length_encode_segment. cbn [snd].
  set (buffer := pre ++ Spec.encode_segment (m, payload) ++ tail).
  assert (Lb : Py.len buffer = Py.len pre + 4 + Py.len payload + Py.len tail).
  { unfold buffer. rewrite !len_app, length_encode_segment. cbn [snd]. lia. }
  set (L := Py.len payload + 2).
  assert (Eb : buffer = pre ++ [xff; Byte.byte.of_Z m]%byte ++ rev (le_split 2 L) ++ payload ++ tail).
  { unfold buffer, Spec.encode_segment. cbn [fst snd le_split app].
    rewrite <- !app_assoc. reflexivity. }
  cbn [imgutils.dims_jpeg].
  destruct (Z.ltb_spec (Py.len pre) (Py.len buffer)); [| lia ].
  assert (Es : imgutils.skip_ff (Py.slice_from buffer (Py.len pre)) (Py.len pre)
               = Ok (Py.len pre + 1)).
  { rewrite Eb, slice_from_app by reflexivity. cbn [app imgutils.skip_ff].
    change (Byte.byte.unsigned xff =? 255) with true. cbv iota.
    rewrite unsigned_marker by lia.
    destruct (Z.eqb_spec m 255); [ lia | reflexivity ]. }
  rewrite Es. cbn [Py.bind].
  assert (Ec : imgutils.byte_at buffer (Py.len pre + 1) = Ok m).
  { rewrite Eb. change (pre ++ [xff; Byte.byte.of_Z m]%byte ++ ?t)
      with (pre ++ [xff]%byte ++ Byte.byte.of_Z m :: t).
    rewrite app_assoc, byte_at_app
      by (rewrite len_app; reflexivity).
    rewrite unsigned_marker by lia. reflexivity. }
  rewrite Ec. cbn [Py.bind].
  destruct (Z.eqb_spec m 216); [ lia |].
  destruct (Z.eqb_spec m 217); [ lia |].
  rewrite Z.gtb_ltb.
  destruct (Z.ltb_spec 208 m); destruct (Z.leb_spec m 215); try lia; cbn [andb].
  all: destruct (Z.eqb_spec m 1); [ lia |].
  all: destruct (Z.ltb_spec (Py.len pre + 1 + 1 + 2) (Py.len buffer)); [| lia ].
  all: assert (El : imgutils.unpack_be 2 1
                 (Py.slice buffer (Py.len pre + 1 + 1) (Py.len pre + 1 + 1 + 2)) = Ok [L])
    by (apply unpack_be_one; [| unfold L; lia ];
        rewrite Eb, (app_assoc pre);
        apply slice_mid;
          [ rewrite len_app; unfold Py.len; cbn [List.length]; lia
          | unfold Py.len; rewrite length_rev, length_le_split; lia ]).
  all: rewrite El; cbn [Py.bind].
  all: rewrite (index_nth [L] 0 0) by (unfold Py.len; cbn [List.length]; lia).
  all: cbn [Z.to_nat nth Py.bind].
  all: destruct (Z.eqb_spec m 192); [ lia |].
  all: f_equal; unfold L; lia.
Qed.

Section Frame.

Variables (length precision y x : Z) (rest : bytes).
Hypothesis Hy : 0 <= y < 2 ^ 16.
Hypothesis Hx : 0 <= x < 2 ^ 16.
Hypothesis Hrest : 0 < Py.len rest.

Lemma length_frame_header :
  Py.len (Spec.frame_header length precision y x rest) = 9 + Py.len rest.
Proof.
  unfold Spec.frame_header, Py.len.
  rewrite !length_app, !length_rev, !length_le_split. cbn [List.length]. lia.
Qed.

(** The round of the loop that meets the frame header. *)
Lemma dims_jpeg_frame (k : nat) (pre : bytes) :
  imgutils.dims_jpeg (S k) (pre ++ Spec.frame_header length precision y x rest) (Py.len pre)
  = Ok (y, x).
Proof.
  pose proof (len_nonneg pre) as Hp.
  set (buffer := pre ++ (Spec.frame_header length precision y x rest)).
  assert (Lb : Py.len buffer = Py.len pre + 9 + Py.len rest)
    by (unfold buffer; rewrite len_app, length_frame_header; lia).
  assert (Eb : buffer = pre ++ [xff; xc0]%byte ++ rev (le_split 2 length)
                 ++ le_split 1 precision
                 ++ (rev (le_split 2 y) ++ rev (le_split 2 x)) ++ rest).
  { unfold buffer, Spec.frame_header. rewrite <- !app_assoc. reflexivity. }
  assert (L2 : forall z, Py.len (rev (le_split 2 z)) = 2)
    by (intros z; unfold Py.len; rewrite length_rev, length_le_split; reflexivity).
  cbn [imgutils.dims_jpeg].
  destruct (Z.ltb_spec (Py.len pre) (Py.len buffer)); [| lia ].
  assert (Es : imgutils.skip_ff (Py.slice_from buffer (Py.len pre)) (Py.len pre)
               = Ok (Py.len pre + 1)).
  { rewrite Eb, slice_from_app by reflexivity. reflexivity. }
  rewrite Es. cbn [Py.bind].
  assert (Ec : imgutils.byte_at buffer (Py.len pre + 1) = Ok 192).
  { rewrite Eb. change (pre ++ [xff; xc0]%byte ++ ?t) with (pre ++ [xff]%byte ++ xc0 :: t).
    rewrite app_assoc, byte_at_app by (rewrite len_app; reflexivity). reflexivity. }
  rewrite Ec. cbn [Py.bind].
  change (192 =? 216) with false. change (192 =? 217) with false.
  change ((192 >? 208) && (192 <=? 215)) with false.
  change (192 =? 1) with false. change (192 =? 192) with true. cbv iota.
  destruct (Z.ltb_spec (Py.len pre + 1 + 1 + 2) (Py.len buffer)); [| lia ].
  destruct (unpack_be_ok 2 1
              (Py.slice buffer (Py.len pre + 1 + 1) (Py.len pre + 1 + 1 + 2)))
    as (l & El & Ll); [ lia | rewrite slice_len by lia; lia |].
  rewrite El. cbn [Py.bind].
  destruct (index_ok l 0) as (n & En); [ lia |]. rewrite En. cbn [Py.bind].
  destruct (Z.ltb_spec (Py.len pre + 1 + 1 + 2 + 1 + 4) (Py.len buffer)); [| lia ].
  assert (Ew : imgutils.unpack_be 2 2
                 (Py.slice buffer (Py.len pre + 1 + 1 + 2 + 1) (Py.len pre + 1 + 1 + 2 + 1 + 4))
               = Ok [y; x]).
  { apply unpack_be_two; [| assumption | assumption ].
    rewrite Eb, (app_assoc pre), (app_assoc (pre ++ _)), (app_assoc ((pre ++ _) ++ _)).
    apply slice_mid.
    - rewrite !len_app, L2. unfold Py.len. rewrite length_le_split.
      cbn [List.length]. lia.
    - rewrite len_app, !L2. lia. }
  rewrite Ew. cbn [Py.bind].
  rewrite (index_nth [y; x] 0 0), (index_nth [y; x] 1 0)
    by (unfold Py.len; cbn [List.length]; lia).
  reflexivity.
Qed.

Lemma dims_jpeg_segments (segs : list Spec.segment) :
  Forall Spec.segment_ok segs ->
  forall (pre : bytes) (fuel : nat),
    (List.length segs < fuel)%nat ->
    imgutils.dims_jpeg fuel
      (pre ++ flat_map Spec.encode_segment segs ++ Spec.frame_header length precision y x rest)
      (Py.len pre)
    = Ok (y, x).
Proof.
  induction 1 as [| s segs Hs Hsegs IH]; intros pre fuel Hf;
    (destruct fuel as [| k]; [ lia |]); cbn [flat_map].
  - apply dims_jpeg_frame.
  - rewrite <- app_assoc. rewrite dims_jpeg_skip_segment; [| exact Hs |].
    + rewrite <- len_app, app_assoc. apply IH. cbn [List.length] in Hf. lia.
    + rewrite len_app, length_frame_header.
      pose proof (len_nonneg (flat_map Spec.encode_segment segs)).
      pose proof (len_nonneg rest). lia.
Qed.

(** X24.  On a JPEG stream made of the start-of-image marker, any number
    of segments with a length field (a marker code other than FF, D8,
    D9, D1 to D7, 01 and C0) and a baseline frame header that is
    followed by at least one byte, [getImageDims] skips every segment by
    its length, whatever its payload holds, and returns the two 16-bit
    fields that follow the precision byte of the frame header, in the
    order of the file. *)
Theorem jpeg_dims_after_segments (segs : list Spec.segment) :
  Forall Spec.segment_ok segs ->
  imgutils.getImageDims
    ([xff; xd8]%byte ++ flat_map Spec.encode_segment segs
       ++ Spec.frame_header length precision y x rest)
    (Some "image/jpeg"%string)
  = Ok (y, x).
Proof.
  intros Hsegs. unfold imgutils.getImageDims. cbn [String.eqb Ascii.eqb Bool.eqb].
  set (buffer := [xff; xd8]%byte ++ flat_map Spec.encode_segment segs
                   ++ Spec.frame_header length precision y x rest).
  assert (Lb : Py.len buffer
               = 2 + Py.len (flat_map Spec.encode_segment segs) + 9 + Py.len rest).
  { unfold buffer. rewrite !len_app, length_frame_header.
    change (Py.len [xff; xd8]%byte) with 2. lia. }
  pose proof (segments_length segs) as Hn.
  remember (Z.to_nat (Py.len buffer)) as fuel eqn:Ef.
  cbn [imgutils.dims_jpeg].
  destruct (Z.ltb_spec 0 (Py.len buffer)); [| lia ].
  change (imgutils.skip_ff (Py.slice_from buffer 0) 0) with (@Ok Z (0 + 1)).
  cbn [Py.bind].
  assert (Ec : imgutils.byte_at buffer (0 + 1) = Ok 216)
    by (apply (byte_at_app [xff]%byte _ xd8); reflexivity).
  rewrite Ec. cbn [Py.bind]. change (216 =? 216) with true. cbv iota.
  change (0 + 1 + 1) with (Py.len [xff; xd8]%byte).
  apply dims_jpeg_segments; [ exact Hsegs | lia ].
Qed.

End Frame.

Lemma jpeg_dims_after_segments_witness :
  imgutils.getImageDims Examples.jpeg_480_640 (Some "image/jpeg"%string) = Ok (480, 640).
Proof.
  apply (jpeg_dims_after_segments 17 8 480 640 [x03; x01; x22; x00]%byte
           ltac:(lia) ltac:(lia) ltac:(vm_compute; reflexivity) [Examples.jfif_segment]).
  constructor; [| constructor ].
  unfold Spec.segment_ok, Spec.skipped_marker. cbn [fst snd Examples.jfif_segment].
  change (Py.len (repeat x00 14)) with 14. lia.
Defined.

(** ** Property values *)

Lemma range_length (n : Z) : List.length (Py.range n) = Z.to_nat n.
Proof. unfold Py.range. rewrite length_map, length_seq. reflexivity. Qed.

Lemma range_nth (n : Z) (k : nat) :
  (k < Z.to_nat n)%nat -> nth k (Py.range n) 0 = Z.of_nat k.
Proof.
  intros Hk. unfold Py.range. change 0 with (Z.of_nat 0).
  rewrite map_nth, seq_nth by exact Hk. reflexivity.
Qed.

(** The chunks that [struct.unpack] decodes are the slices at the element
    indices. *)
Lemma chunks_range {B} (f : bytes -> B) (size : nat) (count : Z) (data : bytes) :
  map f (Py.chunks size (Z.to_nat count) data)
  = map (fun i => f (Py.slice data (i * Z.of_nat size) ((i + 1) * Z.of_nat size)))
        (Py.range count).
Proof.
  apply (nth_ext _ _ (f []) (f (Py.slice data (0 * Z.of_nat size) ((0 + 1) * Z.of_nat size)))).
  - rewrite !length_map, chunks_length, range_length. reflexivity.
  - intros k Hk. rewrite length_map, chunks_length in Hk.
    rewrite (map_nth f), chunks_nth by exact Hk.
    rewrite (map_nth (fun i => f (Py.slice data (i * Z.of_nat size) ((i + 1) * Z.of_nat size)))).
    rewrite range_nth by exact Hk.
    rewrite slice_nonneg by nia.
    replace (Z.to_nat ((Z.of_nat k + 1) * Z.of_nat size - Z.of_nat k * Z.of_nat size))
      with size by nia.
    replace (Z.to_nat (Z.of_nat k * Z.of_nat size)) with (k * size)%nat by nia.
    reflexivity.
Qed.

(** X25.  For each of the eight integer component types,
    [readScalarValues] returns [count] integers, the [i]-th being the
    little-endian value (two's complement for the signed types) of the
    [i]-th group of bytes, exactly when [count] is not negative and the
    data has [count] times the component size bytes; otherwise it raises
    [struct.error]. *)
Theorem scalar_integers (componentType : string) (signed : bool) (size : nat)
  (count : Z) (data : bytes) :
  Spec.int_type componentType signed size ->
  gltf.readScalarValues (Some componentType) count data
  = if (0 <=? count) && (Py.len data =? count * Z.of_nat size)
    then Ok (map (fun i => gltf.VInt (Spec.int_at signed size data i)) (Py.range count))
    else Raise StructError.
Proof.
  unfold Spec.int_type. cbn [In]. intros H.
  repeat (destruct H as [H | H]; [ inversion H; subst; clear H |]); [ .. | contradiction ].
  all: unfold gltf.readScalarValues;
    cbn [gltf.type_is String.eqb Ascii.eqb Bool.eqb];
    unfold Py.unpack_ints;
    destruct ((0 <=? count) && (Py.len data =? count * Z.of_nat _)); [| reflexivity ];
    cbn [Py.bind]; f_equal; rewrite map_map;
    apply (chunks_range (fun c => gltf.VInt _)).
Qed.

Lemma scalar_integers_witness :
  gltf.readScalarValues (Some "INT16"%string) 2 [xfe; xff; x01; x01]%byte
  = Ok [gltf.VInt (-2); gltf.VInt 257].
Proof.
  exact (scalar_integers "INT16" true 2 2 [xfe; xff; x01; x01]%byte
           ltac:(unfold Spec.int_type; cbn [In]; tauto)).
Defined.

Lemma mapM_nth {A B} (f : A -> result B) (l : list A) (r : list B) (da : A) (db : B) :
  Py.mapM f l = Ok r ->
  forall k, (k < List.length l)%nat -> f (nth k l da) = Ok (nth k r db).
Proof.
  revert r. induction l as [| a t IH]; intros r H k Hk; cbn [List.length] in Hk; [ lia |].
  cbn [Py.mapM] in H. destruct (f a) as [b |] eqn:Ea; [| discriminate ].
  destruct (Py.mapM f t) as [bs |] eqn:Et; [| discriminate ].
  inversion H. subst r. destruct k as [| k]; cbn [nth]; [ exact Ea |].
  apply (IH bs eq_refl). lia.
Qed.

Lemma mapM_ext {A B} (f g : A -> result B) (l : list A) :
  (forall a, f a = g a) -> Py.mapM f l = Py.mapM g l.
Proof.
  intros H. induction l as [| a t IH]; cbn [Py.mapM]; [ reflexivity |].
  rewrite H, IH. reflexivity.
Qed.

(** A loop that appends one value per round, or none at all. *)
Lemma mapM_singletons {A B} (g : A -> result B) (l : list A) (rows : list (list B)) :
  Py.mapM (fun a => b <- g a ;; Ok [b]) l = Ok rows ->
  Py.mapM g l = Ok (List.concat rows).
Proof.
  revert rows. induction l as [| a t IH]; intros rows H; cbn [Py.mapM] in *.
  - inversion H. reflexivity.
  - destruct (g a) as [b |]; cbn [Py.bind] in H; [| discriminate ].
    destruct (Py.mapM (fun a => b <- g a;; Ok [b]) t) as [rs |]; [| discriminate ].
    rewrite (IH rs eq_refl). inversion H. reflexivity.
Qed.

Lemma mapM_nothing {A B} (l : list A) (rows : list (list B)) :
  Py.mapM (fun _ : A => Ok (@nil B)) l = Ok rows -> List.concat rows = [].
Proof.
  revert rows. induction l as [| a t IH]; intros rows H; cbn [Py.mapM] in H.
  - inversion H. reflexivity.
  - destruct (Py.mapM (fun _ : A => Ok []) t) as [rs |]; [| discriminate ].
    inversion H. cbn [List.concat app]. apply IH. reflexivity.
Qed.

(** X26.  When [readFixedSizeArrayValues] returns for one of the ten
    known component types, it returns [arrayCount] rows (none for a
    negative count), and row [i] is what [readScalarValues] reads as
    [componentCount] values from the [i]-th group of [elementSize]
    bytes.  For any other component type it returns no rows at all. *)
Theorem fixed_array_rows (componentType : string) (arrayCount componentCount : Z)
  (data : bytes) (rows : list gltf.value) :
  gltf.readFixedSizeArrayValues componentType arrayCount componentCount data = Ok rows ->
  if gltf.is_component_type componentType then
    Py.len rows = Z.max 0 arrayCount
    /\ forall i, 0 <= i < arrayCount ->
         exists vs,
           Py.index rows i = Ok (gltf.VSeq vs)
           /\ Py.len vs = componentCount
           /\ gltf.readScalarValues (Some componentType) componentCount
                (Py.slice data
                   (i * (gltf.componentTypeSizeInBytes (Some componentType) * componentCount))
                   ((i + 1) * (gltf.componentTypeSizeInBytes (Some componentType)
                               * componentCount))) = Ok vs
  else rows = [].
Proof.
  unfold gltf.readFixedSizeArrayValues.
  set (elementSize := gltf.componentTypeSizeInBytes (Some componentType) * componentCount).
  intros H.
  destruct (elementSize =? 0); [ discriminate |].
  destruct (if 0 <? elementSize then _ else _); [ discriminate |].
  destruct (gltf.is_component_type componentType).
  - destruct (Py.mapM _ (Py.range arrayCount)) as [rs |] eqn:Em;
      cbn [Py.bind] in H; [| discriminate ].
    inversion H. clear H.
    set (g := fun i : Z =>
                vs <- gltf.readScalarValues (Some componentType) componentCount
                        (Py.slice data (i * elementSize) ((i + 1) * elementSize)) ;;
                Ok (gltf.VSeq vs)).
    assert (Eg : Py.mapM g (Py.range arrayCount) = Ok (List.concat rs)).
    { apply mapM_singletons. rewrite <- Em. unfold g.
      apply mapM_ext. intros i.
      destruct (gltf.readScalarValues _ _ _); reflexivity. }
    pose proof (mapM_len _ _ _ Eg) as Hl. rewrite range_length in Hl.
    split; [ unfold Py.len; lia |].
    intros i Hi.
    pose proof (mapM_nth g _ _ 0 (gltf.VSeq []) Eg (Z.to_nat i)
                  ltac:(rewrite range_length; lia)) as Hk.
    rewrite range_nth, Z2Nat.id in Hk by lia. unfold g in Hk.
    destruct (gltf.readScalarValues _ _ _) as [vs |] eqn:Er; cbn [Py.bind] in Hk;
      [| discriminate ].
    exists vs. split; [| split; [ exact (readScalarValues_len _ _ _ _ Er) | reflexivity ] ].
    rewrite (index_nth _ _ (gltf.VSeq [])) by (unfold Py.len; lia).
    inversion Hk. reflexivity.
  - destruct (Py.mapM _ (Py.range arrayCount)) as [rs |] eqn:Em;
      cbn [Py.bind] in H; [| discriminate ].
    inversion H. apply (mapM_nothing _ _ Em).
Qed.

Lemma fixed_array_rows_witness :
  gltf.readFixedSizeArrayValues "UINT8" 2 3 [x01; x02; x03; x04; x05; x06]%byte
  = Ok [gltf.VSeq [gltf.VInt 1; gltf.VInt 2; gltf.VInt 3];
        gltf.VSeq [gltf.VInt 4; gltf.VInt 5; gltf.VInt 6]]
  /\ Py.len [gltf.VSeq [gltf.VInt 1; gltf.VInt 2; gltf.VInt 3];
             gltf.VSeq [gltf.VInt 4; gltf.VInt 5; gltf.VInt 6]] = Z.max 0 2
  /\ gltf.readFixedSizeArrayValues "UINT9" 2 3 [x01; x02; x03; x04; x05; x06]%byte = Ok [].
Proof.
  split; [ reflexivity |]. split.
  - exact (proj1 (fixed_array_rows "UINT8" 2 3 [x01; x02; x03; x04; x05; x06]%byte _ eq_refl)).
  - reflexivity.
Defined.

Lemma dict_set_In {A} (key : string) (x : A) (o : list (string * A)) (p : string) (v : A) :
  In (p, v) (gltf.dict_set key x o) -> (p = key /\ v = x) \/ In (p, v) o.
Proof.
  induction o as [| [k y] r IH]; cbn [gltf.dict_set In].
  - intros [H | []]. inversion H. left. split; reflexivity.
  - destruct (String.eqb_spec k key) as [-> | Hk]; cbn [In].
    + intros [H | H]; [ inversion H; left; split; reflexivity | right; right; exact H ].
    + intros [H | H]; [ right; left; exact H |].
      destruct (IH H) as [E | E]; [ left; exact E | right; right; exact E ].
Qed.

Lemma dict_set_keys {A} (key : string) (x : A) (o : list (string * A)) (q : string) :
  In q (map fst (gltf.dict_set key x o)) <-> q = key \/ In q (map fst o).
Proof.
  induction o as [| [k y] r IH]; cbn [gltf.dict_set map fst In].
  - split; [ intros [H | []]; left; congruence | intros [H | []]; left; congruence ].
  - destruct (String.eqb_spec k key) as [-> | Hk]; cbn [map fst In].
    + split; [ intros [H | H]; [ left; congruence | right; right; exact H ] |].
      intros [H | [H | H]]; [ left; congruence | left; exact H | right; exact H ].
    + rewrite IH. split.
      * intros [H | [H | H]]; [ right; left; exact H | left; exact H | right; right; exact H ].
      * intros [H | [H | H]]; [ right; left; exact H | left; exact H | right; right; exact H ].
Qed.

Section AllValues.

Variable d : gltf.GltfDocument.
Variable ftName : string.
Variable filterPropName : option string.

Lemma collectProperties_decoded (propNames : list string) :
  forall res res',
    Spec.decoded d ftName filterPropName res ->
    gltf.collectProperties d ftName filterPropName propNames res = Ok res' ->
    Spec.decoded d ftName filterPropName res'
    /\ forall q, In q (map fst res') <->
                 In q (map fst res) \/ (In q propNames /\ Spec.passes filterPropName q).
Proof.
  induction propNames as [| n rest IH]; intros res res' Hres H; cbn [gltf.collectProperties] in H.
  - inversion H. subst res'. split; [ exact Hres |].
    intros q. cbn [In]. tauto.
  - assert (Hskip : (match filterPropName with
                     | Some f => negb (String.eqb n f)
                     | None => false
                     end) = false <-> Spec.passes filterPropName n).
    { unfold Spec.passes. destruct filterPropName as [f |]; [| tauto ].
      destruct (String.eqb_spec n f); cbn [negb]; split; congruence. }
    destruct (match filterPropName with
              | Some f => negb (String.eqb n f)
              | None => false
              end) eqn:Ef.
    + destruct (IH _ _ Hres H) as [Hd Hk]. split; [ exact Hd |].
      intros q. rewrite Hk. cbn [In]. split; [ tauto |].
      intros [Hq | [[<- | Hq] Hp]]; [ tauto | | tauto ].
      apply Hskip in Hp. discriminate.
    + destruct (gltf.getFeatureTablePropertyValues d ftName n) as [v |] eqn:Ev;
        cbn [Py.bind] in H; [| discriminate ].
      assert (Hres' : Spec.decoded d ftName filterPropName (gltf.dict_set n v res)).
      { intros p w Hin. apply dict_set_In in Hin. destruct Hin as [[-> ->] | Hin].
        - split; [ exact Ev | apply Hskip; reflexivity ].
        - apply Hres. exact Hin. }
      destruct (IH _ _ Hres' H) as [Hd Hk]. split; [ exact Hd |].
      intros q. rewrite Hk, dict_set_keys. cbn [In].
      assert (Spec.passes filterPropName n) by (apply Hskip; reflexivity).
      split; [ intros [[-> | Hq] | Hq]; tauto | intros [Hq | [[<- | Hq] Hp]]; tauto ].
Qed.

Lemma collectTables_decoded (tables : list gltf.FeatureTable) :
  forall res found res' found',
    Spec.decoded d ftName filterPropName res ->
    gltf.collectTables d ftName filterPropName tables res found = Ok (res', found') ->
    Spec.decoded d ftName filterPropName res'
    /\ (found' = true <->
        found = true \/ exists t, In t tables /\ gltf.ft_name t = ftName)
    /\ forall q, In q (map fst res') <->
         In q (map fst res)
         \/ (exists t, In t tables /\ gltf.ft_name t = ftName
                       /\ In q (map fst (gltf.ft_properties t))) /\ Spec.passes filterPropName q.
Proof.
  induction tables as [| t rest IH]; intros res found res' found' Hres H;
    cbn [gltf.collectTables] in H.
  - inversion H. subst. split; [ exact Hres |]. split.
    + split; [ tauto | intros [E | [t [[] _]]]; exact E ].
    + intros q. split; [ tauto | intros [E | [[t [[] _]] _]]; exact E ].
  - destruct (String.eqb_spec (gltf.ft_name t) ftName) as [Hn | Hn].
    + destruct (gltf.collectProperties d ftName filterPropName _ res) as [r1 |] eqn:Ep;
        cbn [Py.bind] in H; [| discriminate ].
      destruct (collectProperties_decoded _ _ _ Hres Ep) as [Hd1 Hk1].
      destruct (IH _ _ _ _ Hd1 H) as (Hd & Hf & Hk).
      split; [ exact Hd |]. split.
      * rewrite Hf. split; [| tauto ]. intros _. right. exists t. split; [ left; reflexivity | exact Hn ].
      * intros q. rewrite Hk, Hk1. cbn [In]. split.
        -- intros [[Hq | [Hq Hp]] | [[u [Hu [Hun Huq]]] Hp]].
           ++ left. exact Hq.
           ++ right. split; [| exact Hp ]. exists t. tauto.
           ++ right. split; [| exact Hp ]. exists u. tauto.
        -- intros [Hq | [[u [[<- | Hu] [Hun Huq]]] Hp]].
           ++ left. left. exact Hq.
           ++ left. right. tauto.
           ++ right. split; [| exact Hp ]. exists u. tauto.
    + destruct (IH _ _ _ _ Hres H) as (Hd & Hf & Hk).
      split; [ exact Hd |]. split.
      * rewrite Hf. cbn [In]. split.
        -- intros [E | [u [Hu Hun]]]; [ left; exact E | right; exists u; tauto ].
        -- intros [E | [u [[<- | Hu] Hun]]]; [ left; exact E | contradiction | right; exists u; tauto ].
      * intros q. rewrite Hk. cbn [In]. split.
        -- intros [Hq | [[u [Hu Hx]] Hp]]; [ left; exact Hq |].
           right. split; [| exact Hp ]. exists u. tauto.
        -- intros [Hq | [[u [[<- | Hu] [Hun Huq]]] Hp]];
             [ left; exact Hq | contradiction |].
           right. split; [| exact Hp ]. exists u. tauto.
Qed.

(** X27.  When [getAllFeatureTablePropertyValues] returns a dict, some
    table has the name asked for, every entry of the dict is what
    [getFeatureTablePropertyValues] returns for its key, and the keys
    are exactly the property names of the tables of that name that pass
    the filter. *)
Theorem all_property_values (res : list (string * option (list gltf.value))) :
  gltf.getAllFeatureTablePropertyValues d ftName filterPropName = Ok res ->
  (exists t, In t (gltf.propertyTables d) /\ gltf.ft_name t = ftName)
  /\ (forall p v, In (p, v) res ->
        gltf.getFeatureTablePropertyValues d ftName p = Ok v)
  /\ (forall q, In q (map fst res) <->
        (exists t, In t (gltf.propertyTables d) /\ gltf.ft_name t = ftName
                   /\ In q (map fst (gltf.ft_properties t)))
        /\ Spec.passes filterPropName q).
Proof.
  unfold gltf.getAllFeatureTablePropertyValues. intros H.
  destruct (gltf.collectTables d ftName filterPropName (gltf.propertyTables d) [] false)
    as [[r found] |] eqn:Ec; cbn [Py.bind] in H; [| discriminate ].
  destruct found; cbn [negb] in H; [| discriminate ].
  inversion H. subst r. clear H.
  assert (H0 : Spec.decoded d ftName filterPropName []) by (intros p v []).
  destruct (collectTables_decoded _ _ _ _ _ H0 Ec) as (Hd & Hf & Hk).
  split; [| split ].
  - destruct (proj1 Hf eq_refl) as [E | E]; [ discriminate | exact E ].
  - intros p v Hin. apply (Hd p v Hin).
  - intros q. rewrite Hk. cbn [map In]. tauto.
Qed.

(** X28.  [getAllFeatureTablePropertyValues] raises ['There is no table
    with name ...'] when no table has the name asked for, whatever the
    filter is. *)
Theorem all_property_values_unknown_table :
  (forall t, In t (gltf.propertyTables d) -> gltf.ft_name t <> ftName) ->
  gltf.getAllFeatureTablePropertyValues d ftName filterPropName
  = Raise (Exception "There is no table with name '").
Proof.
  intros Hno. unfold gltf.getAllFeatureTablePropertyValues.
  assert (E : forall tables res,
             (forall t, In t tables -> gltf.ft_name t <> ftName) ->
             gltf.collectTables d ftName filterPropName tables res false = Ok (res, false)).
  { induction tables as [| t rest IH]; intros res Ht; cbn [gltf.collectTables];
      [ reflexivity |].
    destruct (String.eqb_spec (gltf.ft_name t) ftName) as [Hn | Hn].
    - exfalso. apply (Ht t); [ left; reflexivity | exact Hn ].
    - apply IH. intros u Hu. apply Ht. right. exact Hu. }
  rewrite (E _ _ Hno). reflexivity.
Qed.

End AllValues.

Lemma all_property_values_witness :
  gltf.getAllFeatureTablePropertyValues Examples.bool_doc "t" None
  = Ok [("p"%string,
         Some (map gltf.VBool
                 [true; false; true; false; false; true; false; true; false; true]))]
  /\ gltf.getFeatureTablePropertyValues Examples.bool_doc "t" "p"
     = Ok (Some (map gltf.VBool
                   [true; false; true; false; false; true; false; true; false; true])).
Proof.
  split; [ reflexivity |].
  apply (proj1 (proj2 (all_property_values Examples.bool_doc "t" None _ eq_refl))).
  left. reflexivity.
Defined.

Lemma all_property_values_unknown_table_witness :
  gltf.getAllFeatureTablePropertyValues Examples.bool_doc "u" (Some "p"%string)
  = Raise (Exception "There is no table with name '").
Proof.
  apply (all_property_values_unknown_table Examples.bool_doc "u" (Some "p"%string)).
  intros t [<- | []]. discriminate.
Defined.

(** All integers from [lo] to [hi]. *)
Lemma in_interval (lo hi z : Z) :
  lo <= z <= hi -> In z (map (fun k => lo + Z.of_nat k) (seq 0 (Z.to_nat (hi - lo + 1)))).
Proof.
  intros Hz. apply in_map_iff. exists (Z.to_nat (z - lo)).
  split; [ lia | apply in_seq; lia ].
Qed.

(** X29.  [denormalize] maps every UINT8 value (0 to 255) to a float
    between 0 and 1, and every INT8 value (-128 to 127) to a float
    between -1 and 1: the quotient -128/127 is raised to -1. *)
Theorem denormalize_range (componentType : string) (lo hi z : Z) :
  Spec.normalized_range componentType lo hi ->
  lo <= z <= hi ->
  exists f,
    gltf.denormalize (Some componentType) (gltf.VInt z) = Ok f
    /\ SFleb (gltf.float_of_Z (if lo <? 0 then -1 else 0)) f = true
    /\ SFleb f (gltf.float_of_Z 1) = true.
Proof.
  intros Ht Hz.
  assert (Hall : forallb (fun z =>
                   match gltf.denormalize (Some componentType) (gltf.VInt z) with
                   | Ok f => SFleb (gltf.float_of_Z (if lo <? 0 then -1 else 0)) f
                             && SFleb f (gltf.float_of_Z 1)
                   | Raise _ => false
                   end)
                   (map (fun k => lo + Z.of_nat k) (seq 0 (Z.to_nat (hi - lo + 1)))) = true).
  { unfold Spec.normalized_range in Ht. cbn [In] in Ht.
    repeat (destruct Ht as [Ht | Ht]; [ inversion Ht; subst; clear Ht |]);
      [ .. | contradiction ]; vm_compute; reflexivity. }
  rewrite forallb_forall in Hall. specialize (Hall z (in_interval lo hi z Hz)).
  destruct (gltf.denormalize (Some componentType) (gltf.VInt z)) as [f |]; [| discriminate ].
  apply andb_true_iff in Hall. exists f. split; [ reflexivity | exact Hall ].
Qed.

Lemma denormalize_range_witness :
  exists f,
    gltf.denormalize (Some "INT8"%string) (gltf.VInt (-128)) = Ok f
    /\ SFleb (gltf.float_of_Z (-1)) f = true
    /\ SFleb f (gltf.float_of_Z 1) = true.
Proof.
  apply (denormalize_range "INT8" (-128) 127 (-128)).
  - unfold Spec.normalized_range. cbn [In]. tauto.
  - lia.
Defined.
